(** * auto-pump: the mode controller of [main.py], embedded in Rocq

    The MicroPython firmware drives a pump relay from a rotary knob, a
    push button, a two-position mode switch and a periodic tick, and a
    background thread that uploads the load and the mode.  This file
    embeds the controller ([Pump], [AutoPump]), the publisher
    ([sendDatapoint], [_networkThread]) and the hardware they touch as
    explicit state passing over one record, and states the properties of
    the controller over that embedding.

    Conventions of the embedding:
    - [time.time()] is MicroPython's integer second counter: a handler
      receives the value it reads as an argument [now : Z];
    - the percentage of [checkLoadToStop] and the countdown of the timer
      job are computed in the float arithmetic of the MicroPython build,
      which the source does not fix: it is a parameter ([Float]), with
      the IEEE 754 formats and exact rationals as instances;
    - [a / 60] on integers is MicroPython's true division: both integers
      are converted to floats and the floats are divided; [int] truncates
      the quotient toward zero and raises on an infinity.  The countdown
      of the timer job is embedded that way ([int_div]).  The elapsed
      minutes drawn next to the animation of the auto pumping screen are
      kept as the exact truncated quotient ([Z.quot]): the rounding of
      that quotient is not part of the model;
    - an uncaught Python exception is the [Raise] case of [result];
    - [print] and [time.sleep] have no effect on the state and are left
      out. *)

From Stdlib Require Import ZArith QArith Lia Bool List SpecFloat.
From stdpp Require Import base gmap strings list.

Local Open Scope Z_scope.

(** ** Macros of [main.py] *)

Definition SWITCH_AUTO : Z := 1.
Definition DATA_RETRY_COUNT : nat := 3.
Definition DATA_DELAY_SEC : Z := 15.
Definition CONNECTION_DELAY_SEC : nat := 10.
Definition AUTO_READ_DELAY : Z := 30.

Definition PUMP_MEASUREMENT : string := "pump_load".
Definition PUMP_MODE : string := "pump_mode".

Definition DEFAULT_AUTO_PUMP_THRESHOLD : Z := 60.
Definition DEFAULT_AUTO_WATER_LOAD : Z := 2000.

(** ** Data model *)

(** [AutoPump.MODE_*]; [mode_code] is the integer the source stores. *)
Inductive mode : Set :=
| MODE_AUTO_STANDBY
| MODE_AUTO_PUMPING
| MODE_TIMER_STANDBY
| MODE_TIMER_PUMPING.

Definition mode_code (m : mode) : Z :=
  match m with
  | MODE_AUTO_STANDBY => 0
  | MODE_AUTO_PUMPING => 1
  | MODE_TIMER_STANDBY => 2
  | MODE_TIMER_PUMPING => 3
  end.

(** [AutoPump.AUTO_MODE_MENU], [AUTO_CALIB_THRESHOLD], [AUTO_CALIB_WATER]:
    the values of [self.AutoMode]; the same integers index [AutoMenu]. *)
Inductive auto_mode : Set :=
| AUTO_MODE_MENU
| AUTO_CALIB_THRESHOLD
| AUTO_CALIB_WATER.

Definition auto_code (a : auto_mode) : Z :=
  match a with
  | AUTO_MODE_MENU => 0
  | AUTO_CALIB_THRESHOLD => 1
  | AUTO_CALIB_WATER => 2
  end.

Definition AUTO_MENU_RUN : Z := 0.

Definition AutoMenu : list string := ["AUTO"; "RATO"; "CALR"]%string.

(** figure 8: a,b,g,e,d,c,g,f *)
Definition AutoAnimation : list Z := [1; 2; 64; 16; 8; 4; 64; 32].

(** [self.AutoMenu[i]] and [self.AutoAnimation[i]].  The indices are
    [AutoMenuSelected], which the code only ever sets to [0] or to
    [value % 3], and [AutoAnimationIdx], which it keeps below [8].
    Python raises [IndexError] on an index beyond the list and counts a
    negative index from the end; here the empty string and [0] stand for
    an index outside the list, which no reachable state has (see the
    invariants [controller_inv] and [countdown_inv]). *)
Definition AutoMenu_at (i : Z) : string :=
  if i <? 0 then ""%string else default ""%string (AutoMenu !! Z.to_nat i).

Definition AutoAnimation_at (i : Z) : Z :=
  if i <? 0 then 0 else default 0 (AutoAnimation !! Z.to_nat i).

(** What the four-digit display shows: the argument of the last
    [show], [number] or raw [write] (animation glyph and the minutes
    rendered next to it). *)
Inductive content : Set :=
| Text (s : string)
| Number (n : Z)
| Segments (glyph : Z) (minutes : Z).

(** Effects on the hardware and on the flash file, in the order the
    code issues them. *)
Inductive effect : Type :=
| E_pump_on
| E_pump_off
| E_adc_sample
| E_show (s : string)
| E_number (n : Z)
| E_brightness (b : Z)
| E_write (glyph : Z) (minutes : Z)
| E_save (cfg : gmap string Z).

Inductive exn : Set :=
| ZeroDivisionError
| ValueError
| OverflowError.

Inductive result (A : Type) : Type :=
| Ok (a : A)
| Raise (e : exn).
Arguments Ok {A} a.
Arguments Raise {A} e.

(** The [AutoPump] object with what it owns: the config dict, the file
    [/config.py] behind it, the [Pump] ([PumpPower] pin and [StartTime]),
    the encoder counter, the display, and the controller fields.  [Log]
    holds the effects issued so far, the most recent first. *)
Record AutoPump : Type := mkAutoPump {
  Config : gmap string Z;
  config_py : gmap string Z;
  PumpPower : bool;
  StartTime : Z;
  EncoderKnob : Z;
  Display : content;
  Brightness : Z;
  Log : list effect;
  Mode : mode;
  LastDataUpdate : Z;
  PumpStartTime : Z;
  RemainingPumpMinutes : Z;
  SecondsToPump : Z;
  AutoThreshold : Z;
  AutoWaterLoad : Z;
  AutoMode : auto_mode;
  AutoMenuSelected : Z;
  AutoAnimationIdx : Z
}.

(** Field updates ([self.F = v]). *)

Definition set_Config (v : gmap string Z) (s : AutoPump) : AutoPump :=
  mkAutoPump v (config_py s) (PumpPower s) (StartTime s) (EncoderKnob s)
    (Display s) (Brightness s) (Log s) (Mode s) (LastDataUpdate s)
    (PumpStartTime s) (RemainingPumpMinutes s) (SecondsToPump s)
    (AutoThreshold s) (AutoWaterLoad s) (AutoMode s) (AutoMenuSelected s)
    (AutoAnimationIdx s).

Definition set_config_py (v : gmap string Z) (s : AutoPump) : AutoPump :=
  mkAutoPump (Config s) v (PumpPower s) (StartTime s) (EncoderKnob s)
    (Display s) (Brightness s) (Log s) (Mode s) (LastDataUpdate s)
    (PumpStartTime s) (RemainingPumpMinutes s) (SecondsToPump s)
    (AutoThreshold s) (AutoWaterLoad s) (AutoMode s) (AutoMenuSelected s)
    (AutoAnimationIdx s).

Definition set_PumpPower (v : bool) (s : AutoPump) : AutoPump :=
  mkAutoPump (Config s) (config_py s) v (StartTime s) (EncoderKnob s)
    (Display s) (Brightness s) (Log s) (Mode s) (LastDataUpdate s)
    (PumpStartTime s) (RemainingPumpMinutes s) (SecondsToPump s)
    (AutoThreshold s) (AutoWaterLoad s) (AutoMode s) (AutoMenuSelected s)
    (AutoAnimationIdx s).

Definition set_StartTime (v : Z) (s : AutoPump) : AutoPump :=
  mkAutoPump (Config s) (config_py s) (PumpPower s) v (EncoderKnob s)
    (Display s) (Brightness s) (Log s) (Mode s) (LastDataUpdate s)
    (PumpStartTime s) (RemainingPumpMinutes s) (SecondsToPump s)
    (AutoThreshold s) (AutoWaterLoad s) (AutoMode s) (AutoMenuSelected s)
    (AutoAnimationIdx s).

Definition set_EncoderKnob (v : Z) (s : AutoPump) : AutoPump :=
  mkAutoPump (Config s) (config_py s) (PumpPower s) (StartTime s) v
    (Display s) (Brightness s) (Log s) (Mode s) (LastDataUpdate s)
    (PumpStartTime s) (RemainingPumpMinutes s) (SecondsToPump s)
    (AutoThreshold s) (AutoWaterLoad s) (AutoMode s) (AutoMenuSelected s)
    (AutoAnimationIdx s).

Definition set_Display (v : content) (s : AutoPump) : AutoPump :=
  mkAutoPump (Config s) (config_py s) (PumpPower s) (StartTime s)
    (EncoderKnob s) v (Brightness s) (Log s) (Mode s) (LastDataUpdate s)
    (PumpStartTime s) (RemainingPumpMinutes s) (SecondsToPump s)
    (AutoThreshold s) (AutoWaterLoad s) (AutoMode s) (AutoMenuSelected s)
    (AutoAnimationIdx s).

Definition set_Brightness (v : Z) (s : AutoPump) : AutoPump :=
  mkAutoPump (Config s) (config_py s) (PumpPower s) (StartTime s)
    (EncoderKnob s) (Display s) v (Log s) (Mode s) (LastDataUpdate s)
    (PumpStartTime s) (RemainingPumpMinutes s) (SecondsToPump s)
    (AutoThreshold s) (AutoWaterLoad s) (AutoMode s) (AutoMenuSelected s)
    (AutoAnimationIdx s).

Definition set_Log (v : list effect) (s : AutoPump) : AutoPump :=
  mkAutoPump (Config s) (config_py s) (PumpPower s) (StartTime s)
    (EncoderKnob s) (Display s) (Brightness s) v (Mode s) (LastDataUpdate s)
    (PumpStartTime s) (RemainingPumpMinutes s) (SecondsToPump s)
    (AutoThreshold s) (AutoWaterLoad s) (AutoMode s) (AutoMenuSelected s)
    (AutoAnimationIdx s).

Definition set_Mode (v : mode) (s : AutoPump) : AutoPump :=
  mkAutoPump (Config s) (config_py s) (PumpPower s) (StartTime s)
    (EncoderKnob s) (Display s) (Brightness s) (Log s) v (LastDataUpdate s)
    (PumpStartTime s) (RemainingPumpMinutes s) (SecondsToPump s)
    (AutoThreshold s) (AutoWaterLoad s) (AutoMode s) (AutoMenuSelected s)
    (AutoAnimationIdx s).

Definition set_LastDataUpdate (v : Z) (s : AutoPump) : AutoPump :=
  mkAutoPump (Config s) (config_py s) (PumpPower s) (StartTime s)
    (EncoderKnob s) (Display s) (Brightness s) (Log s) (Mode s) v
    (PumpStartTime s) (RemainingPumpMinutes s) (SecondsToPump s)
    (AutoThreshold s) (AutoWaterLoad s) (AutoMode s) (AutoMenuSelected s)
    (AutoAnimationIdx s).

Definition set_PumpStartTime (v : Z) (s : AutoPump) : AutoPump :=
  mkAutoPump (Config s) (config_py s) (PumpPower s) (StartTime s)
    (EncoderKnob s) (Display s) (Brightness s) (Log s) (Mode s)
    (LastDataUpdate s) v (RemainingPumpMinutes s) (SecondsToPump s)
    (AutoThreshold s) (AutoWaterLoad s) (AutoMode s) (AutoMenuSelected s)
    (AutoAnimationIdx s).

Definition set_RemainingPumpMinutes (v : Z) (s : AutoPump) : AutoPump :=
  mkAutoPump (Config s) (config_py s) (PumpPower s) (StartTime s)
    (EncoderKnob s) (Display s) (Brightness s) (Log s) (Mode s)
    (LastDataUpdate s) (PumpStartTime s) v (SecondsToPump s)
    (AutoThreshold s) (AutoWaterLoad s) (AutoMode s) (AutoMenuSelected s)
    (AutoAnimationIdx s).

Definition set_SecondsToPump (v : Z) (s : AutoPump) : AutoPump :=
  mkAutoPump (Config s) (config_py s) (PumpPower s) (StartTime s)
    (EncoderKnob s) (Display s) (Brightness s) (Log s) (Mode s)
    (LastDataUpdate s) (PumpStartTime s) (RemainingPumpMinutes s) v
    (AutoThreshold s) (AutoWaterLoad s) (AutoMode s) (AutoMenuSelected s)
    (AutoAnimationIdx s).

Definition set_AutoThreshold (v : Z) (s : AutoPump) : AutoPump :=
  mkAutoPump (Config s) (config_py s) (PumpPower s) (StartTime s)
    (EncoderKnob s) (Display s) (Brightness s) (Log s) (Mode s)
    (LastDataUpdate s) (PumpStartTime s) (RemainingPumpMinutes s)
    (SecondsToPump s) v (AutoWaterLoad s) (AutoMode s) (AutoMenuSelected s)
    (AutoAnimationIdx s).

Definition set_AutoWaterLoad (v : Z) (s : AutoPump) : AutoPump :=
  mkAutoPump (Config s) (config_py s) (PumpPower s) (StartTime s)
    (EncoderKnob s) (Display s) (Brightness s) (Log s) (Mode s)
    (LastDataUpdate s) (PumpStartTime s) (RemainingPumpMinutes s)
    (SecondsToPump s) (AutoThreshold s) v (AutoMode s) (AutoMenuSelected s)
    (AutoAnimationIdx s).

Definition set_AutoMode (v : auto_mode) (s : AutoPump) : AutoPump :=
  mkAutoPump (Config s) (config_py s) (PumpPower s) (StartTime s)
    (EncoderKnob s) (Display s) (Brightness s) (Log s) (Mode s)
    (LastDataUpdate s) (PumpStartTime s) (RemainingPumpMinutes s)
    (SecondsToPump s) (AutoThreshold s) (AutoWaterLoad s) v
    (AutoMenuSelected s) (AutoAnimationIdx s).

Definition set_AutoMenuSelected (v : Z) (s : AutoPump) : AutoPump :=
  mkAutoPump (Config s) (config_py s) (PumpPower s) (StartTime s)
    (EncoderKnob s) (Display s) (Brightness s) (Log s) (Mode s)
    (LastDataUpdate s) (PumpStartTime s) (RemainingPumpMinutes s)
    (SecondsToPump s) (AutoThreshold s) (AutoWaterLoad s) (AutoMode s) v
    (AutoAnimationIdx s).

Definition set_AutoAnimationIdx (v : Z) (s : AutoPump) : AutoPump :=
  mkAutoPump (Config s) (config_py s) (PumpPower s) (StartTime s)
    (EncoderKnob s) (Display s) (Brightness s) (Log s) (Mode s)
    (LastDataUpdate s) (PumpStartTime s) (RemainingPumpMinutes s)
    (SecondsToPump s) (AutoThreshold s) (AutoWaterLoad s) (AutoMode s)
    (AutoMenuSelected s) v.

(** ** Collaborators: pump, encoder, display, config file *)

Definition emit (e : effect) (s : AutoPump) : AutoPump :=
  set_Log (e :: Log s) s.

(** Python truthiness of an integer, as in [if now % 2:]. *)
Definition truthy (z : Z) : bool := negb (z =? 0).

(** [Pump.on]: energize the relay, record the start time. *)
Definition Pump_on (now : Z) (s : AutoPump) : AutoPump :=
  let s := set_PumpPower true (emit E_pump_on s) in
  set_StartTime now s.

(** [Pump.off]: release the relay, clear the start time. *)
Definition Pump_off (s : AutoPump) : AutoPump :=
  let s := set_PumpPower false (emit E_pump_off s) in
  set_StartTime 0 s.

Definition Pump_isOn (s : AutoPump) : bool := PumpPower s.

Definition Pump_getElapsedTime (now : Z) (s : AutoPump) : Z :=
  if Pump_isOn s then now - StartTime s else 0.

(** The readings of one sampling window of [Pump.getLoad]: the first
    [PumpSensor.read()] and those taken inside the [while] loop. *)
Definition window : Type := Z * list Z.

(** The loop of [Pump.getLoad]: running minimum and maximum. *)
Fixpoint swing (low high : Z) (reads : list Z) : Z * Z :=
  match reads with
  | [] => (low, high)
  | r :: reads => swing (Z.min low r) (Z.max high r) reads
  end.

(** The value [Pump.getLoad] returns: the peak-to-peak swing
    [high - low] of the window. *)
Definition peak_to_peak (adc : window) : Z :=
  let low := fst adc in
  let high := low in
  let '(low, high) := swing low high (snd adc) in
  high - low.

(** [Pump.getLoad]: samples the sensor for one window.  The readings
    the loop takes until its deadline on the millisecond counter are
    given as [adc]; the loop itself, and with it a call that does not
    return, is not embedded. *)
Definition Pump_getLoad (adc : window) (s : AutoPump) : Z * AutoPump :=
  (peak_to_peak adc, emit E_adc_sample s).

(** Modelled from the spec: [EncoderKnob.value] of the encoder driver,
    which is not in the repository.  The knob is decoded to a signed
    counter that can be forcibly reset to an arbitrary value:
    [value()] reads the counter, [value(v)] resets it to [v] and returns
    the counter. *)
Definition EncoderKnob_value (v : option Z) (s : AutoPump) : Z * AutoPump :=
  match v with
  | None => (EncoderKnob s, s)
  | Some v => (v, set_EncoderKnob v s)
  end.

(** Modelled from the spec: a rotation of the knob moves the counter by
    [change] before the driver calls [rotary_callback(change)]. *)
Definition EncoderKnob_turn (change : Z) (s : AutoPump) : AutoPump :=
  set_EncoderKnob (EncoderKnob s + change) s.

Definition Display_show (t : string) (s : AutoPump) : AutoPump :=
  set_Display (Text t) (emit (E_show t) s).

Definition Display_number (n : Z) (s : AutoPump) : AutoPump :=
  set_Display (Number n) (emit (E_number n) s).

Definition Display_brightness (b : Z) (s : AutoPump) : AutoPump :=
  set_Brightness b (emit (E_brightness b) s).

Definition Display_write (glyph minutes : Z) (s : AutoPump) : AutoPump :=
  set_Display (Segments glyph minutes) (emit (E_write glyph minutes) s).

(** [saveConfig(config)]: the whole dict overwrites [/config.py]. *)
Definition saveConfig (s : AutoPump) : AutoPump :=
  set_config_py (Config s) (emit (E_save (Config s)) s).

(** ** [AutoPump] handlers *)

(** [AutoPump.handleSwitch]; [pos] is [self.Switch.value()]. *)
Definition handleSwitch_mode (pos : Z) (s : AutoPump) : AutoPump :=
  if negb (pos =? SWITCH_AUTO) then
    let '(v, s) := EncoderKnob_value (Some 0) s in
    let s := set_RemainingPumpMinutes v s in
    let s := Display_number (RemainingPumpMinutes s) s in
    set_Mode MODE_TIMER_STANDBY s
  else
    let s := Display_show "AUTO" s in
    set_Mode MODE_AUTO_STANDBY s.

Definition handleSwitch (pos : Z) (s : AutoPump) : AutoPump :=
  (* Always stop the pump when the mode changes *)
  let s := Pump_off s in
  handleSwitch_mode pos s.

(** [AutoPump.handleKnob]. *)
Definition handleKnob (change : Z) (s : AutoPump) : AutoPump :=
  match Mode s with
  | MODE_TIMER_STANDBY =>
      let '(value, s) := EncoderKnob_value None s in
      let '(value, s) :=
        if value <? 0 then EncoderKnob_value (Some 0) s else (value, s) in
      let s := set_RemainingPumpMinutes value s in
      Display_number (RemainingPumpMinutes s) s
  | MODE_AUTO_STANDBY =>
      match AutoMode s with
      | AUTO_MODE_MENU =>
          let '(value, s) := EncoderKnob_value None s in
          let s :=
            set_AutoMenuSelected (value mod Z.of_nat (length AutoMenu)) s in
          Display_show (AutoMenu_at (AutoMenuSelected s)) s
      | AUTO_CALIB_THRESHOLD =>
          let '(value, s) := EncoderKnob_value None s in
          let '(value, s) :=
            if value <? 0 then EncoderKnob_value (Some 0) s else (value, s) in
          let '(value, s) :=
            if value >? 100 then EncoderKnob_value (Some 100) s
            else (value, s) in
          let s := set_AutoThreshold value s in
          Display_number (AutoThreshold s) s
      | AUTO_CALIB_WATER => s
      end
  | MODE_AUTO_PUMPING => s
  | MODE_TIMER_PUMPING => s
  end.

(** [AutoPump.handleButton]; [now] is what [time.time()] returns while
    the handler runs. *)
Definition handleButton (now : Z) (s : AutoPump) : AutoPump :=
  match Mode s with
  | MODE_TIMER_STANDBY =>
      if RemainingPumpMinutes s >? 0 then
        let s := set_Mode MODE_TIMER_PUMPING s in
        let s := set_SecondsToPump (RemainingPumpMinutes s * 60) s in
        let s := Pump_on now s in
        let s := set_PumpStartTime now s in
        Display_brightness 7 s
      else s
  | MODE_TIMER_PUMPING =>
      let s := set_Mode MODE_TIMER_STANDBY s in
      let s := Pump_off s in
      let '(v, s) := EncoderKnob_value (Some 0) s in
      let s := set_RemainingPumpMinutes v s in
      let s := Display_number (RemainingPumpMinutes s) s in
      Display_brightness 7 s
  | MODE_AUTO_STANDBY =>
      match AutoMode s with
      | AUTO_MODE_MENU =>
          if AutoMenuSelected s =? AUTO_MENU_RUN then
            let s := set_Mode MODE_AUTO_PUMPING s in
            let s := Pump_on now s in
            let s := set_PumpStartTime now s in
            Display_show " ON " s
          else if AutoMenuSelected s =? auto_code AUTO_CALIB_THRESHOLD then
            let '(value, s) := EncoderKnob_value (Some (AutoThreshold s)) s in
            let s := Display_number value s in
            set_AutoMode AUTO_CALIB_THRESHOLD s
          else if AutoMenuSelected s =? auto_code AUTO_CALIB_WATER then
            set_AutoMode AUTO_CALIB_WATER s
          else s
      | AUTO_CALIB_THRESHOLD =>
          let s :=
            set_Config (<["auto_threshold" := AutoThreshold s]> (Config s)) s in
          let s := saveConfig s in
          let s := set_AutoMode AUTO_MODE_MENU s in
          let '(value, s) := EncoderKnob_value (Some (AutoMenuSelected s)) s in
          Display_show (AutoMenu_at value) s
      | AUTO_CALIB_WATER =>
          let s :=
            set_Config (<["auto_water_load" := AutoWaterLoad s]> (Config s)) s in
          let s := saveConfig s in
          let s := set_AutoMode AUTO_MODE_MENU s in
          Display_show (AutoMenu_at (AutoMenuSelected s)) s
      end
  | MODE_AUTO_PUMPING =>
      let s := Pump_off s in
      Display_show (AutoMenu_at 0) s
  end.

(** Uncaught exceptions propagate through [result]. *)
Global Instance result_ret : MRet result := fun _ a => Ok a.
Global Instance result_bind : MBind result := fun _ _ f r =>
  match r with
  | Ok a => f a
  | Raise e => Raise e
  end.

(** ** Float arithmetic

    The operations [checkLoadToStop] and the countdown of [_run] apply
    to floats.  Which floats these are is decided by the MicroPython
    build, not by [main.py].  [float_to_int] is [int(x)]; the one law
    asked of the arithmetic is that the quotient of two integers that
    are not negative does not convert to a negative integer. *)
Class Float : Type := mkFloat {
  float : Type;
  float_of_int : Z -> float;
  float_div : float -> float -> float;
  float_mul : float -> float -> float;
  float_lt : float -> float -> bool;
  float_to_int : float -> result Z;
  float_to_int_nonneg : forall a b z : Z,
    0 <= a -> 0 <= b ->
    float_to_int (float_div (float_of_int a) (float_of_int b)) = Ok z ->
    0 <= z
}.

(** [int(x)] on an IEEE 754 float: the mantissa shifted by the exponent,
    which drops the fractional bits, with the sign put back, so that the
    value is truncated toward zero.  Python raises [OverflowError] on an
    infinity and [ValueError] on a NaN. *)
Definition SF_to_int (x : spec_float) : result Z :=
  match x with
  | S754_zero _ => Ok 0
  | S754_finite false m e => Ok (Z.shiftl (Zpos m) e)
  | S754_finite true m e => Ok (- Z.shiftl (Zpos m) e)
  | S754_infinity _ => Raise OverflowError
  | S754_nan => Raise ValueError
  end.

(** Rounding keeps the sign it is given. *)
Lemma binary_round_aux_sign (prec emax : Z) (sx : bool) (mx ex : Z)
    (lx : location) (s : bool) (m : positive) (e : Z) :
  binary_round_aux prec emax sx mx ex lx = S754_finite s m e -> s = sx.
Proof.
  unfold binary_round_aux.
  destruct (shr_fexp prec emax mx ex lx) as [mrs1 e1].
  destruct (shr_fexp prec emax _ e1 loc_Exact) as [mrs2 e2].
  destruct (shr_m mrs2); try discriminate.
  destruct (e2 <=? emax - prec); [|discriminate].
  now intros [= <- _ _].
Qed.

Lemma binary_normalize_sign (prec emax a : Z) (s : bool) (m : positive)
    (e : Z) :
  0 <= a ->
  binary_normalize prec emax a 0 false = S754_finite s m e -> s = false.
Proof.
  intros Ha. destruct a as [|p|p]; simpl; [discriminate| |lia].
  unfold binary_round.
  destruct (shl_align p 0 _) as [mz ez].
  apply binary_round_aux_sign.
Qed.

(** The float quotient of two integers that are not negative is not a
    negative number. *)
Lemma SF_quotient_nonneg (prec emax a b z : Z) :
  0 <= a -> 0 <= b ->
  SF_to_int
    (SFdiv prec emax (binary_normalize prec emax a 0 false)
       (binary_normalize prec emax b 0 false)) = Ok z ->
  0 <= z.
Proof.
  intros Ha Hb.
  pose proof (binary_normalize_sign prec emax a) as Hsa.
  pose proof (binary_normalize_sign prec emax b) as Hsb.
  destruct (binary_normalize prec emax a 0 false) as [sa|sa| |sa ma ea];
    destruct (binary_normalize prec emax b 0 false) as [sb|sb| |sb mb eb];
    simpl; try discriminate; try (intros [= <-]; lia).
  rewrite (Hsa sa ma ea Ha eq_refl), (Hsb sb mb eb Hb eq_refl). simpl.
  destruct (SFdiv_core_binary prec emax (Z.pos ma) ea (Z.pos mb) eb)
    as [[mz ez] lz].
  pose proof (binary_round_aux_sign prec emax false mz ez lz) as Hs.
  destruct (binary_round_aux prec emax false mz ez lz) as [s|s| |s m e];
    simpl; try discriminate; try (intros [= <-]; lia).
  rewrite (Hs s m e eq_refl). intros [= <-].
  apply Z.shiftl_nonneg. lia.
Qed.

(** IEEE 754 binary floats with [prec] bits of mantissa and exponents
    below [emax], operations rounded to nearest, ties to even. *)
Definition ieee (prec emax : Z) : Float :=
  {| float := spec_float;
     float_of_int := fun z => binary_normalize prec emax z 0 false;
     float_div := SFdiv prec emax;
     float_mul := SFmul prec emax;
     float_lt := SFltb;
     float_to_int := SF_to_int;
     float_to_int_nonneg := SF_quotient_nonneg prec emax |}.

(** Single precision, the floats of the ESP32 build of MicroPython. *)
Definition binary32 : Float := ieee 24 128.

(** Double precision, the floats of CPython. *)
Definition binary64 : Float := ieee 53 1024.

(** [a < b] on rationals, as a boolean. *)
Definition Qltb (a b : Q) : bool := negb (Qle_bool b a).

(** [int(x)] on a rational: the quotient of numerator and denominator,
    truncated toward zero. *)
Definition Q_to_int (x : Q) : result Z := Ok (Z.quot (Qnum x) (Zpos (Qden x))).

Lemma Q_quotient_nonneg (a b z : Z) :
  0 <= a -> 0 <= b ->
  Q_to_int (inject_Z a / inject_Z b) = Ok z -> 0 <= z.
Proof.
  intros Ha Hb [= <-].
  destruct b as [|p|p]; simpl; try lia; apply Z.quot_pos; lia.
Qed.

(** Floats that never round: the rationals. *)
Definition exact : Float :=
  {| float := Q;
     float_of_int := inject_Z;
     float_div := Qdiv;
     float_mul := Qmult;
     float_lt := Qltb;
     float_to_int := Q_to_int;
     float_to_int_nonneg := Q_quotient_nonneg |}.

(** [percent = float(load) / self.AutoWaterLoad * 100]. *)
Definition percent_of {fl : Float} (load baseline : Z) : float :=
  float_mul (float_div (float_of_int load) (float_of_int baseline))
    (float_of_int 100).

(** [AutoPump.checkLoadToStop]; the division raises [ZeroDivisionError]
    when the baseline is zero. *)
Definition checkLoadToStop {fl : Float} (load : Z) (s : AutoPump)
  : result bool :=
  if AutoWaterLoad s =? 0 then Raise ZeroDivisionError
  else
    let percent := percent_of load (AutoWaterLoad s) in
    if float_lt percent (float_of_int (AutoThreshold s)) then Ok true
    else Ok false.

(** [int(a / b)] on integers, [b] not zero: both become floats, the
    floats are divided, and [int] converts the rounded quotient. *)
Definition int_div {fl : Float} (a b : Z) : result Z :=
  float_to_int (float_div (float_of_int a) (float_of_int b)).

(** [AutoPump._run], branch [MODE_TIMER_PUMPING]. *)
Definition _run_timer_pumping {fl : Float} (now : Z) (s : AutoPump)
  : result AutoPump :=
  (* update the minutes *)
  let elapsed_seconds := now - PumpStartTime s in
  minutes ← int_div (SecondsToPump s + 59 - elapsed_seconds) 60;
  let s := set_RemainingPumpMinutes minutes s in
  let '(_, s) := EncoderKnob_value (Some (RemainingPumpMinutes s)) s in
  let s := Display_number (RemainingPumpMinutes s) s in
  (* Turn off the pump if its done *)
  if elapsed_seconds >=? SecondsToPump s then
    let s := Pump_off s in
    let s := set_Mode MODE_TIMER_STANDBY s in
    let s := Display_brightness 7 s in
    let '(v, s) := EncoderKnob_value (Some 0) s in
    let s := set_RemainingPumpMinutes v s in
    Ok (Display_number (RemainingPumpMinutes s) s)
  else Ok s.

(** [AutoPump._run], branch [MODE_AUTO_PUMPING], the auto pumping logic. *)
Definition _run_auto_check {fl : Float} (now : Z) (adc : window)
    (s : AutoPump) : result AutoPump :=
  if now - PumpStartTime s >? AUTO_READ_DELAY then
    if truthy (now mod 10) then
      let '(load, s) := Pump_getLoad adc s in
      stop ← checkLoadToStop load s;
      if (stop : bool) then
        let s := Pump_off s in
        let s := set_Mode MODE_AUTO_STANDBY s in
        Ok (Display_show (AutoMenu_at 0) s)
      else Ok s
    else Ok s
  else Ok s.

(** [AutoPump._run], branch [MODE_AUTO_PUMPING], the display update:
    animation glyph next to the elapsed minutes. *)
Definition _run_auto_display (now : Z) (s : AutoPump) : AutoPump :=
  if truthy (now mod 2) then
    let s := Display_brightness 7 s in
    let elapsed_seconds := now - PumpStartTime s in
    let num := Z.quot elapsed_seconds 60 in
    let glyph := AutoAnimation_at (AutoAnimationIdx s) in
    let s := set_AutoAnimationIdx (AutoAnimationIdx s + 1) s in
    let s :=
      if AutoAnimationIdx s >=? Z.of_nat (length AutoAnimation) then
        set_AutoAnimationIdx
          (AutoAnimationIdx s - Z.of_nat (length AutoAnimation)) s
      else s in
    Display_write glyph num s
  else s.

(** [AutoPump._run]: one periodic tick.  [adc] is the window the load
    sensor delivers if the tick samples it. *)
Definition _run {fl : Float} (now : Z) (adc : window) (s : AutoPump)
  : result AutoPump :=
  match Mode s with
  | MODE_TIMER_PUMPING => _run_timer_pumping now s
  | MODE_TIMER_STANDBY =>
      if truthy (now mod 2) then
        let s := Display_brightness 7 s in
        Ok (Display_number (RemainingPumpMinutes s) s)
      else Ok (Display_brightness 2 s)
  | MODE_AUTO_STANDBY =>
      match AutoMode s with
      | AUTO_MODE_MENU => Ok (Display_show (AutoMenu_at (AutoMenuSelected s)) s)
      | AUTO_CALIB_THRESHOLD => Ok (Display_number (AutoThreshold s) s)
      | AUTO_CALIB_WATER =>
          let s :=
            if truthy (now mod 5) then
              let '(load, s) := Pump_getLoad adc s in
              set_AutoWaterLoad load s
            else s in
          Ok (Display_number (AutoWaterLoad s) s)
      end
  | MODE_AUTO_PUMPING =>
      s ← _run_auto_check now adc s;
      Ok (_run_auto_display now s)
  end.

(** ** Boot and the events of the controller *)

(** [Pump.__init__] and [AutoPump.__init__]: [config] is the dict read by
    [loadConfig] from [/config.py], [knob0] the encoder counter at power
    up, [pos] the switch position read by the forced [handleSwitch]. *)
Definition AutoPump_init (config : gmap string Z) (knob0 pos : Z) : AutoPump :=
  let s :=
    {| Config := config;
       config_py := config;
       PumpPower := false;
       StartTime := 0;
       EncoderKnob := knob0;
       Display := Text "DONE";
       Brightness := 7;
       Log := [E_show "DONE"; E_show "LOAD"; E_pump_off];
       Mode := MODE_AUTO_STANDBY;
       LastDataUpdate := 0;
       PumpStartTime := 0;
       RemainingPumpMinutes := 0;
       SecondsToPump := 0;
       AutoThreshold :=
         default DEFAULT_AUTO_PUMP_THRESHOLD (config !! "auto_threshold");
       AutoWaterLoad :=
         default DEFAULT_AUTO_WATER_LOAD (config !! "auto_water_load");
       AutoMode := AUTO_MODE_MENU;
       AutoMenuSelected := 0;
       AutoAnimationIdx := 0 |} in
  (* force the mode handler *)
  handleSwitch pos s.

Inductive event : Type :=
| Switch (pos : Z)
| Knob (change : Z)
| Button (now : Z)
| Tick (now : Z) (adc : window).

Definition step {fl : Float} (e : event) (s : AutoPump) : result AutoPump :=
  match e with
  | Switch pos => Ok (handleSwitch pos s)
  | Knob change => Ok (handleKnob change (EncoderKnob_turn change s))
  | Button now => Ok (handleButton now s)
  | Tick now adc => _run now adc s
  end.

(** Runs a list of events, stopping at the first uncaught exception. *)
Fixpoint run_events {fl : Float} (es : list event) (s : AutoPump)
  : result AutoPump :=
  match es with
  | [] => Ok s
  | e :: es => s ← step e s; run_events es s
  end.

Inductive reachable {fl : Float} : AutoPump -> Prop :=
| reachable_boot config knob0 pos :
    reachable (AutoPump_init config knob0 pos)
| reachable_step e s s' :
    reachable s -> step e s = Ok s' -> reachable s'.

(** ** Telemetry: [connectToWifi], [sendDatapoint], [_networkThread] *)

(** The [for x in range(CONNECTION_DELAY_SEC)] poll of [connectToWifi].
    [wifi k] is the answer of the [k]-th call of [WIFI.isconnected()]. *)
Fixpoint connectToWifi_poll (n : nat) (wifi : nat -> bool) (k : nat)
  : bool * nat :=
  match n with
  | O => (false, k)
  | S n => if wifi k then (true, S k) else connectToWifi_poll n wifi (S k)
  end.

(** [connectToWifi]: [fuel] bounds the rounds of its [while] loop, which
    has no bound of its own; [None] is a call still looping. *)
Fixpoint connectToWifi (fuel : nat) (wifi : nat -> bool) (k : nat)
  : option nat :=
  match fuel with
  | O => None
  | S fuel =>
      if wifi k then Some (S k)
      else
        let '(connected, k) :=
          connectToWifi_poll CONNECTION_DELAY_SEC wifi (S k) in
        if connected then Some k else connectToWifi fuel wifi k
  end.

(** What one [urequests.post] does: it raises, or it completes with a
    response whose body is [text]; [json_ok] tells whether [r.json()]
    parses that body. *)
Inductive post_outcome : Set :=
| PostError
| PostResponse (text : string) (json_ok : bool).

(** How the body of a [for] loop ends. *)
Inductive flow (A : Type) : Type :=
| Next
| Break
| Return (a : A)
| Throw (e : exn).
Arguments Next {A}.
Arguments Break {A}.
Arguments Return {A} a.
Arguments Throw {A} e.

(** [for x in range(n)] from [x]: how the loop ended, and the value of
    the counter after the last body that ran. *)
Fixpoint for_range {A : Type} (n x : nat) (body : nat -> flow A)
  : flow A * nat :=
  match n with
  | O => (Next, x)
  | S n =>
      match body x with
      | Next => for_range n (S x) body
      | f => (f, S x)
      end
  end.

(** The body of the retry loop of [sendDatapoint]. *)
Definition sendDatapoint_attempt (posts : nat -> post_outcome) (x : nat)
  : flow bool :=
  match posts x with
  | PostError => Break
  | PostResponse text json_ok =>
      if (String.length text <? 1)%nat then Return true
      else
        (* print(r.json()); the server said no, so no need to retry *)
        if json_ok then Return false else Throw ValueError
  end.

(** The network as one call of [sendDatapoint] meets it. *)
Record uplink : Type := mkUplink {
  wifi : nat -> bool;
  posts : nat -> post_outcome
}.

(** [sendDatapoint]: what it returns or raises, and the number of
    [urequests.post] calls it made.  The url, the headers and the line
    protocol payload are string formatting and are not modelled. *)
Definition sendDatapoint (fuel : nat) (up : uplink)
  : option (result bool * nat) :=
  match connectToWifi fuel (wifi up) 0 with
  | None => None
  | Some _ =>
      let '(f, attempts) :=
        for_range DATA_RETRY_COUNT 0 (sendDatapoint_attempt (posts up)) in
      Some (match f with
            | Return b => Ok b
            | Throw e => Raise e
            | Break | Next => Ok false
            end, attempts)
  end.

(** A published point: measurement, value, what [sendDatapoint] gave. *)
Definition point : Type := string * Z * bool.

(** One round of the inner [while True] of [_networkThread]. *)
Inductive poll_outcome : Type :=
| Blocked
| Polled (s : AutoPump) (sent : list point)
| Restarted (s : AutoPump) (e : exn) (sent : list point).

(** [Blocked]: [connectToWifi] is still looping.  [Polled]: the round
    ended and the inner loop goes on.  [Restarted]: an exception reached
    [except Exception], and the outer loop starts over. *)
Definition _networkThread_poll (fuel : nat) (now : Z) (adc : window)
    (up1 up2 : uplink) (s : AutoPump) : poll_outcome :=
  (* send updates *)
  if now - LastDataUpdate s >? DATA_DELAY_SEC then
    let '(pump_value, s) := Pump_getLoad adc s in
    match sendDatapoint fuel up1 with
    | None => Blocked
    | Some (Raise e, _) => Restarted s e []
    | Some (Ok r1, _) =>
        let p1 := (PUMP_MEASUREMENT, pump_value, r1) in
        let mode_value := mode_code (Mode s) in
        match sendDatapoint fuel up2 with
        | None => Blocked
        | Some (Raise e, _) => Restarted s e [p1]
        | Some (Ok r2, _) =>
            let s := set_LastDataUpdate now s in
            Polled s [p1; (PUMP_MODE, mode_value, r2)]
        end
    end
  else Polled s [].

(** The fields the controller state is made of. *)
Definition ControllerState (s : AutoPump)
  : mode * auto_mode * Z * Z * Z * Z * Z * Z * Z * Z :=
  (Mode s, AutoMode s, AutoMenuSelected s, RemainingPumpMinutes s,
   SecondsToPump s, PumpStartTime s, AutoThreshold s, AutoWaterLoad s,
   LastDataUpdate s, AutoAnimationIdx s).

(** ** Observations used by the statements *)

(** A run of knob rotations, each followed by its [handleKnob] callback. *)
Definition turn_knob (changes : list Z) (s : AutoPump) : AutoPump :=
  fold_left (fun s change => handleKnob change (EncoderKnob_turn change s))
    changes s.

(** How many sampling windows of the load sensor a log records. *)
Fixpoint adc_samples (l : list effect) : nat :=
  match l with
  | [] => O
  | E_adc_sample :: l => S (adc_samples l)
  | _ :: l => adc_samples l
  end.

(** The persisted threshold, as [/config.py] holds it. *)
Definition saved_threshold (s : AutoPump) : option Z :=
  config_py s !! "auto_threshold".

(** The controller after power up with an empty calibration file, the
    knob at rest and the switch in the auto position. *)
Definition boot_auto : AutoPump :=
  Eval vm_compute in AutoPump_init ∅ 0 SWITCH_AUTO.

(** The same with the switch in the manual position. *)
Definition boot_manual : AutoPump := Eval vm_compute in AutoPump_init ∅ 0 0.

(** [boot_auto] after a press on the "AUTO" entry at second [100]. *)
Definition auto_pumping_100 : AutoPump :=
  Eval vm_compute in handleButton 100 boot_auto.

(** [boot_manual] after one knob click and a press at second [0]: a one
    minute timer job. *)
Definition timer_pumping_60 : AutoPump :=
  Eval vm_compute in
    handleButton 0 (handleKnob 1 (EncoderKnob_turn 1 boot_manual)).

(** [boot_manual] with the knob at [5] and a press at second [0]: the
    five minute job of the specification's scenario. *)
Definition timer_pumping_300 : AutoPump :=
  Eval vm_compute in
    handleButton 0 (handleKnob 5 (EncoderKnob_turn 5 boot_manual)).

(** [boot_manual] with the knob at [524287] and a press at second [0]:
    a job of [31457220] seconds. *)
Definition timer_pumping_524287 : AutoPump :=
  Eval vm_compute in
    handleButton 0 (handleKnob 524287 (EncoderKnob_turn 524287 boot_manual)).

(** [boot_auto] with the menu moved to "RATO" and entered. *)
Definition calib_threshold : AutoPump :=
  Eval vm_compute in
    handleButton 0 (handleKnob 1 (EncoderKnob_turn 1 boot_auto)).

(** [calib_threshold] after the switch went to the manual position and
    back to the auto position. *)
Definition switched_back : AutoPump :=
  Eval vm_compute in handleSwitch SWITCH_AUTO (handleSwitch 0 calib_threshold).

(** A calibration file with the given threshold and baseline. *)
Definition calibration (threshold baseline : Z) : gmap string Z :=
  <["auto_threshold" := threshold]> (<["auto_water_load" := baseline]> ∅).

(** Power up in the auto position with threshold 53 and baseline 100,
    and a press on "AUTO" at second [100]. *)
Definition auto_pumping_53_100 : AutoPump :=
  Eval vm_compute in
    handleButton 100 (AutoPump_init (calibration 53 100) 0 SWITCH_AUTO).

(** The same with threshold 29. *)
Definition auto_pumping_29_100 : AutoPump :=
  Eval vm_compute in
    handleButton 100 (AutoPump_init (calibration 29 100) 0 SWITCH_AUTO).

(** A network that is up and accepts every point. *)
Definition uplink_ok : uplink :=
  {| wifi := fun _ => true; posts := fun _ => PostResponse "" true |}.

(** A network that is up, with a transport that fails. *)
Definition uplink_down : uplink :=
  {| wifi := fun _ => true; posts := fun _ => PostError |}.

(** A network that is up, with a server that rejects every point. *)
Definition uplink_rejects : uplink :=
  {| wifi := fun _ => true;
     posts := fun _ => PostResponse "{'error':'denied'}" true |}.

(** The countdown as the specification states it, for one tick of a
    timer job with [S = SecondsToPump] and elapsed time [e]: the tick
    returns, the display shows [RemainingPumpMinutes], which is
    [floor((S + 59 - e) / 60)] and not negative, and the relay is
    released for timer standby with [0] minutes exactly when [S <= e]. *)
Definition countdown_as_specified {fl : Float} (now : Z) (adc : window)
    (s : AutoPump) : Prop :=
  let secs := SecondsToPump s in
  let e := now - PumpStartTime s in
  exists s',
    _run now adc s = Ok s' /\
    Display s' = Number (RemainingPumpMinutes s') /\
    RemainingPumpMinutes s' = (secs + 59 - e) / 60 /\
    0 <= RemainingPumpMinutes s' /\
    (e < secs ->
     Mode s' = MODE_TIMER_PUMPING /\ Pump_isOn s' = Pump_isOn s) /\
    (secs <= e ->
     RemainingPumpMinutes s' = 0 /\
     Mode s' = MODE_TIMER_STANDBY /\ Pump_isOn s' = false).

(** The invariant of the reachable states: a powered relay means a
    pumping mode, the timer job keeps the relay powered, auto pumping is
    only entered from the menu, the file mirrors the dict, and the menu
    index stays inside [AutoMenu]. *)
Definition controller_inv (s : AutoPump) : Prop :=
  (PumpPower s = true ->
   Mode s = MODE_AUTO_PUMPING \/ Mode s = MODE_TIMER_PUMPING) /\
  (Mode s = MODE_TIMER_PUMPING -> PumpPower s = true) /\
  (Mode s = MODE_AUTO_PUMPING -> AutoMode s = AUTO_MODE_MENU) /\
  Config s = config_py s /\
  0 <= AutoMenuSelected s < 3.

(** What the countdown and the animation keep in every reachable state:
    the frame index stays inside [AutoAnimation], the remaining minutes
    are never negative, and a timer job runs for a whole, positive number
    of minutes. *)
Definition countdown_inv (s : AutoPump) : Prop :=
  0 <= AutoAnimationIdx s < Z.of_nat (length AutoAnimation) /\
  0 <= RemainingPumpMinutes s /\
  (Mode s = MODE_TIMER_PUMPING ->
   60 <= SecondsToPump s /\ SecondsToPump s mod 60 = 0).

(** * Properties *)

(** Case analysis along the branches of a handler. *)

Ltac handler_cases :=
  simpl in *;
  repeat (match goal with
          | |- context [match Mode ?s with _ => _ end] =>
              destruct (Mode s) eqn:?
          | |- context [match AutoMode ?s with _ => _ end] =>
              destruct (AutoMode s) eqn:?
          | |- context [match float_to_int ?x with _ => _ end] =>
              destruct (float_to_int x) eqn:?
          | |- context [if ?b then _ else _] => destruct b eqn:?
          end; simpl in *).

Ltac inv_solve :=
  repeat split; intros;
  try congruence; try lia; try (apply Z.mod_pos_bound; lia);
  try (intuition congruence).

Section Controller.

Context {fl : Float}.

(** ** Elementary facts about the collaborators *)

Lemma swing_ordered (reads : list Z) : forall low high,
  low <= high -> fst (swing low high reads) <= snd (swing low high reads).
Proof.
  induction reads as [|r reads IH]; intros low high Hle; simpl.
  - exact Hle.
  - apply IH. lia.
Qed.

(** A load sample is a non-negative number. *)
Lemma peak_to_peak_nonneg (adc : window) : 0 <= peak_to_peak adc.
Proof.
  unfold peak_to_peak.
  pose proof (swing_ordered (snd adc) (fst adc) (fst adc) (Z.le_refl _)) as H.
  destruct (swing (fst adc) (fst adc) (snd adc)) as [low high]; simpl in H.
  lia.
Qed.

(** A window of equal readings has no swing. *)
Lemma peak_to_peak_flat (r : Z) (n : nat) : peak_to_peak (r, repeat r n) = 0.
Proof.
  unfold peak_to_peak; simpl.
  assert (H : swing r r (repeat r n) = (r, r)).
  { induction n as [|n IH]; simpl; [reflexivity|].
    rewrite Z.min_id, Z.max_id. exact IH. }
  rewrite H. lia.
Qed.

Lemma truthy_spec (z : Z) : truthy z = true <-> z <> 0.
Proof.
  unfold truthy. destruct (Z.eqb_spec z 0); simpl; split; intros; congruence.
Qed.

(** ** The invariant *)

Lemma handleSwitch_inv (pos : Z) (s : AutoPump) :
  controller_inv s -> controller_inv (handleSwitch pos s).
Proof.
  unfold controller_inv, handleSwitch, handleSwitch_mode.
  intros (Hon & Htimer & Hmenu & Hcfg & Hsel).
  handler_cases; inv_solve.
Qed.

Lemma handleKnob_inv (change : Z) (s : AutoPump) :
  controller_inv s -> controller_inv (handleKnob change s).
Proof.
  unfold controller_inv, handleKnob.
  intros (Hon & Htimer & Hmenu & Hcfg & Hsel).
  handler_cases; inv_solve.
Qed.

Lemma EncoderKnob_turn_inv (change : Z) (s : AutoPump) :
  controller_inv s -> controller_inv (EncoderKnob_turn change s).
Proof. unfold controller_inv; simpl; tauto. Qed.

Lemma handleButton_inv (now : Z) (s : AutoPump) :
  controller_inv s -> controller_inv (handleButton now s).
Proof.
  unfold controller_inv, handleButton.
  intros (Hon & Htimer & Hmenu & Hcfg & Hsel).
  handler_cases; inv_solve.
Qed.

Lemma _run_inv (now : Z) (adc : window) (s s' : AutoPump) :
  controller_inv s -> _run now adc s = Ok s' -> controller_inv s'.
Proof.
  unfold controller_inv.
  intros (Hon & Htimer & Hmenu & Hcfg & Hsel).
  unfold _run, _run_timer_pumping, int_div, _run_auto_check,
    _run_auto_display, checkLoadToStop, mbind, result_bind.
  handler_cases; intros [= <-]; simpl; inv_solve.
Qed.

Lemma AutoPump_init_inv (config : gmap string Z) (knob0 pos : Z) :
  controller_inv (AutoPump_init config knob0 pos).
Proof.
  unfold AutoPump_init. apply handleSwitch_inv.
  unfold controller_inv; simpl. inv_solve.
Qed.

Lemma step_inv (e : event) (s s' : AutoPump) :
  controller_inv s -> step e s = Ok s' -> controller_inv s'.
Proof.
  intros Hinv. destruct e as [pos|change|now|now adc]; simpl.
  - intros [= <-]. now apply handleSwitch_inv.
  - intros [= <-]. now apply handleKnob_inv, EncoderKnob_turn_inv.
  - intros [= <-]. now apply handleButton_inv.
  - now apply _run_inv.
Qed.

(** Every reachable state satisfies the invariant. *)
Lemma reachable_inv (s : AutoPump) : reachable s -> controller_inv s.
Proof.
  induction 1 as [config knob0 pos|e s s' _ IH Hstep].
  - apply AutoPump_init_inv.
  - exact (step_inv e s s' IH Hstep).
Qed.

(** A powered relay implies a pumping mode, in every reachable state. *)
Lemma pump_on_implies_pumping (s : AutoPump) :
  reachable s -> Pump_isOn s = true ->
  Mode s = MODE_AUTO_PUMPING \/ Mode s = MODE_TIMER_PUMPING.
Proof. intros Hr. exact (proj1 (reachable_inv s Hr)). Qed.

(** A timer job keeps the relay powered, in every reachable state. *)
Lemma timer_pumping_implies_on (s : AutoPump) :
  reachable s -> Mode s = MODE_TIMER_PUMPING -> Pump_isOn s = true.
Proof. intros Hr. exact (proj1 (proj2 (reachable_inv s Hr))). Qed.

(** Runs of events stay inside the reachable states. *)
Lemma run_events_reachable (es : list event) : forall s s',
  reachable s -> run_events es s = Ok s' -> reachable s'.
Proof.
  induction es as [|e es IH]; intros s s' Hr; simpl.
  - intros [= <-]. exact Hr.
  - destruct (step e s) as [s1|x] eqn:Hstep; simpl; [|discriminate].
    apply IH. exact (reachable_step e s s1 Hr Hstep).
Qed.

(** ** The relay and the mode *)

(** C2.  The claim: a press while auto pumping turns the relay off and
    moves to auto standby, submenu Menu.  The code turns the relay off
    and shows "AUTO", and does not assign [Mode]: it stays
    [MODE_AUTO_PUMPING].  The two sibling paths that stop a job (the
    press while timer pumping, and the completion check of [_run]) both
    assign the standby mode. *)
Theorem C2_press_while_auto_pumping (now : Z) (s : AutoPump) :
  Mode s = MODE_AUTO_PUMPING ->
  Pump_isOn (handleButton now s) = false /\
  Display (handleButton now s) = Text "AUTO" /\
  Mode (handleButton now s) = MODE_AUTO_PUMPING /\
  AutoMode (handleButton now s) = AutoMode s.
Proof.
  intros Hmode. unfold handleButton. rewrite Hmode. simpl.
  rewrite Hmode. repeat split.
Qed.

(** The sibling path: when the completion check of the tick stops the
    job, the mode is assigned. *)
Lemma auto_completion_assigns_mode (now : Z) (adc : window) (s s' : AutoPump) :
  _run_auto_check now adc s = Ok s' ->
  Pump_isOn s = true -> Pump_isOn s' = false ->
  Mode s' = MODE_AUTO_STANDBY.
Proof.
  unfold _run_auto_check, checkLoadToStop, mbind, result_bind, Pump_isOn.
  handler_cases; intros [= <-]; simpl; congruence.
Qed.

(** ** The mode switch *)

(** What a switch event does, from any state: it first releases the
    relay, with [Mode] still what it was, and only then assigns the mode.
    The manual branch re-seeds its state: [MODE_TIMER_STANDBY] with the
    knob and the remaining minutes reset to [0].  The auto branch shows
    "AUTO" and assigns [MODE_AUTO_STANDBY], and nothing else: the
    submenu, the menu selection, the knob counter and the threshold in
    memory keep the values they had.  The relay is off afterwards. *)
Lemma handleSwitch_effects (pos : Z) (s : AutoPump) :
  handleSwitch pos s = handleSwitch_mode pos (Pump_off s) /\
  Pump_isOn (Pump_off s) = false /\
  Mode (Pump_off s) = Mode s /\
  Log (Pump_off s) = E_pump_off :: Log s /\
  (exists later, Log (handleSwitch pos s) = later ++ E_pump_off :: Log s) /\
  Pump_isOn (handleSwitch pos s) = false /\
  (if pos =? SWITCH_AUTO then
     Mode (handleSwitch pos s) = MODE_AUTO_STANDBY /\
     Display (handleSwitch pos s) = Text "AUTO" /\
     AutoMode (handleSwitch pos s) = AutoMode s /\
     AutoMenuSelected (handleSwitch pos s) = AutoMenuSelected s /\
     EncoderKnob (handleSwitch pos s) = EncoderKnob s /\
     AutoThreshold (handleSwitch pos s) = AutoThreshold s
   else
     Mode (handleSwitch pos s) = MODE_TIMER_STANDBY /\
     Display (handleSwitch pos s) = Number 0 /\
     RemainingPumpMinutes (handleSwitch pos s) = 0 /\
     EncoderKnob (handleSwitch pos s) = 0).
Proof.
  unfold handleSwitch, handleSwitch_mode.
  destruct (pos =? SWITCH_AUTO); simpl.
  - repeat split. now exists [E_show "AUTO"].
  - repeat split. now exists [E_number 0].
Qed.

(** ** A tick of the timer job *)

(** What a tick of a timer job does, in any float arithmetic.  With
    [secs = SecondsToPump] and [e = now - PumpStartTime] it computes
    [int((secs + 59 - e) / 60)].  If that conversion raises, so does the
    tick.  Otherwise the tick returns, the display shows
    [RemainingPumpMinutes], and that number is not negative.  While
    [e < secs] it is the converted quotient, the job goes on, the relay
    is left as it is and nothing but the number is written.  Once
    [secs <= e] the tick releases the relay, moves to timer standby and
    leaves the minutes and the knob at [0]. *)
Lemma timer_tick_outcome (now : Z) (adc : window) (s : AutoPump) :
  Mode s = MODE_TIMER_PUMPING ->
  let secs := SecondsToPump s in
  let e := now - PumpStartTime s in
  (forall x, int_div (secs + 59 - e) 60 = Raise x ->
             _run now adc s = Raise x) /\
  (forall minutes,
     int_div (secs + 59 - e) 60 = Ok minutes ->
     exists s',
       _run now adc s = Ok s' /\
       Display s' = Number (RemainingPumpMinutes s') /\
       0 <= RemainingPumpMinutes s' /\
       (e < secs ->
        RemainingPumpMinutes s' = minutes /\
        Mode s' = MODE_TIMER_PUMPING /\
        Pump_isOn s' = Pump_isOn s /\
        Log s' = E_number minutes :: Log s) /\
       (secs <= e ->
        RemainingPumpMinutes s' = 0 /\
        EncoderKnob s' = 0 /\
        Mode s' = MODE_TIMER_STANDBY /\
        Pump_isOn s' = false /\
        Log s' =
          E_number 0 :: E_brightness 7 :: E_pump_off
            :: E_number minutes :: Log s)).
Proof.
  intros Hmode secs e.
  unfold _run, _run_timer_pumping, mbind, result_bind. rewrite Hmode.
  fold secs e. split.
  - intros x ->. reflexivity.
  - intros minutes Hmin. rewrite Hmin. simpl. fold secs e.
    destruct (Z.geb_spec e secs) as [Hge|Hlt]; simpl.
    + eexists. split; [reflexivity|]. simpl.
      repeat split; lia.
    + eexists. split; [reflexivity|]. simpl.
      assert (Hpos : 0 <= minutes).
      { apply (float_to_int_nonneg (secs + 59 - e) 60); [lia|lia|exact Hmin]. }
      repeat split; try lia; exact Hmode.
Qed.

(** As long as the float quotient converts to the integer quotient and
    [e <= secs + 59], the countdown is the one of the specification. *)
Lemma timer_tick_floor (now : Z) (adc : window) (s : AutoPump) :
  Mode s = MODE_TIMER_PUMPING ->
  now - PumpStartTime s <= SecondsToPump s + 59 ->
  int_div (SecondsToPump s + 59 - (now - PumpStartTime s)) 60 =
    Ok (Z.quot (SecondsToPump s + 59 - (now - PumpStartTime s)) 60) ->
  countdown_as_specified now adc s.
Proof.
  intros Hmode Hle Hexact. unfold countdown_as_specified.
  set (secs := SecondsToPump s) in *. set (e := now - PumpStartTime s) in *.
  destruct (timer_tick_outcome now adc s Hmode) as [_ Hok].
  fold secs e in Hok.
  destruct (Hok _ Hexact) as (s' & Hrun & Hshow & Hnn & Hgo & Hdone).
  assert (Hq : Z.quot (secs + 59 - e) 60 = (secs + 59 - e) / 60)
    by (apply Z.quot_div_nonneg; lia).
  rewrite Hq in Hgo.
  exists s'. split; [exact Hrun|]. split; [exact Hshow|].
  split; [|split; [exact Hnn|split]].
  - destruct (Z.lt_ge_cases e secs) as [Hlt|Hge].
    + now destruct (Hgo Hlt).
    + destruct (Hdone Hge) as (-> & _). symmetry. apply Z.div_small. lia.
  - intros Hlt. destruct (Hgo Hlt) as (_ & Hm & Hp & _). now split.
  - intros Hge. destruct (Hdone Hge) as (Hz & _ & Hm & Hp & _).
    now repeat split.
Qed.

(** ** The completion check of auto pumping *)

(** When the guard and the throttle let it through, the tick samples the
    sensor and asks [checkLoadToStop]. *)
Lemma _run_auto_check_due (now : Z) (adc : window) (s : AutoPump) :
  AUTO_READ_DELAY < now - PumpStartTime s -> now mod 10 <> 0 ->
  _run_auto_check now adc s =
    (stop ← checkLoadToStop (peak_to_peak adc) (emit E_adc_sample s);
     if (stop : bool) then
       Ok (Display_show (AutoMenu_at 0)
             (set_Mode MODE_AUTO_STANDBY (Pump_off (emit E_adc_sample s))))
     else Ok (emit E_adc_sample s)).
Proof.
  intros Hguard Hmod. unfold _run_auto_check.
  replace (now - PumpStartTime s >? AUTO_READ_DELAY) with true
    by (symmetry; apply Z.gtb_lt; lia).
  replace (truthy (now mod 10)) with true
    by (symmetry; now apply truthy_spec).
  reflexivity.
Qed.

(** Otherwise the tick leaves the sensor and the state alone. *)
Lemma _run_auto_check_skip (now : Z) (adc : window) (s : AutoPump) :
  ~ (AUTO_READ_DELAY < now - PumpStartTime s /\ now mod 10 <> 0) ->
  _run_auto_check now adc s = Ok s.
Proof.
  intros Hskip. unfold _run_auto_check.
  destruct (Z.gtb_spec (now - PumpStartTime s) AUTO_READ_DELAY) as [Hgt|_];
    [|reflexivity].
  destruct (truthy (now mod 10)) eqn:Ht; [|reflexivity].
  apply truthy_spec in Ht. exfalso. apply Hskip. split; [lia|exact Ht].
Qed.

Lemma _run_auto_display_frame (now : Z) (s : AutoPump) :
  Mode (_run_auto_display now s) = Mode s /\
  AutoMode (_run_auto_display now s) = AutoMode s /\
  PumpPower (_run_auto_display now s) = PumpPower s /\
  adc_samples (Log (_run_auto_display now s)) = adc_samples (Log s).
Proof.
  unfold _run_auto_display. handler_cases; repeat split.
Qed.

(** On a tick of auto pumping that performs the check, the job ends
    exactly when the float comparison [percent < AutoThreshold] holds. *)
Lemma auto_check_outcome (now : Z) (adc : window) (s : AutoPump) :
  reachable s ->
  Mode s = MODE_AUTO_PUMPING ->
  AutoWaterLoad s <> 0 ->
  AUTO_READ_DELAY < now - PumpStartTime s ->
  now mod 10 <> 0 ->
  let below :=
    float_lt (percent_of (peak_to_peak adc) (AutoWaterLoad s))
      (float_of_int (AutoThreshold s)) in
  exists s',
    _run now adc s = Ok s' /\
    checkLoadToStop (peak_to_peak adc) s = Ok below /\
    (below = true <->
     Pump_isOn s' = false /\
     Mode s' = MODE_AUTO_STANDBY /\ AutoMode s' = AUTO_MODE_MENU) /\
    (below = false <->
     Pump_isOn s' = Pump_isOn s /\ Mode s' = MODE_AUTO_PUMPING).
Proof.
  intros Hreach Hmode Hbase Hguard Hmod below.
  destruct (reachable_inv s Hreach) as (_ & _ & Hmenu & _).
  specialize (Hmenu Hmode).
  assert (Hc : forall t, AutoWaterLoad t = AutoWaterLoad s ->
                 AutoThreshold t = AutoThreshold s ->
                 checkLoadToStop (peak_to_peak adc) t = Ok below).
  { intros t Hb Ht. unfold checkLoadToStop. rewrite Hb, Ht.
    destruct (Z.eqb_spec (AutoWaterLoad s) 0) as [H0|_]; [contradiction|].
    fold below. now destruct below. }
  unfold _run. rewrite Hmode.
  rewrite _run_auto_check_due by assumption.
  rewrite (Hc (emit E_adc_sample s)) by reflexivity.
  rewrite (Hc s) by reflexivity.
  destruct below; simpl.
  - eexists. split; [reflexivity|]. split; [reflexivity|].
    destruct (_run_auto_display_frame now
                (Display_show (AutoMenu_at 0)
                   (set_Mode MODE_AUTO_STANDBY
                      (Pump_off (emit E_adc_sample s)))))
      as (Hm & Ha & Hp & _).
    unfold Pump_isOn. rewrite Hm, Ha, Hp. simpl.
    split; [tauto|]. split; [discriminate|].
    intros (_ & E). discriminate E.
  - eexists. split; [reflexivity|]. split; [reflexivity|].
    destruct (_run_auto_display_frame now (emit E_adc_sample s))
      as (Hm & Ha & Hp & _).
    unfold Pump_isOn. rewrite Hm, Ha, Hp. simpl.
    split; [|tauto].
    split; [discriminate|]. intros (_ & E & _). congruence.
Qed.

(** C4, amended.  With a baseline [B <> 0] and threshold [T], on a tick
    of auto pumping that performs the check, the sample [L] ends the job
    (relay off, auto standby, submenu Menu) if and only if the percentage
    as the code computes it, [float(L) / B * 100] in the floats of the
    build, is strictly below [T]; otherwise the job goes on.  Whether a
    sample with [100 * L / B] exactly [T] ends the job is decided by the
    rounding of that product. *)
Theorem C4_completion_iff_float_below_threshold
    (now : Z) (adc : window) (s : AutoPump) :
  reachable s ->
  Mode s = MODE_AUTO_PUMPING ->
  AutoWaterLoad s <> 0 ->
  AUTO_READ_DELAY < now - PumpStartTime s ->
  now mod 10 <> 0 ->
  let below :=
    float_lt (percent_of (peak_to_peak adc) (AutoWaterLoad s))
      (float_of_int (AutoThreshold s)) in
  exists s',
    _run now adc s = Ok s' /\
    checkLoadToStop (peak_to_peak adc) s = Ok below /\
    (below = true <->
     Pump_isOn s' = false /\
     Mode s' = MODE_AUTO_STANDBY /\ AutoMode s' = AUTO_MODE_MENU) /\
    (below = false <->
     Pump_isOn s' = Pump_isOn s /\ Mode s' = MODE_AUTO_PUMPING).
Proof. exact (auto_check_outcome now adc s). Qed.

(** C5, amended.  On a tick of auto pumping the load check is performed
    (the sensor is sampled once) exactly when more than
    [AUTO_READ_DELAY = 30] seconds have passed since the pump started and
    the second counter is not a multiple of 10; on any other tick the
    sensor is not sampled and the job goes on.  So past the guard the
    check runs on every tick but those of one second in ten. *)
Theorem C5_check_guard_and_throttle (now : Z) (adc : window) (s : AutoPump) :
  Mode s = MODE_AUTO_PUMPING ->
  AutoWaterLoad s <> 0 ->
  exists s',
    _run now adc s = Ok s' /\
    (AUTO_READ_DELAY < now - PumpStartTime s /\ now mod 10 <> 0 ->
     adc_samples (Log s') = S (adc_samples (Log s))) /\
    (~ (AUTO_READ_DELAY < now - PumpStartTime s /\ now mod 10 <> 0) ->
     adc_samples (Log s') = adc_samples (Log s) /\
     Mode s' = MODE_AUTO_PUMPING /\
     Pump_isOn s' = Pump_isOn s).
Proof.
  intros Hmode Hbase. unfold _run. rewrite Hmode.
  destruct (Z.gtb_spec (now - PumpStartTime s) AUTO_READ_DELAY) as [Hgt|Hle].
  - destruct (Z.eqb_spec (now mod 10) 0) as [Hz|Hnz].
    + rewrite _run_auto_check_skip by lia. simpl.
      eexists. split; [reflexivity|].
      destruct (_run_auto_display_frame now s) as (Hm & _ & Hp & Hl).
      unfold Pump_isOn. rewrite Hm, Hp, Hl.
      split; [lia|]. intros _. repeat split. exact Hmode.
    + rewrite _run_auto_check_due by (lia || assumption).
      unfold checkLoadToStop. simpl.
      destruct (Z.eqb_spec (AutoWaterLoad s) 0) as [H0|_]; [contradiction|].
      destruct (float_lt _ _); simpl; eexists; (split; [reflexivity|]);
        (split; [intros _|intros Hno; exfalso; apply Hno; lia]).
      * now destruct (_run_auto_display_frame now
                        (Display_show (AutoMenu_at 0)
                           (set_Mode MODE_AUTO_STANDBY
                              (Pump_off (emit E_adc_sample s)))))
          as (_ & _ & _ & ->).
      * now destruct (_run_auto_display_frame now (emit E_adc_sample s))
          as (_ & _ & _ & ->).
  - rewrite _run_auto_check_skip by lia. simpl.
    eexists. split; [reflexivity|].
    destruct (_run_auto_display_frame now s) as (Hm & _ & Hp & Hl).
    unfold Pump_isOn. rewrite Hm, Hp, Hl.
    split; [lia|]. intros _. repeat split. exact Hmode.
Qed.

(** ** The baseline of the load *)

(** In the water calibration screen a tick whose second is not a
    multiple of 5 overwrites the baseline with the sample, whatever it
    is. *)
Lemma calib_water_overwrites_baseline (now : Z) (adc : window) (s : AutoPump) :
  Mode s = MODE_AUTO_STANDBY -> AutoMode s = AUTO_CALIB_WATER ->
  now mod 5 <> 0 ->
  exists s', _run now adc s = Ok s' /\ AutoWaterLoad s' = peak_to_peak adc.
Proof.
  intros Hmode Hauto Hmod. unfold _run. rewrite Hmode, Hauto.
  replace (truthy (now mod 5)) with true
    by (symmetry; now apply truthy_spec).
  eexists. split; reflexivity.
Qed.

(** ** Telemetry *)

Lemma connectToWifi_connected (fuel : nat) (wifi : nat -> bool) :
  wifi O = true -> connectToWifi (S fuel) wifi 0 = Some 1%nat.
Proof. intros H. simpl. now rewrite H. Qed.

(** No attempt asks for another one: the body of the retry loop always
    leaves the loop. *)
Lemma sendDatapoint_attempt_leaves (posts : nat -> post_outcome) (x : nat) :
  sendDatapoint_attempt posts x <> Next.
Proof.
  unfold sendDatapoint_attempt.
  destruct (posts x) as [|text ok]; [discriminate|].
  destruct (String.length text <? 1)%nat; [discriminate|].
  destruct ok; discriminate.
Qed.

Lemma for_range_leaves {A : Type} (n x : nat) (body : nat -> flow A) :
  body x <> Next -> for_range (S n) x body = (body x, S x).
Proof. intros H. simpl. destruct (body x); congruence. Qed.

Lemma for_range_count {A : Type} (body : nat -> flow A) : forall n x,
  (snd (for_range n x body) <= x + n)%nat.
Proof.
  induction n as [|n IH]; intros x; simpl; [lia|].
  destruct (body x); simpl; try lia.
  specialize (IH (S x)). lia.
Qed.

Lemma length_lt_1 (text : string) :
  (String.length text <? 1)%nat = true <-> text = ""%string.
Proof.
  destruct text; simpl; split; intros H; try reflexivity; discriminate.
Qed.

(** [sendDatapoint], once the station is associated. *)
Lemma sendDatapoint_connected (fuel : nat) (up : uplink) (k : nat) :
  connectToWifi fuel (wifi up) 0 = Some k ->
  sendDatapoint fuel up =
    Some (match posts up O with
          | PostError => Ok false
          | PostResponse text ok =>
              if (String.length text <? 1)%nat then Ok true
              else if ok then Ok false else Raise ValueError
          end, 1%nat).
Proof.
  intros Hc. unfold sendDatapoint. rewrite Hc.
  unfold DATA_RETRY_COUNT.
  rewrite for_range_leaves by apply sendDatapoint_attempt_leaves.
  unfold sendDatapoint_attempt.
  destruct (posts up O) as [|text ok]; [reflexivity|].
  destruct (String.length text <? 1)%nat; [reflexivity|].
  destruct ok; reflexivity.
Qed.

(** C7.  With the station associated, [sendDatapoint] makes at most
    [DATA_RETRY_COUNT = 3] posts.  A post that raises ends the loop:
    one attempt, [False] returned, and [_networkThread] goes on to the
    mode point and completes its round.  A completed post with a
    non-empty body ends the point as well, after that one attempt and
    never with [True]. *)
Theorem C7_publish_attempts
    (fuel : nat) (now : Z) (adc : window) (up1 up2 : uplink) (s : AutoPump)
    (k1 k2 : nat) :
  connectToWifi fuel (wifi up1) 0 = Some k1 ->
  connectToWifi fuel (wifi up2) 0 = Some k2 ->
  DATA_DELAY_SEC < now - LastDataUpdate s ->
  exists r1 n1,
    sendDatapoint fuel up1 = Some (r1, n1) /\
    (n1 <= DATA_RETRY_COUNT)%nat /\
    (posts up1 O = PostError ->
     r1 = Ok false /\ n1 = 1%nat /\
     forall r2 n2,
       sendDatapoint fuel up2 = Some (Ok r2, n2) ->
       _networkThread_poll fuel now adc up1 up2 s =
         Polled (set_LastDataUpdate now (emit E_adc_sample s))
           [(PUMP_MEASUREMENT, peak_to_peak adc, false);
            (PUMP_MODE, mode_code (Mode s), r2)]) /\
    (forall text ok,
       posts up1 O = PostResponse text ok -> text <> ""%string ->
       n1 = 1%nat /\ (n1 < DATA_RETRY_COUNT)%nat /\
       (r1 = Ok false \/ r1 = Raise ValueError)).
Proof.
  intros Hc1 Hc2 Hdue.
  pose proof (sendDatapoint_connected fuel up1 k1 Hc1) as Hs1.
  eexists. exists 1%nat. split; [exact Hs1|].
  split; [unfold DATA_RETRY_COUNT; lia|]. split.
  - intros Herr. rewrite Herr in Hs1 |- *.
    split; [reflexivity|]. split; [reflexivity|].
    intros r2 n2 Hs2. unfold _networkThread_poll.
    replace (now - LastDataUpdate s >? DATA_DELAY_SEC) with true
      by (symmetry; apply Z.gtb_lt; lia).
    simpl. rewrite Hs1. simpl. rewrite Hs2. reflexivity.
  - intros text ok Hresp Hne. rewrite Hresp.
    split; [reflexivity|]. split; [unfold DATA_RETRY_COUNT; lia|].
    destruct (String.length text <? 1)%nat eqn:Hlen.
    + apply length_lt_1 in Hlen. contradiction.
    + destruct ok; [left|right]; reflexivity.
Qed.

(** C8, amended.  A round of the telemetry thread changes no field of
    the controller state other than [LastDataUpdate], which it reads,
    and sets to the current second when both points were handed to
    [sendDatapoint] and neither call raised.  Apart from that field and
    the log of the sensor window it sampled, the state is the one it
    started from; the mode it publishes is the [Mode] it read. *)
Theorem C8_telemetry_frame
    (fuel : nat) (now : Z) (adc : window) (up1 up2 : uplink) (s : AutoPump) :
  match _networkThread_poll fuel now adc up1 up2 s with
  | Blocked => True
  | Polled s' sent =>
      ControllerState (set_LastDataUpdate (LastDataUpdate s) s') =
        ControllerState s /\
      set_Log (Log s) (set_LastDataUpdate (LastDataUpdate s) s') = s /\
      (LastDataUpdate s' = LastDataUpdate s \/
       DATA_DELAY_SEC < now - LastDataUpdate s /\ LastDataUpdate s' = now) /\
      (forall v r, In (PUMP_MODE, v, r) sent -> v = mode_code (Mode s))
  | Restarted s' e sent =>
      ControllerState s' = ControllerState s /\
      set_Log (Log s) s' = s
  end.
Proof.
  unfold _networkThread_poll.
  destruct (Z.gtb_spec (now - LastDataUpdate s) DATA_DELAY_SEC) as [Hdue|_].
  - simpl.
    destruct (sendDatapoint fuel up1) as [[[r1|e1] n1]|]; [| |exact I].
    + destruct (sendDatapoint fuel up2) as [[[r2|e2] n2]|]; [| |exact I].
      * split; [reflexivity|]. split; [destruct s; reflexivity|].
        split; [right; split; [lia|reflexivity]|].
        intros v r [H|[H|[]]]; [discriminate H|].
        now injection H as <- _.
      * split; [reflexivity|]. destruct s; reflexivity.
    + split; [reflexivity|]. destruct s; reflexivity.
  - split; [reflexivity|]. split; [destruct s; reflexivity|].
    split; [left; reflexivity|]. intros v r [].
Qed.

(** ** Threshold calibration *)

(** The knob handler never touches the dict, the file, the mode or the
    submenu, and writes nothing to flash. *)
Lemma handleKnob_frame (change : Z) (s : AutoPump) :
  Config (handleKnob change s) = Config s /\
  config_py (handleKnob change s) = config_py s /\
  Mode (handleKnob change s) = Mode s /\
  AutoMode (handleKnob change s) = AutoMode s.
Proof. unfold handleKnob. handler_cases; repeat split; congruence. Qed.

(** In the threshold screen the handler clamps the counter into
    [0, 100] and writes the clamped value back into the counter. *)
Lemma handleKnob_threshold (change : Z) (s : AutoPump) :
  Mode s = MODE_AUTO_STANDBY -> AutoMode s = AUTO_CALIB_THRESHOLD ->
  AutoThreshold (handleKnob change s) = Z.max 0 (Z.min 100 (EncoderKnob s)) /\
  EncoderKnob (handleKnob change s) = AutoThreshold (handleKnob change s).
Proof.
  intros Hmode Hauto. unfold handleKnob. rewrite Hmode, Hauto. simpl.
  destruct (Z.ltb_spec (EncoderKnob s) 0); simpl.
  - split; [lia|reflexivity].
  - destruct (Z.gtb_spec (EncoderKnob s) 100); simpl; split;
      try reflexivity; lia.
Qed.

Lemma turn_knob_snoc (changes : list Z) (change : Z) (s : AutoPump) :
  turn_knob (changes ++ [change]) s =
    handleKnob change (EncoderKnob_turn change (turn_knob changes s)).
Proof. unfold turn_knob. now rewrite fold_left_app. Qed.

Lemma turn_knob_frame (changes : list Z) (s : AutoPump) :
  Config (turn_knob changes s) = Config s /\
  config_py (turn_knob changes s) = config_py s /\
  Mode (turn_knob changes s) = Mode s /\
  AutoMode (turn_knob changes s) = AutoMode s.
Proof.
  induction changes as [|change changes IH] using rev_ind.
  - repeat split.
  - rewrite turn_knob_snoc.
    destruct IH as (Hc & Hf & Hm & Ha).
    destruct (handleKnob_frame change
                (EncoderKnob_turn change (turn_knob changes s)))
      as (Hc' & Hf' & Hm' & Ha').
    rewrite Hc', Hf', Hm', Ha'. simpl. tauto.
Qed.

(** Only a press in the threshold screen changes the threshold held by
    [/config.py]. *)
Lemma step_saved_threshold (e : event) (t t' : AutoPump) :
  reachable t -> step e t = Ok t' ->
  saved_threshold t' <> saved_threshold t ->
  exists now,
    e = Button now /\
    Mode t = MODE_AUTO_STANDBY /\ AutoMode t = AUTO_CALIB_THRESHOLD.
Proof.
  intros Hreach Hstep Hchg.
  destruct (reachable_inv t Hreach) as (_ & _ & _ & Hcfg & _).
  unfold saved_threshold in Hchg.
  destruct e as [pos|change|now|now adc]; simpl in Hstep.
  - exfalso. apply Hchg. injection Hstep as <-.
    unfold handleSwitch, handleSwitch_mode. handler_cases; reflexivity.
  - exfalso. apply Hchg. injection Hstep as <-.
    destruct (handleKnob_frame change (EncoderKnob_turn change t))
      as (_ & -> & _). reflexivity.
  - exists now. split; [reflexivity|].
    injection Hstep as <-.
    destruct (Mode t) eqn:Hm, (AutoMode t) eqn:Ha;
      try (split; reflexivity);
      exfalso; apply Hchg; unfold handleButton; rewrite Hm, ?Ha;
      handler_cases; try reflexivity.
    rewrite lookup_insert_ne by discriminate. now rewrite Hcfg.
  - exfalso. apply Hchg. revert Hstep.
    unfold _run, _run_timer_pumping, int_div, _run_auto_check,
      _run_auto_display, checkLoadToStop, mbind, result_bind.
    handler_cases; intros [= <-]; reflexivity.
Qed.

(** C9.  In the threshold screen every knob rotation sets
    [AutoThreshold] to the reading of the knob (the counter before the
    rotation plus the delta) clamped into [0, 100], and writes the
    clamped value back into the counter: a reading below [0] puts both
    at [0], a reading above [100] puts both at [100], a reading in
    between is taken as it is.  So every run of rotations leaves
    [AutoThreshold] inside [0, 100] with the counter equal to it, and
    leaves the dict and [/config.py] as they were; the press that
    confirms writes the threshold to the file; and from any reachable
    state an event that changes the threshold held by the file is a
    press in the threshold screen. *)
Theorem C9_threshold_calibration (changes : list Z) (s : AutoPump) :
  Mode s = MODE_AUTO_STANDBY ->
  AutoMode s = AUTO_CALIB_THRESHOLD ->
  changes <> [] \/ 0 <= AutoThreshold s <= 100 ->
  0 <= AutoThreshold (turn_knob changes s) <= 100 /\
  (changes <> [] ->
   EncoderKnob (turn_knob changes s) = AutoThreshold (turn_knob changes s)) /\
  (forall (before : list Z) (change : Z),
     let reading := EncoderKnob (turn_knob before s) + change in
     let s' := turn_knob (before ++ [change]) s in
     AutoThreshold s' = Z.max 0 (Z.min 100 reading) /\
     EncoderKnob s' = Z.max 0 (Z.min 100 reading) /\
     (reading < 0 -> AutoThreshold s' = 0 /\ EncoderKnob s' = 0) /\
     (100 < reading -> AutoThreshold s' = 100 /\ EncoderKnob s' = 100) /\
     (0 <= reading <= 100 ->
      AutoThreshold s' = reading /\ EncoderKnob s' = reading)) /\
  config_py (turn_knob changes s) = config_py s /\
  Config (turn_knob changes s) = Config s /\
  (forall now,
     saved_threshold (handleButton now (turn_knob changes s)) =
       Some (AutoThreshold (turn_knob changes s)) /\
     AutoMode (handleButton now (turn_knob changes s)) = AUTO_MODE_MENU) /\
  (forall e t t',
     reachable t -> step e t = Ok t' ->
     saved_threshold t' <> saved_threshold t ->
     exists now,
       e = Button now /\
       Mode t = MODE_AUTO_STANDBY /\ AutoMode t = AUTO_CALIB_THRESHOLD).
Proof.
  intros Hmode Hauto Hstart.
  destruct (turn_knob_frame changes s) as (Hc & Hf & Hm & Ha).
  assert (Hstep : forall (before : list Z) (change : Z),
            AutoThreshold (turn_knob (before ++ [change]) s) =
              Z.max 0 (Z.min 100 (EncoderKnob (turn_knob before s) + change)) /\
            EncoderKnob (turn_knob (before ++ [change]) s) =
              AutoThreshold (turn_knob (before ++ [change]) s)).
  { intros before change. rewrite turn_knob_snoc.
    destruct (turn_knob_frame before s) as (_ & _ & Hm' & Ha').
    apply (handleKnob_threshold change
             (EncoderKnob_turn change (turn_knob before s)));
      simpl; congruence. }
  assert (Hclamp : 0 <= AutoThreshold (turn_knob changes s) <= 100 /\
                   (changes <> [] ->
                    EncoderKnob (turn_knob changes s) =
                      AutoThreshold (turn_knob changes s))).
  { destruct changes as [|c cs] using rev_ind.
    - destruct Hstart as [Hne|Hin]; [congruence|].
      split; [exact Hin|congruence].
    - destruct (Hstep cs c) as [Hv Hk].
      rewrite Hk, Hv. split; [lia|reflexivity]. }
  destruct Hclamp as [Hrange Hsync].
  split; [exact Hrange|]. split; [exact Hsync|]. split.
  { intros before change reading s'.
    destruct (Hstep before change) as [Hv Hk].
    fold reading s' in Hv, Hk. rewrite Hk, Hv.
    repeat split; lia. }
  repeat split; try assumption.
  - unfold saved_threshold, handleButton. rewrite Hm, Hmode, Ha, Hauto.
    simpl. apply lookup_insert_eq.
  - unfold handleButton. rewrite Hm, Hmode, Ha, Hauto. reflexivity.
  - intros e t t'. apply step_saved_threshold.
Qed.

End Controller.

(** ** Exact arithmetic

    Without rounding the float comparison is the comparison of the
    fractions. *)

Lemma Qltb_spec (a b : Q) : Qltb a b = true <-> (a < b)%Q.
Proof.
  unfold Qltb. rewrite negb_true_iff.
  split; intros H.
  - apply Qnot_le_lt. intros Hle. apply Qle_bool_iff in Hle. congruence.
  - destruct (Qle_bool b a) eqn:E; [|reflexivity].
    apply Qle_bool_iff in E. exfalso. exact (Qlt_not_le _ _ H E).
Qed.

Lemma exact_below_threshold (L B T : Z) :
  0 < B ->
  @float_lt exact (@percent_of exact L B) (@float_of_int exact T) =
    (100 * L <? T * B).
Proof.
  intros Hpos. unfold percent_of; simpl.
  set (p := (inject_Z L / inject_Z B * inject_Z 100)%Q).
  assert (Hiff : (p < inject_Z T)%Q <-> 100 * L < T * B).
  { unfold p. destruct B as [|b|b]; try lia.
    unfold Qlt, Qdiv, Qmult, Qinv, inject_Z; simpl.
    rewrite Pos.mul_1_r. lia. }
  destruct (Qltb p (inject_Z T)) eqn:Hb.
  - apply Qltb_spec in Hb. apply Hiff in Hb.
    symmetry. now apply Z.ltb_lt.
  - destruct (Z.ltb_spec (100 * L) (T * B)) as [Hlt|_]; [|reflexivity].
    apply Hiff, Qltb_spec in Hlt. congruence.
Qed.

(** The percentage as the specification writes it, [100 * L / B], against
    the integers. *)
Lemma percent_cross (L B T : Z) :
  0 < B ->
  ((100 * inject_Z L / inject_Z B < inject_Z T)%Q <-> 100 * L < T * B) /\
  ((100 * inject_Z L / inject_Z B == inject_Z T)%Q <-> 100 * L = T * B).
Proof.
  intros Hpos. destruct B as [|b|b]; try lia.
  unfold Qlt, Qeq, Qdiv, Qmult, Qinv, inject_Z; simpl.
  rewrite Pos.mul_1_r. split; lia.
Qed.

(** In exact arithmetic the completion check is the one of the
    specification: the sample ends the job iff [100 * L / B < T], and a
    sample with [100 * L / B] equal to [T] does not. *)
Lemma exact_completion_iff_below_threshold
    (now : Z) (adc : window) (s : AutoPump) :
  reachable (fl := exact) s ->
  Mode s = MODE_AUTO_PUMPING ->
  0 < AutoWaterLoad s ->
  AUTO_READ_DELAY < now - PumpStartTime s ->
  now mod 10 <> 0 ->
  let L := inject_Z (peak_to_peak adc) in
  let B := inject_Z (AutoWaterLoad s) in
  let T := inject_Z (AutoThreshold s) in
  exists s',
    _run (fl := exact) now adc s = Ok s' /\
    ((100 * L / B < T)%Q <->
     Pump_isOn s' = false /\
     Mode s' = MODE_AUTO_STANDBY /\ AutoMode s' = AUTO_MODE_MENU) /\
    ((100 * L / B == T)%Q ->
     Pump_isOn s' = Pump_isOn s /\ Mode s' = MODE_AUTO_PUMPING).
Proof.
  intros Hreach Hmode Hpos Hguard Hmod L B T.
  destruct (auto_check_outcome (fl := exact) now adc s Hreach Hmode
              ltac:(lia) Hguard Hmod)
    as (s' & Hrun & _ & Hstop & Hgo).
  rewrite exact_below_threshold in Hstop, Hgo by exact Hpos.
  destruct (percent_cross (peak_to_peak adc) (AutoWaterLoad s)
              (AutoThreshold s) Hpos) as [Hlt Heq].
  fold L B T in Hlt, Heq.
  exists s'. split; [exact Hrun|]. split.
  - rewrite Hlt, <- Hstop. symmetry. apply Z.ltb_lt.
  - intros E. apply Hgo. apply Z.ltb_ge. apply Heq in E. lia.
Qed.

(** In exact arithmetic [int(a / 60)] is the integer quotient, for every
    [a]: the countdown is the one of the specification on every tick of
    the run loop. *)
Lemma exact_int_div_60 (a : Z) : @int_div exact a 60 = Ok (Z.quot a 60).
Proof.
  unfold int_div. simpl. unfold Q_to_int. simpl.
  now rewrite Z.mul_1_r.
Qed.

(** ** IEEE 754 arithmetic

    In a binary format with [prec] bits of mantissa, [int(a / 60)] is the
    integer quotient for every integer [0 <= a < 2 ^ prec]: such an
    integer is a float, the float quotient is one of the two multiples
    of a power of two, [2 ^ -5] or finer, around [a / 60], and a
    fraction of at most [59/60] leaves room for it below the next
    integer. *)

Lemma digits2_size (p : positive) : digits2_pos p = Pos.size p.
Proof. induction p; simpl; congruence. Qed.

Lemma digits2_bounds (p : positive) :
  2 ^ (Zpos (digits2_pos p) - 1) <= Zpos p < 2 ^ Zpos (digits2_pos p).
Proof.
  rewrite digits2_size.
  pose proof (Pos.size_gt p) as Hgt. pose proof (Pos.size_le p) as Hle.
  split.
  - assert (H : 2 ^ Zpos (Pos.size p) <= 2 * Zpos p).
    { change (2 * Zpos p) with (Zpos p~0). rewrite <- Pos2Z.inj_pow.
      apply Pos2Z.pos_le_pos. exact Hle. }
    replace (Zpos (Pos.size p)) with (Zpos (Pos.size p) - 1 + 1) in H by lia.
    rewrite Z.pow_add_r in H by lia. lia.
  - rewrite <- Pos2Z.inj_pow. apply Pos2Z.pos_lt_pos. exact Hgt.
Qed.

Lemma digits2_unique (p : positive) (n : Z) :
  2 ^ (n - 1) <= Zpos p < 2 ^ n -> Zpos (digits2_pos p) = n.
Proof.
  intros [Hlo Hhi]. pose proof (digits2_bounds p) as [Dlo Dhi].
  set (d := Zpos (digits2_pos p)) in *.
  assert (0 < n).
  { destruct (Z.ltb_spec 0 n); [assumption|].
    exfalso. destruct (Z.eq_dec n 0) as [->|Hn].
    - change (2 ^ 0) with 1 in Hhi. lia.
    - rewrite Z.pow_neg_r in Hhi by lia. lia. }
  destruct (Z.lt_trichotomy d n) as [Hlt|[Heq|Hgt]]; [|exact Heq|].
  - exfalso. assert (2 ^ d <= 2 ^ (n - 1)) by (apply Z.pow_le_mono_r; lia). lia.
  - exfalso. assert (2 ^ n <= 2 ^ (d - 1)) by (apply Z.pow_le_mono_r; lia). lia.
Qed.

Lemma iter_xO (p d : positive) :
  Zpos (Pos.iter xO p d) = Zpos p * 2 ^ Zpos d.
Proof.
  rewrite <- Z.shiftl_mul_pow2 by lia. simpl.
  apply (Pos.iter_swap_gen _ _ Zpos xO (Z.mul 2)). reflexivity.
Qed.

Section Ieee.

Variables prec emax : Z.
Hypothesis Hprec : 9 <= prec.
Hypothesis Hemax : prec <= emax.

Lemma fexp_here (x : Z) : 3 - emax <= x -> fexp prec emax x = x - prec.
Proof. intros H. unfold fexp, emin. lia. Qed.

Lemma loc_roundtrip (m : Z) (l : location) :
  loc_of_shr_record (shr_record_of_loc m l) = l /\
  shr_m (shr_record_of_loc m l) = m.
Proof. destruct l as [|[]]; split; reflexivity. Qed.

(** A mantissa of exactly [prec] bits, given exactly, is kept. *)
Lemma binary_round_aux_exact (s : bool) (m : positive) (e : Z) :
  Zpos (digits2_pos m) = prec -> 3 - emax - prec <= e <= emax - prec ->
  binary_round_aux prec emax s (Zpos m) e loc_Exact = S754_finite s m e.
Proof.
  intros Hd He. unfold binary_round_aux.
  assert (Hshr : shr_fexp prec emax (Zpos m) e loc_Exact =
                 (Build_shr_record (Zpos m) false false, e)).
  { unfold shr_fexp. simpl Zdigits2. rewrite Hd.
    rewrite fexp_here by lia.
    replace (prec + e - prec - e) with 0 by lia. reflexivity. }
  rewrite Hshr. simpl. rewrite Hshr. simpl.
  destruct (Z.leb_spec e (emax - prec)); [reflexivity|lia].
Qed.

Lemma float_of_int_pos (a : Z) :
  0 < a < 2 ^ prec ->
  exists (m : positive) (d : Z),
    binary_normalize prec emax a 0 false = S754_finite false m (d - prec) /\
    Zpos (digits2_pos m) = prec /\
    1 <= d <= prec /\
    2 ^ (d - 1) <= a < 2 ^ d /\
    Zpos m = a * 2 ^ (prec - d).
Proof.
  intros [Hpos Hlt]. destruct a as [|p|p]; try lia. simpl.
  pose proof (digits2_bounds p) as Hb.
  set (d := Zpos (digits2_pos p)) in *.
  assert (Hd : 1 <= d <= prec).
  { split; [unfold d; lia|].
    destruct (Z.le_gt_cases d prec) as [H|H]; [exact H|].
    exfalso. assert (2 ^ prec <= 2 ^ (d - 1)) by (apply Z.pow_le_mono_r; lia).
    lia. }
  unfold binary_round. fold d.
  replace (d + 0) with d by lia. rewrite fexp_here by lia.
  unfold shl_align.
  assert (Hcanon : forall m : positive,
            Zpos m = Zpos p * 2 ^ (prec - d) -> Zpos (digits2_pos m) = prec).
  { intros m Hm. apply digits2_unique. rewrite Hm.
    replace (2 ^ (prec - 1)) with (2 ^ (d - 1) * 2 ^ (prec - d))
      by (rewrite <- Z.pow_add_r by lia; f_equal; lia).
    replace (2 ^ prec) with (2 ^ d * 2 ^ (prec - d))
      by (rewrite <- Z.pow_add_r by lia; f_equal; lia).
    assert (0 < 2 ^ (prec - d)) by (apply Z.pow_pos_nonneg; lia).
    nia. }
  destruct (d - prec - 0) as [|k|k] eqn:Hk; try lia.
  - assert (Hm : Zpos p = Zpos p * 2 ^ (prec - d)).
    { replace (prec - d) with 0 by lia. simpl. lia. }
    exists p, d. replace (d - prec) with 0 by lia.
    rewrite binary_round_aux_exact; [|now apply Hcanon|lia].
    split; [reflexivity|]. split; [now apply Hcanon|].
    split; [lia|]. split; [lia|exact Hm].
  - assert (Hm : Zpos (Pos.iter xO p k) = Zpos p * 2 ^ (prec - d)).
    { rewrite iter_xO. f_equal. f_equal. lia. }
    exists (Pos.iter xO p k), d.
    rewrite binary_round_aux_exact; [|now apply Hcanon|lia].
    split; [f_equal; lia|]. split; [now apply Hcanon|].
    split; [lia|]. split; [lia|exact Hm].
Qed.

Lemma pow2_split (n : Z) : 1 <= n -> 2 ^ n = 2 * 2 ^ (n - 1).
Proof.
  intros H. replace n with (1 + (n - 1)) at 1 by lia.
  rewrite Z.pow_add_r by lia. reflexivity.
Qed.

(** The second rounding stage: a mantissa of [prec] bits is kept, and
    [2 ^ prec] is renormalized. *)
Lemma shr_fexp_exact (mx : positive) (e : Z) :
  2 ^ (prec - 1) <= Zpos mx <= 2 ^ prec ->
  3 - emax - prec <= e ->
  exists (M : positive) (E : Z),
    shr_fexp prec emax (Zpos mx) e loc_Exact =
      (Build_shr_record (Zpos M) false false, E) /\
    ((E = e /\ M = mx) \/ (E = e + 1 /\ Zpos mx = 2 * Zpos M)).
Proof.
  intros [Hlo Hhi] He. unfold shr_fexp. simpl Zdigits2.
  destruct (Z.eq_dec (Zpos mx) (2 ^ prec)) as [Heq|Hne].
  - assert (Hd : Zpos (digits2_pos mx) = prec + 1).
    { apply digits2_unique. replace (prec + 1 - 1) with prec by lia.
      rewrite Heq. split; [lia|]. apply Z.pow_lt_mono_r; lia. }
    rewrite Hd, fexp_here by lia.
    replace (prec + 1 + e - prec - e) with 1 by lia.
    rewrite (pow2_split prec) in Heq by lia.
    assert (0 < 2 ^ (prec - 1)) by (apply Z.pow_pos_nonneg; lia).
    destruct mx as [p|p|]; try lia.
    exists p, (e + 1). split; [reflexivity|]. right. split; lia.
  - assert (Hd : Zpos (digits2_pos mx) = prec).
    { apply digits2_unique. lia. }
    rewrite Hd, fexp_here by lia.
    replace (prec + e - prec - e) with 0 by lia.
    exists mx, e. split; [reflexivity|]. left. split; reflexivity.
Qed.

Lemma round_nearest_even_cases (m : Z) (l : location) :
  round_nearest_even m l = m \/
  (round_nearest_even m l = m + 1 /\
   (l = loc_Inexact Eq \/ l = loc_Inexact Gt)).
Proof.
  destruct l as [|[]]; simpl; auto.
  destruct (Z.even m); auto.
Qed.

Lemma shr_1_pos (q : positive) (r s : bool) :
  2 <= Zpos q ->
  shr_1 (Build_shr_record (Zpos q) r s) =
    Build_shr_record (Zpos q / 2) (Z.odd (Zpos q)) (r || s).
Proof.
  intros Hq. destruct q as [p|p|]; try lia; simpl; f_equal.
  - apply (Z.div_unique _ 2 _ 1); lia.
  - apply (Z.div_unique _ 2 _ 0); lia.
Qed.

(** Rounding a quotient of [prec] or [prec + 1] bits, and what [int]
    makes of it. *)
Lemma binary_round_aux_to_int (q : positive) (e : Z) (l : location) :
  2 ^ (prec - 1) <= Zpos q < 2 ^ (prec + 1) ->
  3 - emax - prec <= e -> e <= -2 ->
  exists (M : positive) (E mx es : Z),
    binary_round_aux prec emax false (Zpos q) e l = S754_finite false M E /\
    E <= 0 /\
    Zpos M / 2 ^ (- E) = mx / 2 ^ (- es) /\
    ((Zpos q < 2 ^ prec /\ es = e /\
      (mx = Zpos q \/ mx = Zpos q + 1)) \/
     (2 ^ prec <= Zpos q /\ es = e + 1 /\
      (mx = Zpos q / 2 \/
       (mx = Zpos q / 2 + 1 /\ Z.odd (Zpos q) = true)))).
Proof.
  intros [Hlo Hhi] He He2.
  assert (Hp1 : 2 ^ (prec + 1) = 2 * 2 ^ prec)
    by (rewrite (pow2_split (prec + 1)) by lia; do 2 f_equal; lia).
  assert (Hp0 : 2 ^ prec = 2 * 2 ^ (prec - 1)) by (apply pow2_split; lia).
  assert (Hpp : 0 < 2 ^ (prec - 1)) by (apply Z.pow_pos_nonneg; lia).
  (* the first stage *)
  assert (Hfirst : exists (R : shr_record) (es mx : Z),
            shr_fexp prec emax (Zpos q) e l = (R, es) /\
            mx = round_nearest_even (shr_m R) (loc_of_shr_record R) /\
            2 ^ (prec - 1) <= mx <= 2 ^ prec /\
            ((Zpos q < 2 ^ prec /\ es = e /\
              (mx = Zpos q \/ mx = Zpos q + 1)) \/
             (2 ^ prec <= Zpos q /\ es = e + 1 /\
              (mx = Zpos q / 2 \/
               (mx = Zpos q / 2 + 1 /\ Z.odd (Zpos q) = true))))).
  { unfold shr_fexp. simpl Zdigits2.
    destruct (Z.lt_ge_cases (Zpos q) (2 ^ prec)) as [Hsmall|Hbig].
    - assert (Hd : Zpos (digits2_pos q) = prec)
        by (apply digits2_unique; lia).
      rewrite Hd, fexp_here by lia.
      replace (prec + e - prec - e) with 0 by lia. simpl shr.
      destruct (loc_roundtrip (Zpos q) l) as [Hl Hm].
      eexists _, e, _. split; [reflexivity|]. split; [reflexivity|].
      rewrite Hl, Hm.
      destruct (round_nearest_even_cases (Zpos q) l) as [->|[-> _]].
      + split; [lia|]. left. auto.
      + split; [lia|]. left. auto.
    - assert (Hd : Zpos (digits2_pos q) = prec + 1).
      { apply digits2_unique. replace (prec + 1 - 1) with prec by lia. lia. }
      rewrite Hd, fexp_here by lia.
      replace (prec + 1 + e - prec - e) with 1 by lia.
      unfold shr. simpl iter_pos.
      assert (Hrec : exists r s,
                shr_record_of_loc (Zpos q) l = Build_shr_record (Zpos q) r s).
      { destruct l as [|[]]; simpl; eauto. }
      destruct Hrec as (r & s & ->).
      rewrite shr_1_pos by lia.
      set (h := Zpos q / 2).
      assert (Hh : 2 ^ (prec - 1) <= h /\ h + 1 <= 2 ^ prec).
      { unfold h. split.
        - apply Z.div_le_lower_bound; lia.
        - assert (Zpos q / 2 < 2 ^ prec)
            by (apply Z.div_lt_upper_bound; lia).
          lia. }
      eexists _, (e + 1), _. split; [reflexivity|]. split; [reflexivity|].
      simpl shr_m.
      destruct (round_nearest_even_cases h
                  (loc_of_shr_record
                     (Build_shr_record h (Z.odd (Zpos q)) (r || s))))
        as [->|[-> Hl]].
      + split; [lia|]. right. auto.
      + split; [lia|]. right. split; [lia|]. split; [reflexivity|].
        right. split; [reflexivity|].
        destruct (Z.odd (Zpos q)); [reflexivity|].
        destruct (r || s); simpl in Hl; destruct Hl; discriminate. }
  destruct Hfirst as (R & es & mx & Hshr & Hmx & Hrange & Hcases).
  unfold binary_round_aux. rewrite Hshr, <- Hmx.
  assert (Hes : e <= es <= e + 1) by (destruct Hcases as [H|H]; lia).
  destruct mx as [|mxp|mxp]; try lia.
  destruct (shr_fexp_exact mxp es Hrange ltac:(lia))
    as (M & E & -> & HME).
  simpl shr_m.
  assert (HE : e <= E <= e + 2) by (destruct HME as [[-> _]|[-> _]]; lia).
  destruct (Z.leb_spec E (emax - prec)); [|lia].
  exists M, E, (Zpos mxp), es.
  split; [reflexivity|]. split; [lia|]. split; [|exact Hcases].
  destruct HME as [[-> ->]|[-> HM]]; [reflexivity|].
  rewrite HM.
  replace (- es) with (1 + (- (es + 1))) by lia.
  rewrite Z.pow_add_r by lia. change (2 ^ 1) with 2.
  rewrite <- Z.div_div by (try lia; apply Z.pow_pos_nonneg; lia).
  rewrite (Z.mul_comm 2), Z.div_mul by lia. reflexivity.
Qed.

Lemma shift_by_pos (s m : Z) :
  0 < s ->
  match s with
  | Z.pos _ => Z.shiftl m s
  | 0 => m
  | Z.neg _ => 0
  end = m * 2 ^ s.
Proof.
  intros Hs. destruct s; try lia. apply Z.shiftl_mul_pow2. lia.
Qed.

(** The quotient of the mantissas, against the integers. *)
Lemma quotient_by_60 (a d k N T q r mx es : Z) :
  0 <= k -> 1 <= d <= prec ->
  N = 2 ^ (prec + 6 - d) -> T = 2 ^ (prec - 6) ->
  2 ^ (d - 1) <= a < 2 ^ d ->
  a * 2 ^ (prec - d) * 2 ^ prec = 60 * T * q + r -> 0 <= r < 60 * T ->
  2 ^ (prec - 1) <= q < 2 ^ (prec + 1) /\
  (((es = d - 6 - prec /\ (mx = q \/ mx = q + 1)) \/
    (es = d - 6 - prec + 1 /\
     (mx = q / 2 \/ (mx = q / 2 + 1 /\ Z.odd q = true)))) ->
   mx / 2 ^ (- es) = a / 60).
Proof.
  intros Hk Hd HN HT Ha Hdiv Hr.
  assert (HTpos : 0 < T) by (subst T; apply Z.pow_pos_nonneg; lia).
  assert (HNsplit : N = 2 * 2 ^ (prec + 5 - d)).
  { rewrite HN, (pow2_split (prec + 6 - d)) by lia.
    do 2 f_equal. lia. }
  assert (HN2 : 32 <= 2 ^ (prec + 5 - d)).
  { change 32 with (2 ^ 5). apply Z.pow_le_mono_r; lia. }
  assert (Hprod : a * 2 ^ (prec - d) * 2 ^ prec = a * N * T).
  { rewrite <- !Z.mul_assoc. f_equal. rewrite HN, HT.
    rewrite <- !Z.pow_add_r by lia. f_equal. lia. }
  set (N2 := 2 ^ (prec + 5 - d)) in *.
  rewrite Hprod in Hdiv.
  assert (Hq : 60 * q <= a * N < 60 * q + 60) by nia.
  assert (HaN : 2 ^ (d - 1) * N <= a * N < 2 ^ d * N) by nia.
  assert (Hlow : 2 ^ (d - 1) * N = 32 * 2 ^ prec).
  { rewrite HNsplit. unfold N2.
    replace (2 ^ (d - 1) * (2 * 2 ^ (prec + 5 - d)))
      with (2 * (2 ^ (d - 1) * 2 ^ (prec + 5 - d))) by lia.
    rewrite <- Z.pow_add_r by lia.
    replace (d - 1 + (prec + 5 - d)) with (prec + 4) by lia.
    rewrite Z.pow_add_r by lia. change (2 ^ 4) with 16. lia. }
  assert (Hhigh : 2 ^ d * N = 64 * 2 ^ prec).
  { rewrite HNsplit. unfold N2.
    replace (2 ^ d * (2 * 2 ^ (prec + 5 - d)))
      with (2 * (2 ^ d * 2 ^ (prec + 5 - d))) by lia.
    rewrite <- Z.pow_add_r by lia.
    replace (d + (prec + 5 - d)) with (prec + 5) by lia.
    rewrite Z.pow_add_r by lia. change (2 ^ 5) with 32. lia. }
  assert (Hp1 : 2 ^ (prec + 1) = 2 * 2 ^ prec)
    by (rewrite (pow2_split (prec + 1)) by lia; do 2 f_equal; lia).
  assert (Hp0 : 2 ^ prec = 2 * 2 ^ (prec - 1)) by (apply pow2_split; lia).
  assert (Hbig : 512 <= 2 ^ prec).
  { change 512 with (2 ^ 9). apply Z.pow_le_mono_r; lia. }
  split; [lia|].
  pose proof (Z.div_mod a 60 ltac:(lia)) as Hak.
  pose proof (Z.mod_pos_bound a 60 ltac:(lia)) as Hrho.
  set (k0 := a / 60) in *. set (rho := a mod 60) in *.
  assert (Hj : k0 * N <= q <= k0 * N + N - 2) by nia.
  intros [[Hes Hmx]|[Hes Hmx]].
  - replace (- es) with (prec + 6 - d) by lia. rewrite <- HN.
    symmetry. apply (Z.div_unique _ N _ (mx - k0 * N)); [|lia].
    left. destruct Hmx; lia.
  - replace (- es) with (prec + 5 - d) by lia. fold N2.
    symmetry. apply (Z.div_unique _ N2 _ (mx - k0 * N2)); [|lia].
    left. rewrite HNsplit in Hj.
    destruct Hmx as [Hmx|[Hmx Hodd]].
    + subst mx. clearbody N2 k0. clear - Hj.
      assert (H := Z.div_mod q 2 ltac:(lia)).
      assert (H' := Z.mod_pos_bound q 2 ltac:(lia)). nia.
    + apply Z.odd_spec in Hodd. destruct Hodd as [w Hw].
      subst mx. clearbody N2 k0. clear - Hj Hw.
      assert (H := Z.div_mod q 2 ltac:(lia)).
      assert (H' := Z.mod_pos_bound q 2 ltac:(lia)). nia.
Qed.

(** [int(a / 60)] is the integer quotient for every integer that the
    mantissa holds exactly. *)
Lemma ieee_int_div_60 (a : Z) :
  0 <= a < 2 ^ prec ->
  int_div (fl := ieee prec emax) a 60 = Ok (a / 60).
Proof.
  intros Ha.
  change (SF_to_int
            (SFdiv prec emax (binary_normalize prec emax a 0 false)
               (binary_normalize prec emax 60 0 false)) = Ok (a / 60)).
  assert (Hbig : 512 <= 2 ^ prec).
  { change 512 with (2 ^ 9). apply Z.pow_le_mono_r; lia. }
  destruct (float_of_int_pos 60 ltac:(lia))
    as (m2 & d2 & -> & Hd2 & Hr2 & H60 & Hm2).
  assert (d2 = 6).
  { destruct (Z.lt_trichotomy d2 6) as [H|[H|H]]; [|exact H|].
    - exfalso. assert (2 ^ d2 <= 2 ^ 5) by (apply Z.pow_le_mono_r; lia).
      change (2 ^ 5) with 32 in *. lia.
    - exfalso. assert (2 ^ 6 <= 2 ^ (d2 - 1)) by (apply Z.pow_le_mono_r; lia).
      change (2 ^ 6) with 64 in *. lia. }
  subst d2.
  destruct (Z.eq_dec a 0) as [->|Hne]; [reflexivity|].
  destruct (float_of_int_pos a ltac:(lia))
    as (m1 & d & -> & Hd1 & Hd & Hab & Hm1).
  unfold SFdiv, SFdiv_core_binary. simpl Zdigits2. rewrite Hd1, Hd2.
  replace (Z.min (fexp prec emax (prec + (d - prec) - (prec + (6 - prec))))
             (d - prec - (6 - prec))) with (d - 6 - prec)
    by (rewrite fexp_here by lia; lia).
  replace (d - prec - (6 - prec) - (d - 6 - prec)) with prec by lia.
  rewrite shift_by_pos by lia.
  pose proof (Z_div_mod (Zpos m1 * 2 ^ prec) (Zpos m2) ltac:(lia)) as Hdm.
  destruct (Z.div_eucl (Zpos m1 * 2 ^ prec) (Zpos m2)) as [q r].
  destruct Hdm as [Hdiv Hr]. rewrite Hm1, Hm2 in Hdiv. rewrite Hm2 in Hr.
  assert (Hk : 0 <= a / 60) by (apply Z.div_pos; lia).
  assert (Hcore : forall mx es, _) by
    exact (fun mx es =>
             quotient_by_60 a d (a / 60) (2 ^ (prec + 6 - d)) (2 ^ (prec - 6))
               q r mx es Hk Hd eq_refl eq_refl Hab Hdiv Hr).
  destruct (Hcore 0 0) as [Hq _].
  assert (Hpp : 0 < 2 ^ (prec - 1)) by (apply Z.pow_pos_nonneg; lia).
  destruct q as [|qp|qp]; try lia.
  simpl xorb.
  destruct (binary_round_aux_to_int qp (d - 6 - prec)
              (new_location (Zpos m2) r) Hq ltac:(lia) ltac:(lia))
    as (M & E & mx & es & -> & HE & Hval & Hcases).
  simpl. f_equal.
  rewrite <- (Z.opp_involutive E) at 1.
  rewrite Z.shiftl_opp_r, Z.shiftr_div_pow2 by lia.
  rewrite Hval. apply (Hcore mx es).
  destruct Hcases as [(_ & -> & H)|(_ & -> & H)]; [left|right]; auto.
Qed.

End Ieee.

(** ** The timer countdown *)

(** C3, amended.  In timer pumping with [SecondsToPump = secs] and
    [e = now - PumpStartTime], a tick computes [int((secs + 59 - e) / 60)]
    in the float arithmetic of the build.  In every float arithmetic: if
    that conversion raises, so does the tick; otherwise the tick returns,
    the display shows [RemainingPumpMinutes], which is not negative;
    while [e < secs] it is the converted quotient and the job goes on
    with the relay as it was; once [secs <= e] the tick releases the
    relay, moves to timer standby and leaves [0] minutes; and whenever
    the float quotient converts to the integer quotient, the countdown
    is the one of the specification on every tick with [e <= secs + 59].
    In an IEEE 754 binary format with [prec] bits of mantissa it is the
    one of the specification on every tick with
    [0 <= secs + 59 - e < 2 ^ prec], and in exact arithmetic on every
    tick with [e <= secs + 59]. *)
Theorem C3_timer_tick (now : Z) (adc : window) (s : AutoPump) :
  Mode s = MODE_TIMER_PUMPING ->
  let secs := SecondsToPump s in
  let e := now - PumpStartTime s in
  (forall fl : Float,
     (forall x, int_div (secs + 59 - e) 60 = Raise x ->
                _run now adc s = Raise x) /\
     (forall minutes,
        int_div (secs + 59 - e) 60 = Ok minutes ->
        (exists s',
           _run now adc s = Ok s' /\
           Display s' = Number (RemainingPumpMinutes s') /\
           0 <= RemainingPumpMinutes s' /\
           (e < secs ->
            RemainingPumpMinutes s' = minutes /\
            Mode s' = MODE_TIMER_PUMPING /\
            Pump_isOn s' = Pump_isOn s) /\
           (secs <= e ->
            RemainingPumpMinutes s' = 0 /\
            Mode s' = MODE_TIMER_STANDBY /\
            Pump_isOn s' = false)) /\
        (minutes = Z.quot (secs + 59 - e) 60 -> e <= secs + 59 ->
         countdown_as_specified now adc s))) /\
  (forall prec emax : Z,
     9 <= prec <= emax ->
     0 <= secs + 59 - e < 2 ^ prec ->
     countdown_as_specified (fl := ieee prec emax) now adc s) /\
  (e <= secs + 59 -> countdown_as_specified (fl := exact) now adc s).
Proof.
  intros Hmode secs e. split; [|split].
  - intros fl.
    destruct (timer_tick_outcome now adc s Hmode) as [Hraise Hok].
    fold secs e in Hraise, Hok.
    split; [exact Hraise|].
    intros minutes Hmin. split.
    + destruct (Hok minutes Hmin)
        as (s' & Hrun & Hshow & Hnn & Hgo & Hdone).
      exists s'. split; [exact Hrun|]. split; [exact Hshow|].
      split; [exact Hnn|]. split.
      * intros Hlt. destruct (Hgo Hlt) as (Hv & Hm & Hp & _). now repeat split.
      * intros Hge. destruct (Hdone Hge) as (Hz & _ & Hm & Hp & _).
        now repeat split.
    + intros -> Hle. now apply timer_tick_floor.
  - intros prec emax [Hprec Hemax] Hrange.
    apply (timer_tick_floor (fl := ieee prec emax) now adc s Hmode);
      fold secs e; [lia|].
    rewrite Z.quot_div_nonneg by lia.
    now apply ieee_int_div_60.
  - intros Hle.
    apply (timer_tick_floor (fl := exact) now adc s Hmode Hle).
    apply exact_int_div_60.
Qed.

(** ** The controller on concrete runs

    The runs below are evaluated in single precision, the floats of the
    ESP32 the firmware is written for. *)

Section Esp32.

#[local] Existing Instance binary32.

Lemma boot_auto_reachable : reachable boot_auto.
Proof. exact (reachable_boot ∅ 0 SWITCH_AUTO). Qed.

Lemma boot_manual_reachable : reachable boot_manual.
Proof. exact (reachable_boot ∅ 0 0). Qed.

Lemma auto_pumping_100_reachable : reachable auto_pumping_100.
Proof.
  apply (reachable_step (Button 100) boot_auto); [|reflexivity].
  apply boot_auto_reachable.
Qed.

Lemma timer_pumping_60_reachable : reachable timer_pumping_60.
Proof.
  apply (run_events_reachable [Knob 1; Button 0] boot_manual);
    [apply boot_manual_reachable | reflexivity].
Qed.

Lemma calib_threshold_reachable : reachable calib_threshold.
Proof.
  apply (run_events_reachable [Knob 1; Button 0] boot_auto);
    [apply boot_auto_reachable | reflexivity].
Qed.

(** C1.  The claim: in every reachable state the relay is powered iff
    the mode is auto pumping or timer pumping.  The code breaks it: a
    press while auto pumping ([handleButton], branch [MODE_AUTO_PUMPING])
    releases the relay and leaves [Mode] at [MODE_AUTO_PUMPING].  After
    boot in the auto position, a press on "AUTO" and a second press, the
    relay is off while the mode is still auto pumping.  (The half
    "powered implies pumping" holds: [pump_on_implies_pumping].) *)
Theorem C1_relay_off_while_auto_pumping :
  exists s,
    run_events [Button 100; Button 101] boot_auto = Ok s /\
    reachable s /\
    Pump_isOn s = false /\
    Mode s = MODE_AUTO_PUMPING.
Proof.
  exists (handleButton 101 auto_pumping_100).
  split; [reflexivity|]. split; [|split; reflexivity].
  apply (reachable_step (Button 101) auto_pumping_100); [|reflexivity].
  apply auto_pumping_100_reachable.
Qed.

Lemma C2_press_while_auto_pumping_witness :
  Mode auto_pumping_100 = MODE_AUTO_PUMPING /\
  Mode (handleButton 101 auto_pumping_100) = MODE_AUTO_PUMPING.
Proof.
  split; [reflexivity|].
  apply (C2_press_while_auto_pumping 101 auto_pumping_100). reflexivity.
Defined.

Lemma timer_pumping_300_reachable : reachable timer_pumping_300.
Proof.
  apply (run_events_reachable [Knob 5; Button 0] boot_manual);
    [apply boot_manual_reachable | reflexivity].
Qed.

Lemma timer_pumping_524287_reachable : reachable timer_pumping_524287.
Proof.
  apply (run_events_reachable [Knob 524287; Button 0] boot_manual);
    [apply boot_manual_reachable | reflexivity].
Qed.

Lemma switched_back_reachable : reachable switched_back.
Proof.
  apply (run_events_reachable [Switch 0; Switch SWITCH_AUTO] calib_threshold);
    [apply calib_threshold_reachable | reflexivity].
Qed.

(** C10.  The claim: a switch event releases the relay first and then
    enters timer standby, seeded from the knob, or auto standby with the
    submenu Menu.  The code releases the relay first and assigns the
    mode, and its manual branch seeds the knob and the minutes; its auto
    branch shows "AUTO" and assigns [Mode] only, and never resets
    [AutoMode], [AutoMenuSelected] or the knob.  After boot in the auto
    position, the menu moved to "RATO" and entered, the switch moved to
    manual and back to auto, the display shows "AUTO" while the submenu
    is still the threshold calibration, with the knob at [0] and the
    threshold [60] in memory: one click of the knob then sets the
    threshold to [1], and the next press writes [1] to the file. *)
Theorem C10_switch_to_auto_keeps_submenu :
  exists s,
    run_events [Knob 1; Button 0; Switch 0; Switch SWITCH_AUTO] boot_auto
      = Ok s /\
    reachable s /\
    Pump_isOn s = false /\
    Mode s = MODE_AUTO_STANDBY /\
    Display s = Text "AUTO" /\
    AutoMode s = AUTO_CALIB_THRESHOLD /\
    AutoMenuSelected s = 1 /\
    EncoderKnob s = 0 /\
    AutoThreshold s = 60 /\
    saved_threshold s = None /\
    exists s',
      run_events [Knob 1; Button 1] s = Ok s' /\
      AutoThreshold s' = 1 /\
      saved_threshold s' = Some 1.
Proof.
  exists switched_back.
  split; [vm_compute; reflexivity|].
  split; [apply switched_back_reachable|].
  repeat (split; [reflexivity|]).
  eexists. split; [vm_compute; reflexivity|].
  split; reflexivity.
Qed.

(** A job of 524287 minutes ticked in the second of the press, in single
    precision: [31457279] is not a float, it rounds to [31457280], whose
    quotient by [60] is exactly [524288]; the tick shows [524288] where
    [floor(31457279 / 60)] is [524287]. *)
Lemma C3_counterexample :
  reachable timer_pumping_524287 /\
  Mode timer_pumping_524287 = MODE_TIMER_PUMPING /\
  SecondsToPump timer_pumping_524287 = 31457220 /\
  PumpStartTime timer_pumping_524287 = 0 /\
  exists s',
    _run 0 (0, []) timer_pumping_524287 = Ok s' /\
    Mode s' = MODE_TIMER_PUMPING /\
    Display s' = Number 524288 /\
    RemainingPumpMinutes s' = 524288 /\
    (SecondsToPump timer_pumping_524287 + 59
       - (0 - PumpStartTime timer_pumping_524287)) / 60 = 524287 /\
    RemainingPumpMinutes s' <>
      (SecondsToPump timer_pumping_524287 + 59
         - (0 - PumpStartTime timer_pumping_524287)) / 60.
Proof.
  split; [apply timer_pumping_524287_reachable|].
  repeat (split; [reflexivity|]).
  eexists. split; [vm_compute; reflexivity|].
  repeat (split; [reflexivity|]).
  vm_compute. discriminate.
Qed.

(** The same rounding in double precision, at [60 * 2^48 + 59]: the
    quotient [2^48 + 59/60] has no float nearer than [2^48 + 1]. *)
Lemma int_div_rounds_up_binary64 :
  int_div (fl := binary64) 16888498602639419 60 = Ok 281474976710657 /\
  16888498602639419 / 60 = 281474976710656.
Proof. split; vm_compute; reflexivity. Qed.

(** Beyond the largest float the conversion of the quotient raises, and
    the tick with it. *)
Lemma timer_job_overflow :
  run_events [Knob (2 ^ 123); Button 0; Tick 0 (0, [])] boot_manual
    = Raise OverflowError.
Proof. vm_compute. reflexivity. Qed.

Lemma C3_timer_tick_witness :
  Mode timer_pumping_60 = MODE_TIMER_PUMPING /\
  exists s',
    _run 1 (0, []) timer_pumping_60 = Ok s' /\
    RemainingPumpMinutes s' = 1 /\
    Mode s' = MODE_TIMER_PUMPING.
Proof.
  split; [reflexivity|].
  destruct (C3_timer_tick 1 (0, []) timer_pumping_60 eq_refl)
    as (_ & Hieee & _).
  destruct (Hieee 24 128) as (s' & Hrun & _ & Hfloor & _ & Hgo & _).
  { lia. }
  { vm_compute. split; [discriminate|reflexivity]. }
  exists s'. split; [exact Hrun|]. split; [exact Hfloor|].
  apply Hgo. vm_compute. reflexivity.
Defined.

(** In single precision [int(a / 60)] is the integer quotient for every
    [a] below [2 ^ 24], and in double precision for every [a] below
    [2 ^ 53]. *)
Lemma binary32_int_div_60 (a : Z) :
  0 <= a < 16777216 -> int_div a 60 = Ok (a / 60).
Proof. intros Ha. apply (ieee_int_div_60 24 128); lia. Qed.

Lemma binary64_int_div_60 (a : Z) :
  0 <= a < 9007199254740992 -> int_div (fl := binary64) a 60 = Ok (a / 60).
Proof. intros Ha. apply (ieee_int_div_60 53 1024); lia. Qed.

(** The scenario of the specification: five minutes on the clock and a
    press at second [0]; at second [241] the display shows
    [floor(118 / 60) = 1] and the job goes on; at second [300] the relay
    is released for timer standby with [0] minutes. *)
Example timer_scenario :
  SecondsToPump timer_pumping_300 = 300 /\
  (exists s',
     _run 241 (0, []) timer_pumping_300 = Ok s' /\
     Display s' = Number 1 /\
     Mode s' = MODE_TIMER_PUMPING /\ Pump_isOn s' = true) /\
  (exists s',
     _run 300 (0, []) timer_pumping_300 = Ok s' /\
     Display s' = Number 0 /\ RemainingPumpMinutes s' = 0 /\
     Mode s' = MODE_TIMER_STANDBY /\ Pump_isOn s' = false).
Proof.
  split; [reflexivity|].
  split; (eexists; split; [vm_compute; reflexivity|]);
    repeat split; reflexivity.
Qed.

(** The spec's scenario: threshold 60, baseline 2000. *)
Example checkLoadToStop_1199 : checkLoadToStop 1199 boot_auto = Ok true.
Proof. reflexivity. Qed.

Example checkLoadToStop_1200 : checkLoadToStop 1200 boot_auto = Ok false.
Proof. reflexivity. Qed.

Example checkLoadToStop_1201 : checkLoadToStop 1201 boot_auto = Ok false.
Proof. reflexivity. Qed.

(** The same scenario in double precision. *)
Example checkLoadToStop_scenario_binary64 :
  checkLoadToStop (fl := binary64) 1199 boot_auto = Ok true /\
  checkLoadToStop (fl := binary64) 1200 boot_auto = Ok false /\
  checkLoadToStop (fl := binary64) 1201 boot_auto = Ok false.
Proof. repeat split; vm_compute; reflexivity. Qed.

(** A sample exactly at the threshold that ends the job.  In single
    precision, threshold 53 and baseline 100: [53 / 100] rounds below
    [0.53] and the product with [100] rounds to the float just below
    [53].  In double precision the same happens with threshold 29. *)
Lemma C4_counterexample :
  (reachable (fl := binary32) auto_pumping_53_100 /\
   Mode auto_pumping_53_100 = MODE_AUTO_PUMPING /\
   AutoThreshold auto_pumping_53_100 = 53 /\
   AutoWaterLoad auto_pumping_53_100 = 100 /\
   peak_to_peak (0, [53]) = 53 /\
   (100 * inject_Z 53 / inject_Z 100 == inject_Z 53)%Q /\
   checkLoadToStop (fl := binary32) 53 auto_pumping_53_100 = Ok true /\
   exists s',
     _run (fl := binary32) 131 (0, [53]) auto_pumping_53_100 = Ok s' /\
     Pump_isOn s' = false /\ Mode s' = MODE_AUTO_STANDBY) /\
  (reachable (fl := binary64) auto_pumping_29_100 /\
   Mode auto_pumping_29_100 = MODE_AUTO_PUMPING /\
   AutoThreshold auto_pumping_29_100 = 29 /\
   AutoWaterLoad auto_pumping_29_100 = 100 /\
   peak_to_peak (0, [29]) = 29 /\
   (100 * inject_Z 29 / inject_Z 100 == inject_Z 29)%Q /\
   checkLoadToStop (fl := binary64) 29 auto_pumping_29_100 = Ok true /\
   exists s',
     _run (fl := binary64) 131 (0, [29]) auto_pumping_29_100 = Ok s' /\
     Pump_isOn s' = false /\ Mode s' = MODE_AUTO_STANDBY).
Proof.
  split.
  - split.
    { apply (reachable_step (Button 100)
               (AutoPump_init (calibration 53 100) 0 SWITCH_AUTO));
        [apply reachable_boot | vm_compute; reflexivity]. }
    repeat (split; [vm_compute; reflexivity|]).
    eexists. split; [vm_compute; reflexivity|]. split; reflexivity.
  - split.
    { apply (reachable_step (Button 100)
               (AutoPump_init (calibration 29 100) 0 SWITCH_AUTO));
        [apply reachable_boot | vm_compute; reflexivity]. }
    repeat (split; [vm_compute; reflexivity|]).
    eexists. split; [vm_compute; reflexivity|]. split; reflexivity.
Qed.

Lemma C4_completion_iff_float_below_threshold_witness :
  reachable auto_pumping_100 /\
  Mode auto_pumping_100 = MODE_AUTO_PUMPING /\
  AutoWaterLoad auto_pumping_100 <> 0 /\
  AUTO_READ_DELAY < 131 - PumpStartTime auto_pumping_100 /\
  131 mod 10 <> 0 /\
  exists s',
    _run 131 (0, [1199]) auto_pumping_100 = Ok s' /\
    Mode s' = MODE_AUTO_STANDBY.
Proof.
  assert (Hreach : reachable auto_pumping_100).
  { apply (reachable_step (Button 100) boot_auto); [|reflexivity].
    exact (reachable_boot ∅ 0 SWITCH_AUTO). }
  assert (Hbase : AutoWaterLoad auto_pumping_100 <> 0)
    by (vm_compute; discriminate).
  assert (Hguard : AUTO_READ_DELAY < 131 - PumpStartTime auto_pumping_100)
    by reflexivity.
  assert (Hmod : 131 mod 10 <> 0) by (vm_compute; discriminate).
  repeat (split; [assumption || reflexivity|]).
  destruct (C4_completion_iff_float_below_threshold 131 (0, [1199])
              auto_pumping_100 Hreach eq_refl Hbase Hguard Hmod)
    as (s' & Hrun & _ & Hstop & _).
  exists s'. split; [exact Hrun|].
  apply Hstop. vm_compute. reflexivity.
Defined.

(** Nine ticks in the seconds 131 to 139 of a job started at second 100
    sample the sensor nine times; the tick of second 140 does not. *)
Lemma C5_counterexample :
  reachable auto_pumping_100 /\
  Mode auto_pumping_100 = MODE_AUTO_PUMPING /\
  PumpStartTime auto_pumping_100 = 100 /\
  exists s9 s10,
    run_events
      (map (fun t => Tick t (0, [2000]))
         [131; 132; 133; 134; 135; 136; 137; 138; 139])
      auto_pumping_100 = Ok s9 /\
    Mode s9 = MODE_AUTO_PUMPING /\
    adc_samples (Log s9) = (9 + adc_samples (Log auto_pumping_100))%nat /\
    _run 140 (0, [2000]) s9 = Ok s10 /\
    adc_samples (Log s10) = adc_samples (Log s9).
Proof.
  split; [apply auto_pumping_100_reachable|].
  split; [reflexivity|]. split; [reflexivity|].
  eexists. eexists.
  split; [vm_compute; reflexivity|].
  split; [reflexivity|]. split; [reflexivity|].
  split; [vm_compute; reflexivity|]. reflexivity.
Qed.

Lemma C5_check_guard_and_throttle_witness :
  Mode auto_pumping_100 = MODE_AUTO_PUMPING /\
  AutoWaterLoad auto_pumping_100 <> 0 /\
  exists s',
    _run 120 (0, [2000]) auto_pumping_100 = Ok s' /\
    adc_samples (Log s') = adc_samples (Log auto_pumping_100).
Proof.
  assert (Hbase : AutoWaterLoad auto_pumping_100 <> 0)
    by (vm_compute; discriminate).
  split; [reflexivity|]. split; [exact Hbase|].
  destruct (C5_check_guard_and_throttle 120 (0, [2000]) auto_pumping_100
              eq_refl Hbase)
    as (s' & Hrun & _ & Hskip).
  exists s'. split; [exact Hrun|].
  apply Hskip. vm_compute. intros [H _]. discriminate H.
Defined.

(** C6.  The claim: the baseline [AutoWaterLoad] is strictly positive in
    every reachable state, so [checkLoadToStop] never divides by zero.
    The code takes the baseline unguarded from [Pump.getLoad], which is
    [0] on a flat window.  After boot in the auto position: the menu is
    moved to "CALR" and entered, a tick samples a flat window, a press
    saves the baseline [0], the menu is moved back to "AUTO" and the
    pump is started at second 100.  The tick of second 131 performs the
    check and [checkLoadToStop] raises [ZeroDivisionError]. *)
Theorem C6_zero_baseline_divides_by_zero :
  exists s,
    run_events
      [Knob 2; Button 0; Tick 1 (0, [0; 0]); Button 2; Knob (-2); Button 100]
      boot_auto = Ok s /\
    reachable s /\
    Mode s = MODE_AUTO_PUMPING /\
    AutoWaterLoad s = 0 /\
    config_py s !! "auto_water_load" = Some 0 /\
    checkLoadToStop (peak_to_peak (5, [7])) s = Raise ZeroDivisionError /\
    _run 131 (5, [7]) s = Raise ZeroDivisionError.
Proof.
  eexists. split; [vm_compute; reflexivity|].
  split.
  - apply (run_events_reachable
             [Knob 2; Button 0; Tick 1 (0, [0; 0]); Button 2; Knob (-2);
              Button 100] boot_auto);
      [apply boot_auto_reachable | vm_compute; reflexivity].
  - repeat split; vm_compute; reflexivity.
Qed.

Lemma C7_publish_attempts_witness :
  connectToWifi 1 (wifi uplink_down) 0 = Some 1%nat /\
  connectToWifi 1 (wifi uplink_ok) 0 = Some 1%nat /\
  DATA_DELAY_SEC < 16 - LastDataUpdate boot_auto /\
  sendDatapoint 1 uplink_down = Some (Ok false, 1%nat) /\
  exists s' r2,
    _networkThread_poll 1 16 (0, [3]) uplink_down uplink_ok boot_auto =
      Polled s' [(PUMP_MEASUREMENT, 3, false); (PUMP_MODE, 0, r2)].
Proof.
  assert (Hdue : DATA_DELAY_SEC < 16 - LastDataUpdate boot_auto)
    by reflexivity.
  repeat (split; [reflexivity|]).
  destruct (C7_publish_attempts 1 16 (0, [3]) uplink_down uplink_ok
              boot_auto 1 1 eq_refl eq_refl Hdue)
    as (r1 & n1 & _ & _ & Herr & _).
  destruct (Herr eq_refl) as (_ & _ & Hpoll).
  eexists. exists true. apply (Hpoll true 1%nat). reflexivity.
Defined.

(** A server that answers with a body: one post, [False], no retry. *)
Example sendDatapoint_rejected :
  sendDatapoint 1 uplink_rejects = Some (Ok false, 1%nat).
Proof. reflexivity. Qed.

(** A round that publishes both points moves [LastDataUpdate], a field
    of the controller state, from [0] to the current second. *)
Lemma C8_counterexample :
  exists s' sent,
    _networkThread_poll 1 16 (0, [3]) uplink_ok uplink_ok boot_auto =
      Polled s' sent /\
    LastDataUpdate boot_auto = 0 /\
    LastDataUpdate s' = 16 /\
    ControllerState s' <> ControllerState boot_auto.
Proof.
  eexists. eexists. split; [vm_compute; reflexivity|].
  repeat split. discriminate.
Qed.

Lemma C9_threshold_calibration_witness :
  Mode calib_threshold = MODE_AUTO_STANDBY /\
  AutoMode calib_threshold = AUTO_CALIB_THRESHOLD /\
  0 <= AutoThreshold (turn_knob [200; -500; 3] calib_threshold) <= 100 /\
  AutoThreshold (turn_knob ([] ++ [200]) calib_threshold) = 100 /\
  AutoThreshold (turn_knob ([200] ++ [-500]) calib_threshold) = 0 /\
  AutoThreshold (turn_knob ([200; -500] ++ [3]) calib_threshold) = 3.
Proof.
  split; [reflexivity|]. split; [reflexivity|].
  destruct (C9_threshold_calibration [200; -500; 3] calib_threshold)
    as (Hrange & _ & Hclamp & _);
    [reflexivity | reflexivity | left; discriminate |].
  split; [exact Hrange|].
  split; [|split].
  - apply (Hclamp [] 200). vm_compute. reflexivity.
  - apply (Hclamp [200] (-500)). vm_compute. reflexivity.
  - apply (Hclamp [200; -500] 3). vm_compute. split; discriminate.
Defined.

End Esp32.

(** * Further properties of the code *)

Section Sensor.

(** ** [Pump.getLoad] *)

(** The loop of [getLoad] keeps the least and the greatest reading seen
    so far. *)
Lemma swing_spec (reads : list Z) : forall low high,
  (fst (swing low high reads) = low \/ In (fst (swing low high reads)) reads) /\
  (snd (swing low high reads) = high \/ In (snd (swing low high reads)) reads) /\
  fst (swing low high reads) <= low /\
  high <= snd (swing low high reads) /\
  (forall r, In r reads ->
     fst (swing low high reads) <= r <= snd (swing low high reads)).
Proof.
  induction reads as [|x reads IH]; intros low high; simpl.
  - repeat split; try lia; auto; intros r [].
  - destruct (IH (Z.min low x) (Z.max high x)) as (Hl & Hh & Hle & Hge & Hall).
    split; [|split; [|split; [lia|split; [lia|]]]].
    + destruct Hl as [Hl|Hl]; [|now right; right].
      rewrite Hl. destruct (Z.min_spec low x) as [[_ ->]|[_ ->]]; auto.
    + destruct Hh as [Hh|Hh]; [|now right; right].
      rewrite Hh. destruct (Z.max_spec high x) as [[_ ->]|[_ ->]]; auto.
    + intros r [<-|Hr]; [lia|]. now apply Hall.
Qed.

(** X1.  [Pump.getLoad] returns the greatest reading of the window minus
    the least one: both are readings of the window, every reading lies
    between them, and the sensor is sampled for one window. *)
Theorem X1_getLoad_is_max_minus_min (adc : window) (s : AutoPump) :
  exists low high,
    In low (fst adc :: snd adc) /\
    In high (fst adc :: snd adc) /\
    (forall r, In r (fst adc :: snd adc) -> low <= r <= high) /\
    Pump_getLoad adc s = (high - low, emit E_adc_sample s).
Proof.
  destruct (swing_spec (snd adc) (fst adc) (fst adc))
    as (Hl & Hh & Hle & Hge & Hall).
  exists (fst (swing (fst adc) (fst adc) (snd adc))),
         (snd (swing (fst adc) (fst adc) (snd adc))).
  split; [destruct Hl as [->|Hl]; [now left|now right]|].
  split; [destruct Hh as [->|Hh]; [now left|now right]|].
  split.
  - intros r [<-|Hr]; [lia|]. now apply Hall.
  - unfold Pump_getLoad, peak_to_peak.
    now destruct (swing (fst adc) (fst adc) (snd adc)).
Qed.

(** X2.  The load is zero exactly on a flat window, where every reading
    equals the first one. *)
Theorem X2_getLoad_zero_iff_flat (adc : window) :
  peak_to_peak adc = 0 <-> forall r, In r (snd adc) -> r = fst adc.
Proof.
  destruct (swing_spec (snd adc) (fst adc) (fst adc))
    as (Hl & Hh & Hle & Hge & Hall).
  unfold peak_to_peak.
  destruct (swing (fst adc) (fst adc) (snd adc)) as [low high] eqn:E.
  simpl in *. split.
  - intros H0 r Hr. specialize (Hall r Hr). lia.
  - intros Hflat.
    assert (low = fst adc) by (destruct Hl as [|Hl]; [|apply Hflat in Hl]; lia).
    assert (high = fst adc) by (destruct Hh as [|Hh]; [|apply Hflat in Hh]; lia).
    lia.
Qed.

(** X3.  With every reading inside the range of the converter, the load
    is between [0] and the width of that range. *)
Theorem X3_getLoad_within_range (adc : window) (lo hi : Z) :
  (forall r, In r (fst adc :: snd adc) -> lo <= r <= hi) ->
  0 <= peak_to_peak adc <= hi - lo.
Proof.
  intros Hrange.
  destruct (swing_spec (snd adc) (fst adc) (fst adc))
    as (Hl & Hh & Hle & Hge & Hall).
  unfold peak_to_peak.
  destruct (swing (fst adc) (fst adc) (snd adc)) as [low high] eqn:E.
  simpl in *.
  assert (lo <= low).
  { destruct Hl as [->|Hl]; [apply (Hrange (fst adc)); now left|].
    apply (Hrange low). now right. }
  assert (high <= hi).
  { destruct Hh as [->|Hh]; [apply (Hrange (fst adc)); now left|].
    apply (Hrange high). now right. }
  lia.
Qed.

Lemma X3_getLoad_within_range_witness :
  (forall r, In r (fst (2000, [1810; 2230; 2105]) :: snd (2000, [1810; 2230; 2105]))
     -> 0 <= r <= 4095) /\
  0 <= peak_to_peak (2000, [1810; 2230; 2105]) <= 4095 - 0.
Proof.
  assert (H : forall r,
             In r (fst (2000, [1810; 2230; 2105])
                     :: snd (2000, [1810; 2230; 2105])) -> 0 <= r <= 4095).
  { simpl. intros r [<-|[<-|[<-|[<-|[]]]]]; lia. }
  split; [exact H|].
  exact (X3_getLoad_within_range (2000, [1810; 2230; 2105]) 0 4095 H).
Defined.

End Sensor.

Section Telemetry.

(** ** [connectToWifi] *)

(** The ten polls that follow a [WIFI.connect]: they stop at the first
    answer [True], or run out with every answer [False]. *)
Lemma connectToWifi_poll_spec (wifi : nat -> bool) : forall n k,
  (fst (connectToWifi_poll n wifi k) = true ->
   (k < snd (connectToWifi_poll n wifi k) <= k + n)%nat /\
   wifi (pred (snd (connectToWifi_poll n wifi k))) = true /\
   forall j, (k <= j < pred (snd (connectToWifi_poll n wifi k)))%nat ->
             wifi j = false) /\
  (fst (connectToWifi_poll n wifi k) = false ->
   snd (connectToWifi_poll n wifi k) = (k + n)%nat /\
   forall j, (k <= j < k + n)%nat -> wifi j = false).
Proof.
  induction n as [|n IH]; intros k; simpl.
  - split; [discriminate|]. intros _. split; [lia|]. intros j Hj. lia.
  - destruct (wifi k) eqn:Hk; simpl.
    + split; [|discriminate]. intros _. split; [lia|].
      split; [exact Hk|]. intros j Hj. lia.
    + destruct (IH (S k)) as [Hfound Hnone]. split.
      * intros Hb. destruct (Hfound Hb) as (Hlt & Hlast & Hbefore).
        split; [lia|]. split; [exact Hlast|].
        intros j Hj. destruct (Nat.eq_dec j k) as [->|Hne]; [exact Hk|].
        apply Hbefore. lia.
      * intros Hb. destruct (Hnone Hb) as (Hend & Hbefore).
        split; [lia|].
        intros j Hj. destruct (Nat.eq_dec j k) as [->|Hne]; [exact Hk|].
        apply Hbefore. lia.
Qed.

Lemma connectToWifi_round (fuel : nat) (wifi : nat -> bool) (k : nat) :
  connectToWifi (S fuel) wifi k =
    if wifi k then Some (S k)
    else
      let '(connected, k1) :=
        connectToWifi_poll CONNECTION_DELAY_SEC wifi (S k) in
      if connected then Some k1 else connectToWifi fuel wifi k1.
Proof. reflexivity. Qed.

Lemma connectToWifi_spec (fuel : nat) (wifi : nat -> bool) (k k' : nat) :
  connectToWifi fuel wifi k = Some k' ->
  (k < k')%nat /\
  wifi (pred k') = true /\
  forall j, (k <= j < pred k')%nat -> wifi j = false.
Proof.
  revert k. induction fuel as [|fuel IH]; intros k; [discriminate|].
  rewrite connectToWifi_round. destruct (wifi k) eqn:Hk.
  - intros [= <-]. simpl. split; [lia|]. split; [exact Hk|].
    intros j Hj. lia.
  - destruct (connectToWifi_poll_spec wifi CONNECTION_DELAY_SEC (S k))
      as [Hfound Hnone].
    destruct (connectToWifi_poll CONNECTION_DELAY_SEC wifi (S k))
      as [connected k1] eqn:Hpoll.
    simpl in Hfound, Hnone. destruct connected.
    + intros [= <-]. destruct (Hfound eq_refl) as (Hlt & Hlast & Hbefore).
      split; [lia|]. split; [exact Hlast|].
      intros j Hj. destruct (Nat.eq_dec j k) as [->|Hne]; [exact Hk|].
      apply Hbefore. lia.
    + intros Hrec. destruct (Hnone eq_refl) as (Hend & Hbefore).
      destruct (IH k1 Hrec) as (Hlt & Hlast & Hlater).
      split; [lia|]. split; [exact Hlast|].
      intros j Hj. destruct (Nat.eq_dec j k) as [->|Hne]; [exact Hk|].
      destruct (Nat.lt_ge_cases j k1) as [Hin|Hout].
      * apply Hbefore. lia.
      * apply Hlater. lia.
Qed.

(** X4.  When [connectToWifi] returns, the last answer of
    [WIFI.isconnected()] it read was [True] and every answer before it
    was [False]: it returns at the first moment the station is seen
    connected, not before and not later. *)
Theorem X4_connectToWifi_returns_at_first_connected
    (fuel : nat) (wifi : nat -> bool) (k k' : nat) :
  connectToWifi fuel wifi k = Some k' ->
  (k < k')%nat /\
  wifi (pred k') = true /\
  forall j, (k <= j < pred k')%nat -> wifi j = false.
Proof. exact (connectToWifi_spec fuel wifi k k'). Qed.

Lemma X4_connectToWifi_returns_at_first_connected_witness :
  connectToWifi 2 (fun j => Nat.eqb j 13) 0 = Some 14%nat /\
  (fun j => Nat.eqb j 13) (pred 14) = true.
Proof.
  split; [reflexivity|].
  exact (proj1 (proj2 (X4_connectToWifi_returns_at_first_connected
                         2 (fun j => Nat.eqb j 13) 0 14 eq_refl))).
Defined.

(** With as many rounds as answers to wait for, [connectToWifi] returns
    once some answer is [True]. *)
Lemma connectToWifi_enough_fuel (wifi : nat -> bool) (j : nat) :
  wifi j = true ->
  forall fuel k, (k <= j)%nat -> (j - k < fuel)%nat ->
  exists k', connectToWifi fuel wifi k = Some k'.
Proof.
  intros Hj. induction fuel as [|fuel IH]; intros k Hk Hfuel; [lia|].
  rewrite connectToWifi_round. destruct (wifi k) eqn:Hwk; [eauto|].
  destruct (connectToWifi_poll_spec wifi CONNECTION_DELAY_SEC (S k))
    as [_ Hnone].
  destruct (connectToWifi_poll CONNECTION_DELAY_SEC wifi (S k))
    as [connected k1] eqn:Hpoll.
  simpl in Hnone. destruct connected; [eauto|].
  destruct (Hnone eq_refl) as (Hend & Hbefore).
  assert (Hfar : (k1 <= j)%nat).
  { destruct (Nat.lt_ge_cases j k1) as [Hin|Hout]; [|exact Hout].
    destruct (Nat.eq_dec j k) as [->|Hne]; [congruence|].
    rewrite Hbefore in Hj by lia. discriminate. }
  apply IH; lia.
Qed.

(** X5.  [connectToWifi] returns, given enough rounds of its loop, if
    and only if some answer of [WIFI.isconnected()] is [True]: a station
    that never associates blocks the caller for ever. *)
Theorem X5_connectToWifi_returns_iff_connected
    (wifi : nat -> bool) (k : nat) :
  (exists fuel k', connectToWifi fuel wifi k = Some k') <->
  (exists j, (k <= j)%nat /\ wifi j = true).
Proof.
  split.
  - intros (fuel & k' & Hret).
    destruct (connectToWifi_spec fuel wifi k k' Hret)
      as (Hlt & Hlast & _).
    exists (pred k'). split; [lia|exact Hlast].
  - intros (j & Hk & Hj).
    destruct (connectToWifi_enough_fuel wifi j Hj (S (j - k)) k Hk) as [k' Hret];
      [lia|].
    eauto.
Qed.

End Telemetry.

Section Publisher.

(** ** [sendDatapoint] and the rounds of [_networkThread] *)

Lemma sendDatapoint_outcome
    (fuel : nat) (up : uplink) (r : result bool) (n : nat) :
  sendDatapoint fuel up = Some (r, n) ->
  n = 1%nat /\
  (r = Ok true <-> exists ok, posts up O = PostResponse "" ok) /\
  (r = Ok false <->
   posts up O = PostError \/
   exists text, text <> ""%string /\ posts up O = PostResponse text true) /\
  (forall e,
     r = Raise e <->
     e = ValueError /\
     exists text, text <> ""%string /\ posts up O = PostResponse text false).
Proof.
  intros Hsend.
  assert (Hc : exists k, connectToWifi fuel (wifi up) 0 = Some k).
  { unfold sendDatapoint in Hsend.
    destruct (connectToWifi fuel (wifi up) 0) as [k|]; [eauto|discriminate]. }
  destruct Hc as [k Hc].
  rewrite (sendDatapoint_connected fuel up k Hc) in Hsend.
  injection Hsend as <- <-. split; [reflexivity|].
  destruct (posts up O) as [|text ok].
  - split; [split; [discriminate|intros [ok H]; discriminate]|].
    split; [split; [now left|reflexivity]|].
    intros e. split; [discriminate|].
    intros (_ & text & _ & H). discriminate.
  - destruct (String.length text <? 1)%nat eqn:Hlen.
    + apply length_lt_1 in Hlen. subst text.
      split; [split; [eauto|reflexivity]|].
      split.
      * split; [discriminate|].
        intros [H|(text & Hne & H)]; [discriminate|].
        injection H as <- _. contradiction.
      * intros e. split; [discriminate|].
        intros (_ & text & Hne & H). injection H as <- _. contradiction.
    + assert (Hne : text <> ""%string).
      { intros ->. discriminate Hlen. }
      destruct ok.
      * split; [split; [discriminate|]|].
        { intros [ok H]. injection H as -> _. contradiction. }
        split; [split; [right; eauto|reflexivity]|].
        intros e. split; [discriminate|].
        intros (_ & t' & _ & H). discriminate.
      * split; [split; [discriminate|]|].
        { intros [ok H]. injection H as -> _. contradiction. }
        split.
        { split; [discriminate|].
          intros [H|(t' & _ & H)]; discriminate. }
        intros e. split.
        { intros [= <-]. split; [reflexivity|eauto]. }
        intros (-> & _). reflexivity.
Qed.

(** X6.  Whenever [sendDatapoint] returns or raises, it has made exactly
    one [urequests.post], whatever [DATA_RETRY_COUNT] allows: it returns
    [True] iff that post completed with an empty body, [False] iff the
    post raised or the body was non-empty and parsed, and raises
    [ValueError] iff the non-empty body did not parse. *)
Theorem X6_sendDatapoint_posts_once
    (fuel : nat) (up : uplink) (r : result bool) (n : nat) :
  sendDatapoint fuel up = Some (r, n) ->
  n = 1%nat /\
  (r = Ok true <-> exists ok, posts up O = PostResponse "" ok) /\
  (r = Ok false <->
   posts up O = PostError \/
   exists text, text <> ""%string /\ posts up O = PostResponse text true) /\
  (forall e,
     r = Raise e <->
     e = ValueError /\
     exists text, text <> ""%string /\ posts up O = PostResponse text false).
Proof. exact (sendDatapoint_outcome fuel up r n). Qed.

Lemma X6_sendDatapoint_posts_once_witness :
  sendDatapoint 1 uplink_rejects = Some (Ok false, 1%nat) /\
  (posts uplink_rejects O = PostError \/
   exists text,
     text <> ""%string /\ posts uplink_rejects O = PostResponse text true).
Proof.
  split; [reflexivity|].
  destruct (X6_sendDatapoint_posts_once 1 uplink_rejects (Ok false) 1 eq_refl)
    as (_ & _ & Hfalse & _).
  apply Hfalse. reflexivity.
Defined.

(** A round that is not due leaves the state alone. *)
Lemma _networkThread_poll_idle
    (fuel : nat) (now : Z) (adc : window) (up1 up2 : uplink) (s : AutoPump) :
  now - LastDataUpdate s <= DATA_DELAY_SEC ->
  _networkThread_poll fuel now adc up1 up2 s = Polled s [].
Proof.
  intros Hidle. unfold _networkThread_poll.
  destruct (Z.gtb_spec (now - LastDataUpdate s) DATA_DELAY_SEC); [lia|].
  reflexivity.
Qed.

(** What a round that went through looks like. *)
Lemma _networkThread_poll_cases
    (fuel : nat) (now : Z) (adc : window) (up1 up2 : uplink) (s : AutoPump) :
  match _networkThread_poll fuel now adc up1 up2 s with
  | Blocked => DATA_DELAY_SEC < now - LastDataUpdate s
  | Polled s' sent =>
      (sent = [] /\ s' = s /\ now - LastDataUpdate s <= DATA_DELAY_SEC) \/
      (length sent = 2%nat /\ LastDataUpdate s' = now /\
       DATA_DELAY_SEC < now - LastDataUpdate s)
  | Restarted s' e sent =>
      e = ValueError /\ (length sent <= 1)%nat /\
      LastDataUpdate s' = LastDataUpdate s /\
      DATA_DELAY_SEC < now - LastDataUpdate s
  end.
Proof.
  unfold _networkThread_poll.
  destruct (Z.gtb_spec (now - LastDataUpdate s) DATA_DELAY_SEC) as [Hdue|Hidle];
    [|left; repeat split; lia].
  simpl.
  destruct (sendDatapoint fuel up1) as [[r1 n1]|] eqn:H1; [|exact Hdue].
  destruct r1 as [b1|e1].
  - destruct (sendDatapoint fuel up2) as [[r2 n2]|] eqn:H2; [|exact Hdue].
    destruct r2 as [b2|e2].
    + right. repeat split. exact Hdue.
    + destruct (sendDatapoint_outcome fuel up2 (Raise e2) n2 H2)
        as (_ & _ & _ & Hraise).
      destruct (proj1 (Hraise e2) eq_refl) as [He _].
      repeat split; simpl; try lia. exact He.
  - destruct (sendDatapoint_outcome fuel up1 (Raise e1) n1 H1)
      as (_ & _ & _ & Hraise).
    destruct (proj1 (Hraise e1) eq_refl) as [He _].
    repeat split; simpl; try lia. exact He.
Qed.

(** X7.  After a round that published, [_networkThread] publishes
    nothing for the next [DATA_DELAY_SEC = 15] seconds: the round has set
    [LastDataUpdate] to its own second, both points were handed to
    [sendDatapoint], and any round up to 15 seconds later leaves the
    state as it is and does not sample the sensor. *)
Theorem X7_telemetry_waits_after_a_round
    (fuel : nat) (now : Z) (adc : window) (up1 up2 : uplink)
    (s s1 : AutoPump) (sent : list point) :
  _networkThread_poll fuel now adc up1 up2 s = Polled s1 sent ->
  sent <> [] ->
  length sent = 2%nat /\
  LastDataUpdate s1 = now /\
  forall fuel' now' adc' up1' up2',
    now' - now <= DATA_DELAY_SEC ->
    _networkThread_poll fuel' now' adc' up1' up2' s1 = Polled s1 [].
Proof.
  intros Hpoll Hsent.
  pose proof (_networkThread_poll_cases fuel now adc up1 up2 s) as Hcases.
  rewrite Hpoll in Hcases.
  destruct Hcases as [(Hnil & _)|(Hlen & Hlast & _)]; [contradiction|].
  split; [exact Hlen|]. split; [exact Hlast|].
  intros fuel' now' adc' up1' up2' Hsoon.
  apply _networkThread_poll_idle. lia.
Qed.

Lemma X7_telemetry_waits_after_a_round_witness :
  _networkThread_poll 1 16 (0, [3]) uplink_ok uplink_ok boot_auto =
    Polled (set_LastDataUpdate 16 (emit E_adc_sample boot_auto))
      [(PUMP_MEASUREMENT, 3, true); (PUMP_MODE, 0, true)] /\
  _networkThread_poll 1 31 (0, [9]) uplink_ok uplink_ok
    (set_LastDataUpdate 16 (emit E_adc_sample boot_auto)) =
    Polled (set_LastDataUpdate 16 (emit E_adc_sample boot_auto)) [].
Proof.
  split; [reflexivity|].
  destruct (X7_telemetry_waits_after_a_round 1 16 (0, [3]) uplink_ok uplink_ok
              boot_auto (set_LastDataUpdate 16 (emit E_adc_sample boot_auto))
              [(PUMP_MEASUREMENT, 3, true); (PUMP_MODE, 0, true)]
              eq_refl ltac:(discriminate))
    as (_ & _ & Hidle).
  apply Hidle. vm_compute. discriminate.
Defined.

(** X8.  A round cut short by an exception does not move
    [LastDataUpdate]: the exception is the [ValueError] of a body that
    does not parse, at most the load point was published, and the round
    is due again at once and at any later second, so the thread does not
    wait [DATA_DELAY_SEC] before it publishes the load again. *)
Theorem X8_telemetry_restart_is_due_again
    (fuel : nat) (now : Z) (adc : window) (up1 up2 : uplink)
    (s s1 : AutoPump) (e : exn) (sent : list point) :
  _networkThread_poll fuel now adc up1 up2 s = Restarted s1 e sent ->
  e = ValueError /\
  (length sent <= 1)%nat /\
  LastDataUpdate s1 = LastDataUpdate s /\
  forall now', now <= now' -> DATA_DELAY_SEC < now' - LastDataUpdate s1.
Proof.
  intros Hpoll.
  pose proof (_networkThread_poll_cases fuel now adc up1 up2 s) as Hcases.
  rewrite Hpoll in Hcases.
  destruct Hcases as (He & Hlen & Hlast & Hdue).
  repeat split; try assumption. intros now' Hlater. lia.
Qed.

Lemma X8_telemetry_restart_is_due_again_witness :
  _networkThread_poll 1 16 (0, [3]) uplink_ok
    {| wifi := fun _ => true; posts := fun _ => PostResponse "busy" false |}
    boot_auto =
    Restarted (emit E_adc_sample boot_auto) ValueError
      [(PUMP_MEASUREMENT, 3, true)] /\
  DATA_DELAY_SEC < 17 - LastDataUpdate (emit E_adc_sample boot_auto).
Proof.
  split; [reflexivity|].
  destruct (X8_telemetry_restart_is_due_again 1 16 (0, [3]) uplink_ok
              {| wifi := fun _ => true;
                 posts := fun _ => PostResponse "busy" false |}
              boot_auto (emit E_adc_sample boot_auto) ValueError
              [(PUMP_MEASUREMENT, 3, true)] eq_refl)
    as (_ & _ & _ & Hdue).
  apply Hdue. vm_compute. discriminate.
Defined.

End Publisher.

Section Modes.

Context {fl : Float}.

(** ** The relay *)

Ltac bool_to_prop :=
  repeat match goal with
         | H : (_ >? _) = true |- _ => apply Z.gtb_lt in H
         | H : (_ >? _) = false |- _ => rewrite Z.gtb_ltb in H; apply Z.ltb_ge in H
         | H : (_ >=? _) = true |- _ => apply Z.geb_le in H
         | H : (_ >=? _) = false |- _ => rewrite Z.geb_leb in H; apply Z.leb_gt in H
         | H : (_ <? _) = true |- _ => apply Z.ltb_lt in H
         | H : (_ <? _) = false |- _ => apply Z.ltb_ge in H
         | H : (_ =? _) = true |- _ => apply Z.eqb_eq in H
         | H : (_ =? _) = false |- _ => apply Z.eqb_neq in H
         | H : truthy _ = true |- _ => apply truthy_spec in H
         end.

(** X9.  The relay is only ever energized by a press of the button in a
    standby mode: an event that finds the relay off and leaves it on is
    a press, either in timer standby with minutes on the clock or in the
    auto menu on its first entry, and the press records its second as
    the start of the job. *)
Theorem X9_relay_energized_only_by_a_press (e : event) (s s' : AutoPump) :
  step e s = Ok s' ->
  Pump_isOn s = false ->
  Pump_isOn s' = true ->
  exists now,
    e = Button now /\
    PumpStartTime s' = now /\
    ((Mode s = MODE_TIMER_STANDBY /\ 0 < RemainingPumpMinutes s /\
      Mode s' = MODE_TIMER_PUMPING) \/
     (Mode s = MODE_AUTO_STANDBY /\ AutoMode s = AUTO_MODE_MENU /\
      AutoMenuSelected s = AUTO_MENU_RUN /\ Mode s' = MODE_AUTO_PUMPING)).
Proof.
  unfold Pump_isOn. intros Hstep Hoff Hon.
  destruct e as [pos|change|now|now adc]; simpl in Hstep.
  - injection Hstep as <-. exfalso. revert Hon.
    unfold handleSwitch, handleSwitch_mode. handler_cases; congruence.
  - injection Hstep as <-. exfalso. revert Hon.
    unfold handleKnob. handler_cases; congruence.
  - injection Hstep as <-. exists now. split; [reflexivity|]. revert Hon.
    unfold handleButton.
    handler_cases; intros Hon; try congruence; bool_to_prop;
      (split; [reflexivity|]); [right|left]; repeat split; assumption.
  - exfalso. revert Hstep Hon.
    unfold _run, _run_timer_pumping, int_div, _run_auto_check,
      _run_auto_display, checkLoadToStop, mbind, result_bind.
    handler_cases; intros [= <-]; simpl; congruence.
Qed.

(** X10.  In every reachable state a powered relay means a pumping
    mode, a timer job means a powered relay, and in both standby modes
    the relay is off. *)
Theorem X10_relay_and_mode (s : AutoPump) :
  reachable s ->
  (Pump_isOn s = true ->
   Mode s = MODE_AUTO_PUMPING \/ Mode s = MODE_TIMER_PUMPING) /\
  (Mode s = MODE_TIMER_PUMPING -> Pump_isOn s = true) /\
  (Mode s = MODE_AUTO_STANDBY \/ Mode s = MODE_TIMER_STANDBY ->
   Pump_isOn s = false).
Proof.
  intros Hreach. destruct (reachable_inv s Hreach) as (Hon & Htimer & _).
  unfold Pump_isOn. split; [exact Hon|]. split; [exact Htimer|].
  intros Hstandby. destruct (PumpPower s); [|reflexivity].
  destruct (Hon eq_refl) as [H|H]; destruct Hstandby; congruence.
Qed.

(** ** The knob *)

Lemma handleKnob_relay (change : Z) (s : AutoPump) :
  PumpPower (handleKnob change s) = PumpPower s.
Proof. unfold handleKnob. handler_cases; reflexivity. Qed.

Lemma handleKnob_timer (change : Z) (s : AutoPump) :
  Mode s = MODE_TIMER_STANDBY ->
  RemainingPumpMinutes (handleKnob change s) = Z.max 0 (EncoderKnob s) /\
  EncoderKnob (handleKnob change s) = Z.max 0 (EncoderKnob s) /\
  Display (handleKnob change s) = Number (Z.max 0 (EncoderKnob s)).
Proof.
  intros Hmode. unfold handleKnob. rewrite Hmode. simpl.
  destruct (Z.ltb_spec (EncoderKnob s) 0); simpl;
    repeat split; try f_equal; lia.
Qed.

Lemma turn_knob_relay (changes : list Z) (s : AutoPump) :
  PumpPower (turn_knob changes s) = PumpPower s.
Proof.
  induction changes as [|change changes IH] using rev_ind; [reflexivity|].
  rewrite turn_knob_snoc, handleKnob_relay. exact IH.
Qed.

(** X12.  In timer standby every run of knob rotations leaves the
    remaining minutes at the counter of the knob clamped at zero from
    below (there is no upper bound), writes the clamped value back into
    the counter and shows it; the mode and the relay are not touched. *)
Theorem X12_timer_knob_sets_the_minutes (changes : list Z) (s : AutoPump) :
  Mode s = MODE_TIMER_STANDBY ->
  changes <> [] ->
  0 <= RemainingPumpMinutes (turn_knob changes s) /\
  EncoderKnob (turn_knob changes s) =
    RemainingPumpMinutes (turn_knob changes s) /\
  Display (turn_knob changes s) =
    Number (RemainingPumpMinutes (turn_knob changes s)) /\
  Mode (turn_knob changes s) = MODE_TIMER_STANDBY /\
  PumpPower (turn_knob changes s) = PumpPower s /\
  forall change,
    RemainingPumpMinutes (turn_knob (changes ++ [change]) s) =
      Z.max 0 (RemainingPumpMinutes (turn_knob changes s) + change).
Proof.
  intros Hmode Hne.
  assert (Hstep : forall cs c,
            RemainingPumpMinutes (turn_knob (cs ++ [c]) s) =
              Z.max 0 (EncoderKnob (turn_knob cs s) + c) /\
            EncoderKnob (turn_knob (cs ++ [c]) s) =
              Z.max 0 (EncoderKnob (turn_knob cs s) + c) /\
            Display (turn_knob (cs ++ [c]) s) =
              Number (Z.max 0 (EncoderKnob (turn_knob cs s) + c))).
  { intros cs c. rewrite turn_knob_snoc.
    destruct (turn_knob_frame cs s) as (_ & _ & Hm & _).
    apply (handleKnob_timer c (EncoderKnob_turn c (turn_knob cs s))).
    simpl. congruence. }
  induction changes as [|c cs IHc] using rev_ind; [congruence|]. clear IHc.
  destruct (turn_knob_frame (cs ++ [c]) s) as (_ & _ & Hm & _).
  destruct (Hstep cs c) as (Hr & Hk & Hd).
  rewrite Hr, Hk, Hd, turn_knob_relay.
  repeat split; try lia; try congruence.
  intros change. destruct (Hstep (cs ++ [c]) change) as (-> & _).
  rewrite Hk. reflexivity.
Qed.

Lemma AutoMenu_at_in (i : Z) : 0 <= i < 3 -> In (AutoMenu_at i) AutoMenu.
Proof.
  intros Hi. assert (H : i = 0 \/ i = 1 \/ i = 2) by lia.
  destruct H as [-> | [-> | ->]]; simpl; auto.
Qed.

(** The counter of the knob after a run of rotations that no handler
    writes back. *)
Lemma turn_knob_menu (changes : list Z) (s : AutoPump) :
  Mode s = MODE_AUTO_STANDBY -> AutoMode s = AUTO_MODE_MENU ->
  EncoderKnob (turn_knob changes s) =
    EncoderKnob s + fold_left Z.add changes 0 /\
  (changes <> [] ->
   AutoMenuSelected (turn_knob changes s) =
     (EncoderKnob s + fold_left Z.add changes 0) mod 3 /\
   Display (turn_knob changes s) =
     Text (AutoMenu_at (AutoMenuSelected (turn_knob changes s)))).
Proof.
  intros Hmode Hauto.
  induction changes as [|c cs IH] using rev_ind.
  - simpl. split; [lia|congruence].
  - destruct IH as [Hk _].
    destruct (turn_knob_frame cs s) as (_ & _ & Hm & Ha).
    rewrite turn_knob_snoc, fold_left_app. simpl.
    unfold handleKnob. simpl. rewrite Hm, Hmode, Ha, Hauto. simpl.
    rewrite Hk. split; [lia|]. intros _.
    split; [f_equal; lia|reflexivity].
Qed.

(** X13.  In the auto menu a run of knob rotations selects the entry
    whose index is the counter of the knob modulo 3, a number among 0,
    1 and 2 also when the counter is negative, and shows its label; the
    counter itself is not written back, so three more clicks in either
    direction select the same entry. *)
Theorem X13_menu_knob_cycles (changes : list Z) (s : AutoPump) :
  Mode s = MODE_AUTO_STANDBY ->
  AutoMode s = AUTO_MODE_MENU ->
  changes <> [] ->
  AutoMenuSelected (turn_knob changes s) =
    (EncoderKnob s + fold_left Z.add changes 0) mod 3 /\
  0 <= AutoMenuSelected (turn_knob changes s) < 3 /\
  In (AutoMenu_at (AutoMenuSelected (turn_knob changes s))) AutoMenu /\
  Display (turn_knob changes s) =
    Text (AutoMenu_at (AutoMenuSelected (turn_knob changes s))) /\
  EncoderKnob (turn_knob changes s) =
    EncoderKnob s + fold_left Z.add changes 0 /\
  AutoMenuSelected (turn_knob (changes ++ [3]) s) =
    AutoMenuSelected (turn_knob changes s) /\
  AutoMenuSelected (turn_knob (changes ++ [-3]) s) =
    AutoMenuSelected (turn_knob changes s).
Proof.
  intros Hmode Hauto Hne.
  destruct (turn_knob_menu changes s Hmode Hauto) as [Hk Hsel].
  destruct (Hsel Hne) as [Hs Hd].
  assert (Hrange : 0 <= AutoMenuSelected (turn_knob changes s) < 3).
  { rewrite Hs. apply Z.mod_pos_bound. lia. }
  split; [exact Hs|]. split; [exact Hrange|].
  split; [now apply AutoMenu_at_in|]. split; [exact Hd|].
  split; [exact Hk|].
  assert (Hmore : forall d k,
            d = 3 * k ->
            AutoMenuSelected (turn_knob (changes ++ [d]) s) =
              AutoMenuSelected (turn_knob changes s)).
  { intros d k ->.
    destruct (turn_knob_menu (changes ++ [3 * k]) s Hmode Hauto) as [_ Hsel'].
    destruct Hsel' as [-> _]; [now destruct changes|].
    rewrite Hs, fold_left_app. simpl.
    replace (EncoderKnob s + (fold_left Z.add changes 0 + 3 * k))
      with (EncoderKnob s + fold_left Z.add changes 0 + k * 3) by lia.
    apply Z.mod_add. lia. }
  split; [apply (Hmore 3 1)|apply (Hmore (-3) (-1))]; reflexivity.
Qed.

(** X14.  While a job is pumping, and in the water calibration screen,
    the knob is ignored: a run of rotations changes nothing but the
    counter of the knob, which moves by their sum. *)
Theorem X14_knob_ignored (changes : list Z) (s : AutoPump) :
  Mode s = MODE_AUTO_PUMPING \/ Mode s = MODE_TIMER_PUMPING \/
  (Mode s = MODE_AUTO_STANDBY /\ AutoMode s = AUTO_CALIB_WATER) ->
  turn_knob changes s =
    set_EncoderKnob (EncoderKnob s + fold_left Z.add changes 0) s.
Proof.
  intros Hignored.
  induction changes as [|c cs IH] using rev_ind.
  - simpl. destruct s; simpl. unfold set_EncoderKnob; simpl.
    f_equal. lia.
  - rewrite turn_knob_snoc, IH, fold_left_app. simpl.
    unfold handleKnob. simpl.
    destruct Hignored as [Hm|[Hm|[Hm Ha]]]; rewrite Hm; simpl;
      try rewrite Ha; unfold EncoderKnob_turn, set_EncoderKnob; simpl;
      f_equal; lia.
Qed.

(** ** A timer job *)

Lemma timer_tick_running (now minutes : Z) (adc : window) (s : AutoPump) :
  Mode s = MODE_TIMER_PUMPING ->
  now - PumpStartTime s < SecondsToPump s ->
  int_div (SecondsToPump s + 59 - (now - PumpStartTime s)) 60 = Ok minutes ->
  exists s',
    _run now adc s = Ok s' /\
    Mode s' = MODE_TIMER_PUMPING /\
    PumpPower s' = PumpPower s /\
    SecondsToPump s' = SecondsToPump s /\
    PumpStartTime s' = PumpStartTime s.
Proof.
  intros Hmode Hrun Hmin.
  unfold _run, _run_timer_pumping, mbind, result_bind.
  rewrite Hmode, Hmin. simpl.
  destruct (Z.geb_spec (now - PumpStartTime s) (SecondsToPump s)); [lia|].
  eexists. split; [reflexivity|].
  simpl. repeat split. exact Hmode.
Qed.

Lemma timer_tick_done (now minutes : Z) (adc : window) (s : AutoPump) :
  Mode s = MODE_TIMER_PUMPING ->
  SecondsToPump s <= now - PumpStartTime s ->
  int_div (SecondsToPump s + 59 - (now - PumpStartTime s)) 60 = Ok minutes ->
  exists s',
    _run now adc s = Ok s' /\
    PumpPower s' = false /\
    Mode s' = MODE_TIMER_STANDBY /\
    RemainingPumpMinutes s' = 0.
Proof.
  intros Hmode Hdone Hmin.
  unfold _run, _run_timer_pumping, mbind, result_bind.
  rewrite Hmode, Hmin. simpl.
  destruct (Z.geb_spec (now - PumpStartTime s) (SecondsToPump s)); [|lia].
  eexists. split; [reflexivity|].
  repeat split.
Qed.

Lemma timer_ticks_running (ticks : list (Z * window)) : forall s,
  Mode s = MODE_TIMER_PUMPING ->
  Forall (fun t => fst t - PumpStartTime s < SecondsToPump s) ticks ->
  Forall (fun t =>
            exists minutes,
              int_div (SecondsToPump s + 59 - (fst t - PumpStartTime s)) 60
                = Ok minutes) ticks ->
  exists s',
    run_events (map (fun t => Tick (fst t) (snd t)) ticks) s = Ok s' /\
    Mode s' = MODE_TIMER_PUMPING /\
    PumpPower s' = PumpPower s /\
    SecondsToPump s' = SecondsToPump s /\
    PumpStartTime s' = PumpStartTime s.
Proof.
  induction ticks as [|t ticks IH]; intros s Hmode Hall Hconv; simpl.
  - exists s. repeat split. exact Hmode.
  - inversion Hall as [|t' ticks' Ht Hrest]; subst.
    inversion Hconv as [|t' ticks' [minutes Hmin] Hconvs]; subst.
    destruct (timer_tick_running (fst t) minutes (snd t) s Hmode Ht Hmin)
      as (s1 & Hrun & Hm1 & Hp1 & Hs1 & Ht1).
    rewrite Hrun. simpl.
    destruct (IH s1 Hm1) as (s' & Hruns & Hm & Hp & Hs & Hst).
    { rewrite Hs1, Ht1. exact Hrest. }
    { rewrite Hs1, Ht1. exact Hconvs. }
    exists s'. split; [exact Hruns|].
    repeat split; congruence.
Qed.

(** X15.  A press in timer standby with [m > 0] minutes on the clock
    starts a job of [60 * m] seconds.  Through any ticks before second
    [t0 + 60 * m] whose countdown [int((60 * m + 59 - e) / 60)] converts,
    the relay stays on, the mode stays timer pumping and [SecondsToPump]
    keeps its value; the first such tick at or after that second
    releases the relay, returns to timer standby and leaves [0] minutes;
    and so does a press at any moment of the job. *)
Theorem X15_timer_job (t0 : Z) (ticks : list (Z * window)) (s : AutoPump) :
  Mode s = MODE_TIMER_STANDBY ->
  0 < RemainingPumpMinutes s ->
  Forall (fun t => fst t < t0 + 60 * RemainingPumpMinutes s) ticks ->
  Forall (fun t =>
            exists minutes,
              int_div (60 * RemainingPumpMinutes s + 59 - (fst t - t0)) 60
                = Ok minutes) ticks ->
  exists s',
    run_events (map (fun t => Tick (fst t) (snd t)) ticks)
      (handleButton t0 s) = Ok s' /\
    Mode s' = MODE_TIMER_PUMPING /\
    Pump_isOn s' = true /\
    SecondsToPump s' = 60 * RemainingPumpMinutes s /\
    (forall now adc minutes,
       t0 + 60 * RemainingPumpMinutes s <= now ->
       int_div (60 * RemainingPumpMinutes s + 59 - (now - t0)) 60
         = Ok minutes ->
       exists s'',
         _run now adc s' = Ok s'' /\
         Pump_isOn s'' = false /\
         Mode s'' = MODE_TIMER_STANDBY /\
         RemainingPumpMinutes s'' = 0) /\
    (forall now,
       Pump_isOn (handleButton now s') = false /\
       Mode (handleButton now s') = MODE_TIMER_STANDBY /\
       RemainingPumpMinutes (handleButton now s') = 0).
Proof.
  intros Hmode Hmin Hall Hconv.
  assert (Hstart : Mode (handleButton t0 s) = MODE_TIMER_PUMPING /\
                   PumpPower (handleButton t0 s) = true /\
                   SecondsToPump (handleButton t0 s) =
                     60 * RemainingPumpMinutes s /\
                   PumpStartTime (handleButton t0 s) = t0).
  { unfold handleButton. rewrite Hmode.
    replace (RemainingPumpMinutes s >? 0) with true
      by (symmetry; apply Z.gtb_lt; lia).
    simpl. repeat split. lia. }
  destruct Hstart as (Hm0 & Hp0 & Hs0 & Ht0).
  destruct (timer_ticks_running ticks (handleButton t0 s) Hm0)
    as (s' & Hruns & Hm & Hp & Hs & Hst).
  { rewrite Hs0, Ht0. eapply Forall_impl; [exact Hall|].
    intros t Ht. simpl in Ht. lia. }
  { rewrite Hs0, Ht0. exact Hconv. }
  exists s'. split; [exact Hruns|]. split; [exact Hm|].
  unfold Pump_isOn. split; [congruence|]. split; [congruence|]. split.
  - intros now adc minutes Hlate Hconv'.
    apply (timer_tick_done now minutes); [exact Hm| |].
    + rewrite Hs, Hst, Hs0, Ht0. lia.
    + rewrite Hs, Hst, Hs0, Ht0. exact Hconv'.
  - intros now. unfold handleButton. rewrite Hm. repeat split.
Qed.

(** ** Calibration and the file *)

(** X16.  Entering the threshold screen seeds the knob with the current
    threshold and writes nothing; a rotation by [change] then sets the
    threshold to [T + change] clamped into [0, 100]; the confirming
    press stores that value in the dict and in [/config.py], returns to
    the menu on the same entry with the knob back on its index, and
    leaves the mode and the relay alone. *)
Theorem X16_threshold_screen (now1 now2 change : Z) (s : AutoPump) :
  Mode s = MODE_AUTO_STANDBY ->
  AutoMode s = AUTO_MODE_MENU ->
  AutoMenuSelected s = 1 ->
  let s1 := handleButton now1 s in
  let s2 := turn_knob [change] s1 in
  let s3 := handleButton now2 s2 in
  (AutoMode s1 = AUTO_CALIB_THRESHOLD /\
   EncoderKnob s1 = AutoThreshold s /\
   Display s1 = Number (AutoThreshold s) /\
   config_py s1 = config_py s) /\
  (AutoThreshold s2 = Z.max 0 (Z.min 100 (AutoThreshold s + change)) /\
   config_py s2 = config_py s) /\
  (AutoMode s3 = AUTO_MODE_MENU /\
   saved_threshold s3 = Some (AutoThreshold s2) /\
   Config s3 !! "auto_threshold" = Some (AutoThreshold s2) /\
   AutoThreshold s3 = AutoThreshold s2 /\
   EncoderKnob s3 = 1 /\
   Display s3 = Text "RATO" /\
   Mode s3 = MODE_AUTO_STANDBY /\
   PumpPower s3 = PumpPower s).
Proof.
  intros Hmode Hauto Hsel s1 s2 s3.
  assert (H1 : AutoMode s1 = AUTO_CALIB_THRESHOLD /\
               EncoderKnob s1 = AutoThreshold s /\
               Display s1 = Number (AutoThreshold s) /\
               config_py s1 = config_py s /\
               Mode s1 = MODE_AUTO_STANDBY /\
               AutoThreshold s1 = AutoThreshold s /\
               AutoMenuSelected s1 = 1 /\
               PumpPower s1 = PumpPower s).
  { unfold s1, handleButton. rewrite Hmode, Hauto, Hsel. simpl.
    repeat split; assumption. }
  destruct H1 as (Ha1 & Hk1 & Hd1 & Hf1 & Hm1 & Ht1 & Hs1 & Hp1).
  assert (H2 : AutoThreshold s2 = Z.max 0 (Z.min 100 (AutoThreshold s + change)) /\
               config_py s2 = config_py s /\
               Mode s2 = MODE_AUTO_STANDBY /\
               AutoMode s2 = AUTO_CALIB_THRESHOLD /\
               AutoMenuSelected s2 = 1 /\
               PumpPower s2 = PumpPower s).
  { unfold s2, turn_knob. simpl.
    destruct (handleKnob_threshold change (EncoderKnob_turn change s1))
      as [Hv _]; [exact Hm1 | exact Ha1 |].
    destruct (handleKnob_frame change (EncoderKnob_turn change s1))
      as (_ & Hf & Hm & Ha).
    rewrite Hv, Hf, Hm, Ha, handleKnob_relay. simpl.
    rewrite Hk1. repeat split; try assumption.
    unfold handleKnob. simpl. rewrite Hm1, Ha1. simpl.
    destruct (EncoderKnob s1 + change <? 0); simpl;
      [exact Hs1|destruct (_ >? 100); simpl; exact Hs1]. }
  destruct H2 as (Ht2 & Hf2 & Hm2 & Ha2 & Hs2 & Hp2).
  split; [repeat split; assumption|]. split; [split; assumption|].
  unfold s3, saved_threshold, handleButton. rewrite Hm2, Ha2. simpl.
  rewrite Hs2, lookup_insert_eq. repeat split; assumption.
Qed.

(** X17.  What a press in a calibration screen saves is what the next
    boot reads back: after the press in the threshold screen, a boot
    from [/config.py] starts with that threshold, and after the press in
    the water screen with that baseline.  The other value comes from
    the dict as it was, or from the default (60, 2000) when the dict has
    no entry for it, whatever the controller held in memory. *)
Theorem X17_saved_calibration_is_read_back
    (now knob0 pos : Z) (s : AutoPump) :
  Mode s = MODE_AUTO_STANDBY ->
  (AutoMode s = AUTO_CALIB_THRESHOLD ->
   AutoThreshold (AutoPump_init (config_py (handleButton now s)) knob0 pos) =
     AutoThreshold s /\
   AutoWaterLoad (AutoPump_init (config_py (handleButton now s)) knob0 pos) =
     default DEFAULT_AUTO_WATER_LOAD (Config s !! "auto_water_load")) /\
  (AutoMode s = AUTO_CALIB_WATER ->
   AutoWaterLoad (AutoPump_init (config_py (handleButton now s)) knob0 pos) =
     AutoWaterLoad s /\
   AutoThreshold (AutoPump_init (config_py (handleButton now s)) knob0 pos) =
     default DEFAULT_AUTO_PUMP_THRESHOLD (Config s !! "auto_threshold")).
Proof.
  intros Hmode.
  assert (Hboot : forall config,
            AutoThreshold (AutoPump_init config knob0 pos) =
              default DEFAULT_AUTO_PUMP_THRESHOLD (config !! "auto_threshold") /\
            AutoWaterLoad (AutoPump_init config knob0 pos) =
              default DEFAULT_AUTO_WATER_LOAD (config !! "auto_water_load")).
  { intros config. unfold AutoPump_init, handleSwitch, handleSwitch_mode.
    destruct (negb (pos =? SWITCH_AUTO)); split; reflexivity. }
  split; intros Hauto;
    destruct (Hboot (config_py (handleButton now s))) as [-> ->];
    unfold handleButton; rewrite Hmode, Hauto; simpl.
  - rewrite lookup_insert_eq, lookup_insert_ne by discriminate.
    split; reflexivity.
  - rewrite lookup_insert_eq, lookup_insert_ne by discriminate.
    split; reflexivity.
Qed.

(** Only a press in the water screen changes the baseline held by
    [/config.py]. *)
Lemma step_saved_baseline (e : event) (t t' : AutoPump) :
  reachable t -> step e t = Ok t' ->
  config_py t' !! "auto_water_load" <> config_py t !! "auto_water_load" ->
  exists now,
    e = Button now /\
    Mode t = MODE_AUTO_STANDBY /\ AutoMode t = AUTO_CALIB_WATER /\
    config_py t' !! "auto_water_load" = Some (AutoWaterLoad t).
Proof.
  intros Hreach Hstep Hchg.
  destruct (reachable_inv t Hreach) as (_ & _ & _ & Hcfg & _).
  destruct e as [pos|change|now|now adc]; simpl in Hstep.
  - exfalso. apply Hchg. injection Hstep as <-.
    unfold handleSwitch, handleSwitch_mode. handler_cases; reflexivity.
  - exfalso. apply Hchg. injection Hstep as <-.
    destruct (handleKnob_frame change (EncoderKnob_turn change t))
      as (_ & -> & _). reflexivity.
  - exists now. split; [reflexivity|].
    injection Hstep as <-.
    destruct (Mode t) eqn:Hm, (AutoMode t) eqn:Ha;
      try (repeat split; unfold handleButton; rewrite Hm, Ha; simpl;
           apply lookup_insert_eq);
      exfalso; apply Hchg; unfold handleButton; rewrite Hm, ?Ha;
      handler_cases; try reflexivity.
    rewrite lookup_insert_ne by discriminate. now rewrite Hcfg.
  - exfalso. apply Hchg. revert Hstep.
    unfold _run, _run_timer_pumping, int_div, _run_auto_check,
      _run_auto_display, checkLoadToStop, mbind, result_bind.
    handler_cases; intros [= <-]; reflexivity.
Qed.

(** X18.  In every reachable state [/config.py] holds exactly the dict
    of the controller, and the baseline it holds changes only by a press
    in the water calibration screen, which writes the baseline sampled
    last: the ticks that re-sample the baseline in that screen never
    write it to flash. *)
Theorem X18_baseline_saved_only_by_a_press
    (e : event) (t t' : AutoPump) :
  reachable t ->
  step e t = Ok t' ->
  Config t = config_py t /\
  Config t' = config_py t' /\
  (config_py t' !! "auto_water_load" <> config_py t !! "auto_water_load" ->
   exists now,
     e = Button now /\
     Mode t = MODE_AUTO_STANDBY /\ AutoMode t = AUTO_CALIB_WATER /\
     config_py t' !! "auto_water_load" = Some (AutoWaterLoad t)).
Proof.
  intros Hreach Hstep.
  destruct (reachable_inv t Hreach) as (_ & _ & _ & Hcfg & _).
  destruct (reachable_inv t' (reachable_step e t t' Hreach Hstep))
    as (_ & _ & _ & Hcfg' & _).
  split; [exact Hcfg|]. split; [exact Hcfg'|].
  now apply step_saved_baseline.
Qed.

(** ** Indices and the countdown *)

Ltac countdown_solve :=
  bool_to_prop; repeat split; intros;
  try congruence; try lia;
  try (eapply float_to_int_nonneg; [| |eassumption]; lia);
  try (apply Z.mod_mul; lia);
  try (intuition congruence).

Lemma step_countdown_inv (e : event) (s s' : AutoPump) :
  countdown_inv s -> step e s = Ok s' -> countdown_inv s'.
Proof.
  unfold countdown_inv. intros (Hidx & Hmin & Hsecs).
  destruct e as [pos|change|now|now adc]; simpl.
  - intros [= <-]. unfold handleSwitch, handleSwitch_mode.
    handler_cases; countdown_solve.
  - intros [= <-]. unfold handleKnob.
    handler_cases; countdown_solve; auto.
  - intros [= <-]. unfold handleButton.
    handler_cases; countdown_solve; auto.
  - unfold _run, _run_timer_pumping, int_div, _run_auto_check,
      _run_auto_display, checkLoadToStop, mbind, result_bind.
    handler_cases; intros [= <-]; simpl; countdown_solve; auto.
Qed.

Lemma reachable_countdown_inv (s : AutoPump) : reachable s -> countdown_inv s.
Proof.
  induction 1 as [config knob0 pos|e s s' _ IH Hstep].
  - unfold countdown_inv, AutoPump_init, handleSwitch, handleSwitch_mode.
    handler_cases; countdown_solve.
  - exact (step_countdown_inv e s s' IH Hstep).
Qed.

(** X19.  In every reachable state the two list indices of the
    controller are in range: [AutoMenuSelected] is 0, 1 or 2 and
    [AutoAnimationIdx] is below 8, so [AutoMenu[...]] is one of the three
    labels and [AutoAnimation[...]] one of the eight glyphs; neither
    lookup can raise [IndexError]. *)
Theorem X19_list_indices_in_range (s : AutoPump) :
  reachable s ->
  0 <= AutoMenuSelected s < Z.of_nat (length AutoMenu) /\
  In (AutoMenu_at (AutoMenuSelected s)) AutoMenu /\
  0 <= AutoAnimationIdx s < Z.of_nat (length AutoAnimation) /\
  In (AutoAnimation_at (AutoAnimationIdx s)) AutoAnimation.
Proof.
  intros Hreach.
  destruct (reachable_inv s Hreach) as (_ & _ & _ & _ & Hsel).
  destruct (reachable_countdown_inv s Hreach) as (Hidx & _).
  split; [exact Hsel|]. split; [now apply AutoMenu_at_in|].
  split; [exact Hidx|].
  simpl in Hidx.
  assert (H : AutoAnimationIdx s = 0 \/ AutoAnimationIdx s = 1 \/
              AutoAnimationIdx s = 2 \/ AutoAnimationIdx s = 3 \/
              AutoAnimationIdx s = 4 \/ AutoAnimationIdx s = 5 \/
              AutoAnimationIdx s = 6 \/ AutoAnimationIdx s = 7) by lia.
  repeat (destruct H as [-> | H]; [simpl; tauto|]).
  rewrite H. simpl. tauto.
Qed.

(** X20.  In every reachable state the remaining minutes are not
    negative, and while a timer job runs [SecondsToPump] is a whole
    number of minutes, at least one: [SecondsToPump >= 60] and
    [SecondsToPump % 60 = 0]. *)
Theorem X20_countdown_fields (s : AutoPump) :
  reachable s ->
  0 <= RemainingPumpMinutes s /\
  (Mode s = MODE_TIMER_PUMPING ->
   60 <= SecondsToPump s /\ SecondsToPump s mod 60 = 0).
Proof.
  intros Hreach.
  destruct (reachable_countdown_inv s Hreach) as (_ & Hmin & Hsecs).
  split; assumption.
Qed.

(** ** The standby and pumping screens *)

(** X21.  The water calibration screen samples its baseline with the
    relay off.  In every reachable state of that screen the pump is not
    running, and a tick returns: when its second is not a multiple of 5
    the baseline becomes the sample of the sensor, otherwise it is kept;
    the tick shows the baseline and leaves the relay, the mode and
    [/config.py] alone. *)
Theorem X21_water_screen_samples_with_relay_off
    (now : Z) (adc : window) (s : AutoPump) :
  reachable s ->
  Mode s = MODE_AUTO_STANDBY ->
  AutoMode s = AUTO_CALIB_WATER ->
  Pump_isOn s = false /\
  exists s',
    _run now adc s = Ok s' /\
    AutoWaterLoad s' =
      (if now mod 5 =? 0 then AutoWaterLoad s else peak_to_peak adc) /\
    Display s' = Number (AutoWaterLoad s') /\
    Pump_isOn s' = false /\
    Mode s' = MODE_AUTO_STANDBY /\
    AutoMode s' = AUTO_CALIB_WATER /\
    config_py s' = config_py s.
Proof.
  intros Hreach Hmode Hauto.
  destruct (reachable_inv s Hreach) as (Hon & _).
  assert (Hoff : PumpPower s = false).
  { destruct (PumpPower s); [|reflexivity].
    destruct (Hon eq_refl); congruence. }
  unfold Pump_isOn. split; [exact Hoff|].
  unfold _run. rewrite Hmode, Hauto. unfold truthy.
  eexists. split; [reflexivity|].
  destruct (now mod 5 =? 0); simpl; repeat split; assumption.
Qed.

(** X22.  While auto pumping, before the completion check is due, a tick
    returns and keeps the job running.  On an even second it changes
    nothing.  On an odd second it sets the brightness to 7, writes the
    glyph [AutoAnimation[AutoAnimationIdx]] next to the elapsed minutes
    (seconds since the start divided by 60, truncated), and moves the
    frame index one step round the eight glyphs. *)
Theorem X22_auto_pumping_screen (now : Z) (adc : window) (s : AutoPump) :
  reachable s ->
  Mode s = MODE_AUTO_PUMPING ->
  now - PumpStartTime s <= AUTO_READ_DELAY ->
  exists s',
    _run now adc s = Ok s' /\
    Mode s' = MODE_AUTO_PUMPING /\
    PumpPower s' = PumpPower s /\
    (now mod 2 = 0 -> s' = s) /\
    (now mod 2 <> 0 ->
     Brightness s' = 7 /\
     Display s' =
       Segments (AutoAnimation_at (AutoAnimationIdx s))
         (Z.quot (now - PumpStartTime s) 60) /\
     AutoAnimationIdx s' = (AutoAnimationIdx s + 1) mod 8).
Proof.
  intros Hreach Hmode Hearly.
  destruct (reachable_countdown_inv s Hreach) as (Hidx & _).
  simpl in Hidx.
  unfold _run. rewrite Hmode.
  rewrite _run_auto_check_skip by lia. simpl.
  eexists. split; [reflexivity|].
  unfold _run_auto_display, truthy.
  destruct (Z.eqb_spec (now mod 2) 0) as [Heven|Hodd]; simpl.
  - split; [exact Hmode|]. split; [reflexivity|].
    split; [reflexivity|]. intros Hno. contradiction.
  - change (Z.of_nat 8) with 8 in *.
    destruct (Z.geb_spec (AutoAnimationIdx s + 1) 8) as [Hwrap|Hnext]; simpl;
      (split; [exact Hmode|]); (split; [reflexivity|]);
      (split; [intros Hno; contradiction|]);
      intros _; (split; [reflexivity|]); (split; [reflexivity|]).
    + replace (AutoAnimationIdx s + 1) with 8 by lia. reflexivity.
    + symmetry. apply Z.mod_small. lia.
Qed.

End Modes.

(** ** Concrete runs of the properties above, in single precision *)

Section ModesEsp32.

#[local] Existing Instance binary32.

Lemma X9_relay_energized_only_by_a_press_witness :
  step (Button 100) boot_auto = Ok auto_pumping_100 /\
  Pump_isOn boot_auto = false /\
  Pump_isOn auto_pumping_100 = true /\
  exists now, Button 100 = Button now /\ PumpStartTime auto_pumping_100 = now.
Proof.
  repeat (split; [reflexivity|]).
  destruct (X9_relay_energized_only_by_a_press (Button 100) boot_auto
              auto_pumping_100 eq_refl eq_refl eq_refl)
    as (now & He & Hstart & _).
  exists now. split; assumption.
Defined.

Lemma X10_relay_and_mode_witness :
  reachable timer_pumping_60 /\
  (Mode timer_pumping_60 = MODE_TIMER_PUMPING ->
   Pump_isOn timer_pumping_60 = true).
Proof.
  assert (Hreach : reachable timer_pumping_60).
  { apply (reachable_step (Button 0)
             (handleKnob 1 (EncoderKnob_turn 1 boot_manual)));
      [|reflexivity].
    apply (reachable_step (Knob 1) boot_manual); [|reflexivity].
    exact (reachable_boot ∅ 0 0). }
  split; [exact Hreach|].
  exact (proj1 (proj2 (X10_relay_and_mode timer_pumping_60 Hreach))).
Defined.

Lemma X12_timer_knob_sets_the_minutes_witness :
  Mode boot_manual = MODE_TIMER_STANDBY /\
  ([5; -7; 2] : list Z) <> [] /\
  0 <= RemainingPumpMinutes (turn_knob [5; -7; 2] boot_manual) /\
  RemainingPumpMinutes (turn_knob [5; -7; 2] boot_manual) = 2.
Proof.
  split; [reflexivity|]. split; [discriminate|].
  split; [|reflexivity].
  apply (X12_timer_knob_sets_the_minutes [5; -7; 2] boot_manual);
    [reflexivity|discriminate].
Defined.

Lemma X13_menu_knob_cycles_witness :
  Mode boot_auto = MODE_AUTO_STANDBY /\
  AutoMode boot_auto = AUTO_MODE_MENU /\
  ([-1] : list Z) <> [] /\
  AutoMenuSelected (turn_knob [-1] boot_auto) =
    (EncoderKnob boot_auto + fold_left Z.add [-1] 0) mod 3 /\
  AutoMenuSelected (turn_knob [-1] boot_auto) = 2.
Proof.
  split; [reflexivity|]. split; [reflexivity|]. split; [discriminate|].
  split; [|reflexivity].
  apply (X13_menu_knob_cycles [-1] boot_auto);
    [reflexivity|reflexivity|discriminate].
Defined.

Lemma X14_knob_ignored_witness :
  (Mode auto_pumping_100 = MODE_AUTO_PUMPING \/
   Mode auto_pumping_100 = MODE_TIMER_PUMPING \/
   (Mode auto_pumping_100 = MODE_AUTO_STANDBY /\
    AutoMode auto_pumping_100 = AUTO_CALIB_WATER)) /\
  turn_knob [2; 3] auto_pumping_100 =
    set_EncoderKnob (EncoderKnob auto_pumping_100 + fold_left Z.add [2; 3] 0)
      auto_pumping_100.
Proof.
  assert (H : Mode auto_pumping_100 = MODE_AUTO_PUMPING \/
              Mode auto_pumping_100 = MODE_TIMER_PUMPING \/
              (Mode auto_pumping_100 = MODE_AUTO_STANDBY /\
               AutoMode auto_pumping_100 = AUTO_CALIB_WATER))
    by (left; reflexivity).
  split; [exact H|].
  exact (X14_knob_ignored [2; 3] auto_pumping_100 H).
Defined.

Lemma X15_timer_job_witness :
  Mode (turn_knob [2] boot_manual) = MODE_TIMER_STANDBY /\
  0 < RemainingPumpMinutes (turn_knob [2] boot_manual) /\
  Forall
    (fun t : Z * window =>
       fst t < 0 + 60 * RemainingPumpMinutes (turn_knob [2] boot_manual))
    [(10, (0, [])); (119, (0, []))] /\
  Forall
    (fun t : Z * window =>
       exists minutes,
         int_div
           (60 * RemainingPumpMinutes (turn_knob [2] boot_manual) + 59
              - (fst t - 0)) 60 = Ok minutes)
    [(10, (0, [])); (119, (0, []))] /\
  exists s',
    run_events (map (fun t : Z * window => Tick (fst t) (snd t))
                  [(10, (0, [])); (119, (0, []))])
      (handleButton 0 (turn_knob [2] boot_manual)) = Ok s' /\
    Pump_isOn s' = true.
Proof.
  assert (Hall : Forall
            (fun t : Z * window =>
               fst t < 0 + 60 * RemainingPumpMinutes (turn_knob [2] boot_manual))
            [(10, (0, [])); (119, (0, []))]).
  { repeat constructor. }
  assert (Hconv : Forall
            (fun t : Z * window =>
               exists minutes,
                 int_div
                   (60 * RemainingPumpMinutes (turn_knob [2] boot_manual) + 59
                      - (fst t - 0)) 60 = Ok minutes)
            [(10, (0, [])); (119, (0, []))]).
  { constructor; [exists 2; vm_compute; reflexivity|].
    constructor; [exists 1; vm_compute; reflexivity|].
    constructor. }
  split; [reflexivity|]. split; [reflexivity|]. split; [exact Hall|].
  split; [exact Hconv|].
  destruct (X15_timer_job 0 [(10, (0, [])); (119, (0, []))]
              (turn_knob [2] boot_manual) eq_refl eq_refl Hall Hconv)
    as (s' & Hrun & _ & Hon & _).
  exists s'. split; assumption.
Defined.

Lemma X16_threshold_screen_witness :
  Mode (turn_knob [1] boot_auto) = MODE_AUTO_STANDBY /\
  AutoMode (turn_knob [1] boot_auto) = AUTO_MODE_MENU /\
  AutoMenuSelected (turn_knob [1] boot_auto) = 1 /\
  saved_threshold
    (handleButton 9 (turn_knob [50] (handleButton 5 (turn_knob [1] boot_auto))))
  = Some 100.
Proof.
  split; [reflexivity|]. split; [reflexivity|]. split; [reflexivity|].
  destruct (X16_threshold_screen 5 9 50 (turn_knob [1] boot_auto)
              eq_refl eq_refl eq_refl)
    as (_ & (Hthr & _) & (_ & Hsaved & _)).
  rewrite Hsaved, Hthr. reflexivity.
Defined.

Lemma X17_saved_calibration_is_read_back_witness :
  Mode calib_threshold = MODE_AUTO_STANDBY /\
  (AutoMode calib_threshold = AUTO_CALIB_THRESHOLD ->
   AutoThreshold
     (AutoPump_init (config_py (handleButton 7 calib_threshold)) 0 0) =
     AutoThreshold calib_threshold).
Proof.
  split; [reflexivity|].
  intros Hauto.
  exact (proj1 (proj1 (X17_saved_calibration_is_read_back 7 0 0
                         calib_threshold eq_refl) Hauto)).
Defined.

Lemma X18_baseline_saved_only_by_a_press_witness :
  reachable boot_auto /\
  step (Button 100) boot_auto = Ok auto_pumping_100 /\
  Config auto_pumping_100 = config_py auto_pumping_100.
Proof.
  assert (Hreach : reachable boot_auto) by exact (reachable_boot ∅ 0 SWITCH_AUTO).
  split; [exact Hreach|]. split; [reflexivity|].
  exact (proj1 (proj2 (X18_baseline_saved_only_by_a_press (Button 100)
                         boot_auto auto_pumping_100 Hreach eq_refl))).
Defined.

Lemma X19_list_indices_in_range_witness :
  reachable auto_pumping_100 /\
  0 <= AutoAnimationIdx auto_pumping_100
    < Z.of_nat (length AutoAnimation).
Proof.
  assert (Hreach : reachable auto_pumping_100).
  { apply (reachable_step (Button 100) boot_auto); [|reflexivity].
    exact (reachable_boot ∅ 0 SWITCH_AUTO). }
  split; [exact Hreach|].
  exact (proj1 (proj2 (proj2 (X19_list_indices_in_range auto_pumping_100
                                Hreach)))).
Defined.

Lemma X20_countdown_fields_witness :
  reachable timer_pumping_60 /\
  (Mode timer_pumping_60 = MODE_TIMER_PUMPING ->
   60 <= SecondsToPump timer_pumping_60 /\
   SecondsToPump timer_pumping_60 mod 60 = 0).
Proof.
  assert (Hreach : reachable timer_pumping_60).
  { apply (reachable_step (Button 0)
             (handleKnob 1 (EncoderKnob_turn 1 boot_manual)));
      [|reflexivity].
    apply (reachable_step (Knob 1) boot_manual); [|reflexivity].
    exact (reachable_boot ∅ 0 0). }
  split; [exact Hreach|].
  exact (proj2 (X20_countdown_fields timer_pumping_60 Hreach)).
Defined.

Lemma X21_water_screen_samples_with_relay_off_witness :
  reachable (handleButton 0 (turn_knob [2] boot_auto)) /\
  Mode (handleButton 0 (turn_knob [2] boot_auto)) = MODE_AUTO_STANDBY /\
  AutoMode (handleButton 0 (turn_knob [2] boot_auto)) = AUTO_CALIB_WATER /\
  Pump_isOn (handleButton 0 (turn_knob [2] boot_auto)) = false.
Proof.
  assert (Hreach : reachable (handleButton 0 (turn_knob [2] boot_auto))).
  { apply (reachable_step (Button 0) (turn_knob [2] boot_auto));
      [|reflexivity].
    apply (reachable_step (Knob 2) boot_auto); [|reflexivity].
    exact (reachable_boot ∅ 0 SWITCH_AUTO). }
  split; [exact Hreach|]. split; [reflexivity|]. split; [reflexivity|].
  exact (proj1 (X21_water_screen_samples_with_relay_off 1 (0, [0])
                  (handleButton 0 (turn_knob [2] boot_auto))
                  Hreach eq_refl eq_refl)).
Defined.

Lemma X22_auto_pumping_screen_witness :
  reachable auto_pumping_100 /\
  Mode auto_pumping_100 = MODE_AUTO_PUMPING /\
  101 - PumpStartTime auto_pumping_100 <= AUTO_READ_DELAY /\
  exists s',
    _run 101 (0, []) auto_pumping_100 = Ok s' /\
    Mode s' = MODE_AUTO_PUMPING.
Proof.
  assert (Hreach : reachable auto_pumping_100).
  { apply (reachable_step (Button 100) boot_auto); [|reflexivity].
    exact (reachable_boot ∅ 0 SWITCH_AUTO). }
  assert (Hearly : 101 - PumpStartTime auto_pumping_100 <= AUTO_READ_DELAY)
    by (vm_compute; discriminate).
  split; [exact Hreach|]. split; [reflexivity|]. split; [exact Hearly|].
  destruct (X22_auto_pumping_screen 101 (0, []) auto_pumping_100
              Hreach eq_refl Hearly)
    as (s' & Hrun & Hm & _).
  exists s'. split; assumption.
Defined.

End ModesEsp32.
